(** * ArborChat icon tooling: a shallow embedding of the build scripts

    The repository holds four Python scripts that draw, pad, complete and
    recolour the application icon:

    - [scripts/generate-icon.py]            (module [generate_icon])
    - [build/add_icon_padding.py]           (module [add_icon_padding])
    - [build/prepare_and_generate_icons.py] (module [prepare_and_generate_icons])
    - [build/generate_themed_icons.py]      (module [generate_themed_icons])

    Python floats are IEEE binary64 values, modelled with the Standard
    Library's [SpecFloat]; Pillow images are rasters with a width, a height
    and a pixel function; the file system is a finite map from paths to
    files; scripts run in a state-and-exception monad over that world. *)

From Stdlib Require Import ZArith NArith Lia Ascii String SpecFloat.
From stdpp Require Import base option strings gmap list pretty.

Open Scope Z_scope.

(** ** Python exceptions and results *)

Inductive exn :=
| ValueError
| OverflowError
| FileNotFoundError
| IndexError
| UnidentifiedImageError
| CalledProcessError (returncode : Z).

Inductive res (A : Type) :=
| Ret (a : A)
| Raise (e : exn).
Arguments Ret {A} a.
Arguments Raise {A} e.

Definition res_bind {A B} (m : res A) (k : A → res B) : res B :=
  match m with
  | Ret a => k a
  | Raise e => Raise e
  end.

Notation "'let?' x := m 'in' k" := (res_bind m (fun x => k))
  (at level 10, x name, m at level 100, k at level 200).

(** ** Python numbers: [int] is [Z], [float] is binary64 *)

Module Py.

Definition prec : Z := 53.
Definition emax : Z := 1024.

Abbreviation float := spec_float.

(** [float(n)] of an int: correctly rounded; an int that rounds past the
    largest finite double raises [OverflowError]. *)
Definition float_of_int (n : Z) : res float :=
  match binary_normalize prec emax n 0 false with
  | S754_infinity _ => Raise OverflowError
  | f => Ret f
  end.

(** [int(x)] of a float: truncation toward zero; infinities raise
    [OverflowError] and NaN raises [ValueError]. *)
Definition int_of_float (x : float) : res Z :=
  match x with
  | S754_zero _ => Ret 0
  | S754_finite s m e =>
      let v := if 0 <=? e then Z.pos m * 2 ^ e else Z.pos m / 2 ^ (- e) in
      Ret (if s then - v else v)
  | S754_infinity _ => Raise OverflowError
  | S754_nan => Raise ValueError
  end.

Definition fmul : float → float → float := SFmul prec emax.
Definition fadd : float → float → float := SFadd prec emax.
Definition fsub : float → float → float := SFsub prec emax.
Definition fdiv : float → float → float := SFdiv prec emax.

(** [n * x] with [n] an int and [x] a float: [n] is converted first. *)
Definition int_mul_float (n : Z) (x : float) : res float :=
  let? fn := float_of_int n in Ret (fmul fn x).

(** [a / b] on two ints (true division); both operands of every such
    division in the scripts are far below 2^53, where the quotient of the
    converted operands is the correctly rounded quotient. *)
Definition int_truediv (a b : Z) : res float :=
  let? fa := float_of_int a in
  let? fb := float_of_int b in
  Ret (fdiv fa fb).

End Py.

(** ** Pillow images *)

Record pixel := RGBA { red : Z; green : Z; blue : Z; alpha : Z }.

(** A raster of pixels of type [P]: mode [RGBA] when [P] is [pixel], mode
    [L] (one 8-bit band) when [P] is [Z]. *)
Record raster (P : Type) := Raster {
  width : N;
  height : N;
  getpixel : Z → Z → P
}.
Arguments Raster {P} width height getpixel.
Arguments width {P} r.
Arguments height {P} r.
Arguments getpixel {P} r x y.

Abbreviation image := (raster pixel).

Definition size {P} (im : raster P) : Z * Z :=
  (Z.of_N (width im), Z.of_N (height im)).

(** A coordinate handed to [ImageDraw]: an int or a float. *)
Inductive coord :=
| CInt (n : Z)
| CFloat (x : Py.float).

(** What the scripts take from outside the repository: Pillow's resampling
    filter and rasterisers, and libm's trigonometry. Each member yields the
    pixels only; the dimensions of the result are fixed by the wrappers
    below, as Pillow fixes them. *)
Class Imaging := {
  (** [lanczos im w h x y]: pixel [(x, y)] of [im] resampled to [w × h]
      with [Image.Resampling.LANCZOS]. *)
  lanczos : image → Z → Z → Z → Z → pixel;
  draw_polygon : image → list (coord * coord) → pixel → Z → Z → pixel;
  draw_line : image → list (coord * coord) → pixel → Z → Z → Z → pixel;
  draw_ellipse : image → (coord * coord) * (coord * coord) → pixel → Z → Z → pixel;
  draw_rounded_rectangle :
    raster Z → (Z * Z) * (Z * Z) → Z → Z → Z → Z → Z;
  libm_cos : Py.float → Py.float;
  libm_sin : Py.float → Py.float
}.

Module PIL.

(** Sizes cross into Pillow's C core as C [int]s. *)
Definition INT_MAX : Z := 2 ^ 31 - 1.

Definition fits_int (n : Z) : bool := (- INT_MAX - 1 <=? n) && (n <=? INT_MAX).

(** [Image.new(mode, (w, h), color)]. *)
Definition new {P} (w h : Z) (color : P) : res (raster P) :=
  if (w <? 0) || (h <? 0) then Raise ValueError
  else if negb (fits_int w && fits_int h) then Raise OverflowError
  else Ret (Raster (Z.to_N w) (Z.to_N h) (fun _ _ => color)).

(** [im.resize((w, h), Image.Resampling.LANCZOS)]: an image that already
    has the requested size is copied; otherwise the core rejects a size
    below 1 and resamples. *)
Definition resize `{Imaging} (im : image) (w h : Z) : res image :=
  if decide (size im = (w, h)) then Ret im
  else if negb (fits_int w && fits_int h) then Raise OverflowError
  else if (w <? 1) || (h <? 1) then Raise ValueError
  else Ret (Raster (Z.to_N w) (Z.to_N h) (lanczos im w h)).

(** Rounded division by 255 and the 8-bit blend of Pillow's paste. *)
Definition DIV255 (a : Z) : Z :=
  let tmp := a + 128 in Z.shiftr (Z.shiftr tmp 8 + tmp) 8.

Definition BLEND8 (mask in1 in2 : Z) : Z :=
  DIV255 (in1 * (255 - mask) + in2 * mask).

Definition blend_pixel (mask : Z) (dst src : pixel) : pixel :=
  RGBA (BLEND8 mask (red dst) (red src))
       (BLEND8 mask (green dst) (green src))
       (BLEND8 mask (blue dst) (blue src))
       (BLEND8 mask (alpha dst) (alpha src)).

(** [dst.paste(src, (x0, y0), mask)] with an [RGBA] mask: inside the box
    of [src] placed at [(x0, y0)], clipped to [dst], every band of [dst]
    is blended with [src] by the alpha band of [mask]; outside it [dst]
    is untouched. *)
Definition in_box (x0 y0 w h x y : Z) : bool :=
  (x0 <=? x) && (x <? x0 + w) && (y0 <=? y) && (y <? y0 + h).

Definition paste (dst src : image) (x0 y0 : Z) (mask : image) : image :=
  Raster (width dst) (height dst)
    (fun x y =>
       if in_box x0 y0 (Z.of_N (width src)) (Z.of_N (height src)) x y
          && in_box 0 0 (Z.of_N (width dst)) (Z.of_N (height dst)) x y
       then blend_pixel (alpha (getpixel mask (x - x0) (y - y0)))
                        (getpixel dst x y) (getpixel src (x - x0) (y - y0))
       else getpixel dst x y).

(** [Image.composite(im1, im2, mask)] with an [L] mask: a copy of [im2]
    onto which [im1] is pasted through [mask]; the three sizes must
    agree. *)
Definition composite (im1 im2 : image) (mask : raster Z) : res image :=
  if decide (size im1 = size im2 ∧ size im1 = size mask) then
    Ret (Raster (width im2) (height im2)
           (fun x y =>
              if in_box 0 0 (Z.of_N (width im2)) (Z.of_N (height im2)) x y
              then blend_pixel (getpixel mask x y) (getpixel im2 x y) (getpixel im1 x y)
              else getpixel im2 x y))
  else Raise ValueError.

End PIL.

(** ** The world a script runs in *)

(** File contents. The scripts read PNG files only; what they write besides
    PNG is recorded by the call that wrote it. [Image.open] decodes [PNG]
    contents (already converted to [RGBA]) and rejects the others. *)
Inductive file :=
| PNG (im : image)
| ICO (im : image) (sizes : list (Z * Z))
| Data.

(** One line of standard output per [print] call of the scripts. *)
Inductive line :=
| Text (s : string)
| Created (filename : string)
| WarnNotFound (filename : string)
| CreatedIcns (basename : string)
| ErrorIcns (e : exn)
| ThemeHeader (theme_name theme_color : string)
| UsingSource (filename : string) (source_size : Z)
| ErrorNoSource
| WarnUpscaling (size source_size : Z)
| CreatedSized (filename : string) (size : Z)
| CreatedPath (output_path : string)
| IcnsSuccess (icns_path : string)
| IconutilError (stderr : string)
| IcoCreated (ico_path : string)
| IcoFailed (e : exn)
| Complete.

Record world := World {
  fs : gmap string file;
  stdout : list line
}.

(** State and exceptions: a raised exception keeps the effects that
    happened before it. *)
Definition M (A : Type) : Type := world → res A * world.

Definition ret {A} (a : A) : M A := fun w => (Ret a, w).
Definition raise {A} (e : exn) : M A := fun w => (Raise e, w).
Definition bind {A B} (m : M A) (k : A → M B) : M B :=
  fun w => match m w with
           | (Ret a, w') => k a w'
           | (Raise e, w') => (Raise e, w')
           end.
Definition lift {A} (r : res A) : M A := fun w => (r, w).

Notation "'do' x <- m ; k" := (bind m (fun x => k))
  (at level 10, x name, m at level 100, k at level 200).
Notation "m ;; k" := (bind m (fun _ => k))
  (at level 100, k at level 200, right associativity).

(** [try: body except <handled> as e: handler e]. *)
Definition try_except {A} (body : M A) (handled : exn → bool) (handler : exn → M A) : M A :=
  fun w => match body w with
           | (Raise e, w') => if handled e then handler e w' else (Raise e, w')
           | r => r
           end.

Definition print (l : line) : M unit :=
  fun w => (Ret tt, World (fs w) (stdout w ++ [l])).

(** Sequential [for x in xs: body x]. *)
Fixpoint for_each {A} (xs : list A) (body : A → M unit) : M unit :=
  match xs with
  | [] => ret tt
  | x :: xs' => body x ;; for_each xs' body
  end.

Module os_path.

(** [os.path.join(a, b)] for a relative [b] and an [a] without trailing
    separator, which is how every call site uses it. *)
Definition join (a b : string) : string := a +:+ "/" +:+ b.

Definition exists_ (path : string) : M bool :=
  fun w => (Ret (bool_decide (is_Some (fs w !! path))), w).

End os_path.

(** [Image.open(path).convert('RGBA')]. *)
Definition Image_open (path : string) : M image :=
  fun w => match fs w !! path with
           | None => (Raise FileNotFoundError, w)
           | Some (PNG im) => (Ret im, w)
           | Some _ => (Raise UnidentifiedImageError, w)
           end.

(** [im.save(path, 'PNG')]. Directories are implicit in the flat file
    map: every path can be written. *)
Definition Image_save (im : image) (path : string) : M unit :=
  fun w => (Ret tt, World (<[path := PNG im]> (fs w)) (stdout w)).

(** ** build/add_icon_padding.py *)

Module add_icon_padding.

Definition BASE_DIR : string := "/Users/cory.naegle/ArborChat/build".
Definition ICONSET_DIR : string := os_path.join BASE_DIR "icon.iconset".

(** [CONTENT_RATIO = 0.84], the double nearest to 0.84. *)
Definition CONTENT_RATIO : Py.float := S754_finite false 7566047373982433 (-53).

Definition ICON_SIZES : list (string * Z) :=
  [("icon_16x16.png", 16); ("icon_16x16@2x.png", 32);
   ("icon_32x32.png", 32); ("icon_32x32@2x.png", 64);
   ("icon_128x128.png", 128); ("icon_128x128@2x.png", 256);
   ("icon_256x256.png", 256); ("icon_256x256@2x.png", 512);
   ("icon_512x512.png", 512); ("icon_512x512@2x.png", 1024)].

Definition transparent : pixel := RGBA 0 0 0 0.

(** [content_size = int(canvas_size * CONTENT_RATIO)]. *)
Definition content_size (canvas_size : Z) : res Z :=
  let? x := Py.int_mul_float canvas_size CONTENT_RATIO in
  Py.int_of_float x.

(** The image computed between [Image.open] and [canvas.save]. *)
Definition padded `{Imaging} (img : image) (canvas_size : Z) : res image :=
  let? content_size := content_size canvas_size in
  let? resized := PIL.resize img content_size content_size in
  let? canvas := PIL.new canvas_size canvas_size transparent in
  let offset := (canvas_size - content_size) `div` 2 in
  Ret (PIL.paste canvas resized offset offset resized).

Definition add_padding_to_icon `{Imaging}
    (source_path target_path : string) (canvas_size : Z) : M bool :=
  do img <- Image_open source_path;
  do canvas <- lift (padded img canvas_size);
  Image_save canvas target_path ;;
  ret true.

End add_icon_padding.

(** ** External processes *)

(** What [subprocess.run] can observe of a child process: the program
    could not be started, or it ran and exited, possibly having changed
    the file system. *)
Inductive launch :=
| NoSuchProgram
| Exited (returncode : Z) (out err : string) (fs' : gmap string file).

Class Platform := {
  spawn : list string → gmap string file → launch
}.

Record CompletedProcess := Completed {
  returncode : Z;
  cp_stdout : string;
  cp_stderr : string
}.

(** [subprocess.run(args, check=...)]: a program that cannot be started
    raises [FileNotFoundError]; with [check=True] a non-zero exit status
    raises [CalledProcessError]. *)
Definition subprocess_run `{Platform} (args : list string) (check : bool)
    : M CompletedProcess :=
  fun w => match spawn args (fs w) with
           | NoSuchProgram => (Raise FileNotFoundError, w)
           | Exited rc out err fs' =>
               let w' := World fs' (stdout w) in
               if check && negb (rc =? 0) then (Raise (CalledProcessError rc), w')
               else (Ret (Completed rc out err), w')
           end.

(** ** Python strings *)

Module str.

(** [s.lstrip(c)] for a one-character [c]. *)
Fixpoint lstrip (c : ascii) (s : string) : string :=
  match s with
  | String a s' => if Ascii.eqb a c then lstrip c s' else s
  | EmptyString => s
  end.

(** [s[i:i+n]]: the slice is cut at the end of the string. *)
Definition slice (i n : nat) (s : string) : string := String.substring i n s.

(** [s.replace(old, new)] for a non-empty [old]; [skip] counts the
    characters of a match still to be dropped. *)
Fixpoint replace_from (old new : string) (skip : nat) (s : string) : string :=
  match s with
  | EmptyString => EmptyString
  | String a s' =>
      match skip with
      | S k => replace_from old new k s'
      | O => if String.prefix old s
             then new +:+ replace_from old new (String.length old - 1) s'
             else String a (replace_from old new 0 s')
      end
  end.

Definition replace (old new s : string) : string := replace_from old new 0 s.

(** [s * n]. *)
Fixpoint repeat (s : string) (n : nat) : string :=
  match n with
  | O => EmptyString
  | S k => s +:+ repeat s k
  end.

Definition hex_digit (a : ascii) : option Z :=
  let n := Z.of_N (N_of_ascii a) in
  if (48 <=? n) && (n <=? 57) then Some (n - 48)
  else if (97 <=? n) && (n <=? 102) then Some (n - 87)
  else if (65 <=? n) && (n <=? 70) then Some (n - 55)
  else None.

Fixpoint hex_value (acc : Z) (s : string) : option Z :=
  match s with
  | EmptyString => Some acc
  | String a s' => d ← hex_digit a; hex_value (16 * acc + d) s'
  end.

(** [int(s, 16)] on a string of hexadecimal digits; the empty string and
    a string with any other character raise [ValueError]. (Python also
    takes a sign, blanks or underscores; no colour of the theme table has
    them, and such strings are outside this model.) *)
Definition int16 (s : string) : res Z :=
  match s with
  | EmptyString => Raise ValueError
  | _ => match hex_value 0 s with
         | Some n => Ret n
         | None => Raise ValueError
         end
  end.

End str.

(** [os.path.basename(path)]: what follows the last separator. *)
Fixpoint basename_from (acc : string) (path : string) : string :=
  match path with
  | EmptyString => acc
  | String a rest =>
      if Ascii.eqb a "/" then basename_from rest rest else basename_from acc rest
  end.

Definition basename (path : string) : string := basename_from path path.

(** ** build/generate_themed_icons.py *)

Module generate_themed_icons.

(** The theme table, in the order the dict literal lists (and iterates)
    its entries. *)
Definition THEMES : list (string * string) :=
  [("midnight", "#5865f2"); ("aurora-glass", "#8b5cf6");
   ("linear-minimal", "#3b82f6"); ("forest-deep", "#22c55e");
   ("neon-cyber", "#f472b6"); ("golden-hour", "#d4a574");
   ("abyssal", "#00d4aa"); ("celestial", "#ff6eb4");
   ("ember", "#ff6b35")].

Definition ICON_SIZES : list (string * Z) :=
  [("icon_16x16.png", 16); ("icon_16x16@2x.png", 32);
   ("icon_32x32.png", 32); ("icon_32x32@2x.png", 64);
   ("icon_128x128.png", 128); ("icon_128x128@2x.png", 256);
   ("icon_256x256.png", 256); ("icon_256x256@2x.png", 512);
   ("icon_512x512.png", 512); ("icon_512x512@2x.png", 1024)].

Definition hex_to_rgb (hex_color : string) : res (Z * Z * Z) :=
  let hex_color := str.lstrip "#" hex_color in
  let? r := str.int16 (str.slice 0 2 hex_color) in
  let? g := str.int16 (str.slice 2 2 hex_color) in
  let? b := str.int16 (str.slice 4 2 hex_color) in
  Ret (r, g, b).

Definition white_threshold : Z := 200.

(** The three boolean masks of [recolor_icon], at one pixel. *)
Definition is_white (p : pixel) : bool :=
  (red p >? white_threshold) && (green p >? white_threshold)
  && (blue p >? white_threshold).

Definition is_transparent (p : pixel) : bool := alpha p <? 128.

Definition is_background (p : pixel) : bool :=
  negb (is_white p) && negb (is_transparent p).

(** [data[is_background, 0..2] = new_r, new_g, new_b], at one pixel. *)
Definition recolor_pixel (new : Z * Z * Z) (p : pixel) : pixel :=
  let '(new_r, new_g, new_b) := new in
  if is_background p then RGBA new_r new_g new_b (alpha p) else p.

(** The array written back by [Image.fromarray(data, 'RGBA')]. *)
Definition recolored (img : image) (new : Z * Z * Z) : image :=
  Raster (width img) (height img)
         (fun x y => recolor_pixel new (getpixel img x y)).

Definition recolor_icon (source_path target_path new_bg_color : string) : M bool :=
  do img <- Image_open source_path;
  do new <- lift (hex_to_rgb new_bg_color);
  Image_save (recolored img new) target_path ;;
  ret true.

(** [os.makedirs(path, exist_ok=True)]: directories are implicit in the
    flat file map, so nothing changes. *)
Definition makedirs (path : string) : M unit := ret tt.

Definition create_themed_iconset
    (theme_name theme_color base_iconset_path output_dir : string) : M string :=
  let iconset_name := "icon-" +:+ theme_name +:+ ".iconset" in
  let iconset_path := os_path.join output_dir iconset_name in
  makedirs iconset_path ;;
  for_each ICON_SIZES (fun '(filename, expected_size) =>
    let source_path := os_path.join base_iconset_path filename in
    let target_path := os_path.join iconset_path filename in
    do found <- os_path.exists_ source_path;
    if found then
      (recolor_icon source_path target_path theme_color ;;
       print (Created filename))
    else print (WarnNotFound filename)) ;;
  ret iconset_path.

Definition is_CalledProcessError (e : exn) : bool :=
  match e with CalledProcessError _ => true | _ => false end.

Definition convert_iconset_to_icns `{Platform} (iconset_path : string)
    : M (option string) :=
  let icns_path := str.replace ".iconset" ".icns" iconset_path in
  try_except
    (subprocess_run ["iconutil"; "-c"; "icns"; iconset_path] true ;;
     print (CreatedIcns (basename icns_path)) ;;
     ret (Some icns_path))
    is_CalledProcessError
    (fun e => print (ErrorIcns e) ;; ret None).

Definition base_path : string := "/Users/cory.naegle/ArborChat/build".
Definition base_iconset : string := os_path.join base_path "icon.iconset".
Definition output_dir : string := os_path.join base_path "themed-icons".

(** One iteration of the loop of [main] over [THEMES.items()]. *)
Definition theme_iteration `{Platform} (theme : string * string) : M unit :=
  let '(theme_name, theme_color) := theme in
  print (ThemeHeader theme_name theme_color) ;;
  print (Text (str.repeat "-" 40)) ;;
  do iconset_path <-
    create_themed_iconset theme_name theme_color base_iconset output_dir;
  convert_iconset_to_icns iconset_path ;;
  ret tt.

Definition main `{Platform} : M unit :=
  makedirs output_dir ;;
  print (Text (str.repeat "=" 60)) ;;
  print (Text "ArborChat Themed Icon Generator") ;;
  print (Text (str.repeat "=" 60)) ;;
  print (Text "") ;;
  for_each THEMES theme_iteration ;;
  print (Text "") ;;
  print (Text (str.repeat "=" 60)) ;;
  print (Text "Done! All themed icons created in:") ;;
  print (Text ("  " +:+ output_dir)) ;;
  print (Text (str.repeat "=" 60)).

End generate_themed_icons.

(** ** build/prepare_and_generate_icons.py *)

(** [sorted(l, key=key)]: ascending in [key] and stable. *)
Fixpoint insert_by {A} (key : A → Z) (x : A) (l : list A) : list A :=
  match l with
  | [] => [x]
  | y :: l' => if key x <=? key y then x :: l else y :: insert_by key x l'
  end.

Definition sorted {A} (key : A → Z) (l : list A) : list A :=
  foldr (insert_by key) [] l.

Module prepare_and_generate_icons.

Definition BASE_DIR : string := "/Users/cory.naegle/ArborChat/build".
Definition ICONSET_DIR : string := os_path.join BASE_DIR "icon.iconset".

Definition REQUIRED_SIZES : list (string * Z) :=
  [("icon_16x16.png", 16); ("icon_16x16@2x.png", 32);
   ("icon_32x32.png", 32); ("icon_32x32@2x.png", 64);
   ("icon_128x128.png", 128); ("icon_128x128@2x.png", 256);
   ("icon_256x256.png", 256); ("icon_256x256@2x.png", 512);
   ("icon_512x512.png", 512); ("icon_512x512@2x.png", 1024)].

(** The first loop of [prepare_iconset], over the entries still to be
    visited, with the loop variables [source_img] and [source_size];
    [break] ends the recursion. *)
Fixpoint find_source (entries : list (string * Z))
    (source_img : option image) (source_size : Z) : M (option image * Z) :=
  match entries with
  | [] => ret (source_img, source_size)
  | (filename, size_) :: rest =>
      let path := os_path.join ICONSET_DIR filename in
      do found <- os_path.exists_ path;
      if found then
        do img <- Image_open path;
        if (size img).1 >=? source_size then
          print (UsingSource filename (size img).1) ;;
          ret (Some img, (size img).1)
        else find_source rest source_img source_size
      else find_source rest source_img source_size
  end.

(** One iteration of the second loop: a required file is written from
    [source_img]; both branches resample, the upscaling one warns. *)
Definition generate_one `{Imaging} (source_img : image) (source_size : Z)
    (entry : string * Z) : M unit :=
  let '(filename, size_) := entry in
  let target_path := os_path.join ICONSET_DIR filename in
  do resized <-
    (if size_ <=? source_size then
       lift (PIL.resize source_img size_ size_)
     else
       do resized <- lift (PIL.resize source_img size_ size_);
       print (WarnUpscaling size_ source_size) ;;
       ret resized);
  Image_save resized target_path ;;
  print (CreatedSized filename size_).

Definition generate_all `{Imaging} (source_img : image) (source_size : Z) : M unit :=
  for_each REQUIRED_SIZES (generate_one source_img source_size).

Definition prepare_iconset `{Imaging} : M bool :=
  print (Text (str.repeat "=" 60)) ;;
  print (Text "Preparing Complete Iconset") ;;
  print (Text (str.repeat "=" 60)) ;;
  do found <- find_source (sorted (fun x => - x.2) REQUIRED_SIZES) None 0;
  match found with
  | (None, _) => print ErrorNoSource ;; ret false
  | (Some source_img, source_size) =>
      print (Text "Generating icons:") ;;
      generate_all source_img source_size ;;
      ret true
  end.

End prepare_and_generate_icons.

(** ** scripts/generate-icon.py *)

Module ImageDraw.

(** The drawing calls change the pixels of the image they draw on and
    never its size. *)
Definition polygon `{Imaging} (img : image) (xy : list (coord * coord))
    (fill : pixel) : image :=
  Raster (width img) (height img) (draw_polygon img xy fill).

Definition line `{Imaging} (img : image) (xy : list (coord * coord))
    (fill : pixel) (width_ : Z) : image :=
  Raster (width img) (height img) (draw_line img xy fill width_).

(** A bounding box [[(x0, y0), (x1, y1)]] is rejected with [ValueError]
    when its second corner lies before the first on either axis. *)
Definition ordered_box (xy : (Z * Z) * (Z * Z)) : bool :=
  let '((x0, y0), (x1, y1)) := xy in (x0 <=? x1) && (y0 <=? y1).

Definition ellipse `{Imaging} (img : image)
    (xy : (Z * Z) * (Z * Z)) (fill : pixel) : res image :=
  let '((x0, y0), (x1, y1)) := xy in
  if ordered_box xy then
    Ret (Raster (width img) (height img)
           (draw_ellipse img ((CInt x0, CInt y0), (CInt x1, CInt y1)) fill))
  else Raise ValueError.

Definition rounded_rectangle `{Imaging} (mask : raster Z)
    (xy : (Z * Z) * (Z * Z)) (radius fill : Z) : res (raster Z) :=
  if ordered_box xy then
    Ret (Raster (width mask) (height mask)
           (draw_rounded_rectangle mask xy radius fill))
  else Raise ValueError.

End ImageDraw.

(** [for x in xs: st = body x st] with exceptions. *)
Fixpoint fold_res {A S} (xs : list A) (body : A → S → res S) (st : S) : res S :=
  match xs with
  | [] => Ret st
  | x :: xs' => let? st' := body x st in fold_res xs' body st'
  end.

Fixpoint map_res {A B} (f : A → res B) (xs : list A) : res (list B) :=
  match xs with
  | [] => Ret []
  | x :: xs' => let? y := f x in let? ys := map_res f xs' in Ret (y :: ys)
  end.

Module generate_icon.

Definition THEME_COLOR : Z * Z * Z := (88, 101, 242).

(** [math.pi], and the doubles 0.75 and 0.22. *)
Definition math_pi : Py.float := S754_finite false 7074237752028440 (-51).
Definition f0_75 : Py.float := S754_finite false 6755399441055744 (-53).
Definition f0_22 : Py.float := S754_finite false 7926335344172073 (-55).

(** [math.radians(angle)]: the argument times the constant [pi / 180]. *)
Definition math_radians (angle : Z) : res Py.float :=
  let? a := Py.float_of_int angle in
  let? d180 := Py.float_of_int 180 in
  Ret (Py.fmul a (Py.fdiv math_pi d180)).

(** One point of the 36-gon of [draw_ellipse_rotated]. *)
Definition ellipse_point `{Imaging} (cx cy rx ry angle i : Z) : res (coord * coord) :=
  let? two_pi := Py.int_mul_float 2 math_pi in
  let? fi := Py.float_of_int i in
  let? f36 := Py.float_of_int 36 in
  let t := Py.fdiv (Py.fmul two_pi fi) f36 in
  let? x := Py.int_mul_float rx (libm_cos t) in
  let? y := Py.int_mul_float ry (libm_sin t) in
  let? rad := math_radians angle in
  let x_rot := Py.fsub (Py.fmul x (libm_cos rad)) (Py.fmul y (libm_sin rad)) in
  let y_rot := Py.fadd (Py.fmul x (libm_sin rad)) (Py.fmul y (libm_cos rad)) in
  let? fcx := Py.float_of_int cx in
  let? fcy := Py.float_of_int cy in
  Ret (CFloat (Py.fadd fcx x_rot), CFloat (Py.fadd fcy y_rot)).

Definition draw_ellipse_rotated `{Imaging} (draw : image) (center : Z * Z)
    (rx ry angle : Z) (fill : pixel) : res image :=
  let '(cx, cy) := center in
  let? points := map_res (ellipse_point cx cy rx ry angle) (seqZ 0 36) in
  Ret (ImageDraw.polygon draw points fill).

(** [s(val)] and [sw(val)], the two closures of [create_arbor_icon];
    [scale] is [size / 512]. *)
Definition s (scale : Py.float) (val : Z) : res Z :=
  let? a := Py.int_mul_float (val - 256) f0_75 in
  let? f256 := Py.float_of_int 256 in
  let centered := Py.fadd a f256 in
  Py.int_of_float (Py.fmul centered scale).

Definition sw (scale : Py.float) (val : Z) : res Z :=
  let? a := Py.int_mul_float val f0_75 in
  let? n := Py.int_of_float (Py.fmul a scale) in
  Ret (Z.max 1 n).

(** A list of [(s(x), s(y))] pairs, evaluated left to right. *)
Definition points (scale : Py.float) (xy : list (Z * Z)) : res (list (coord * coord)) :=
  map_res (fun '(x, y) =>
             let? a := s scale x in
             let? b := s scale y in
             Ret (CInt a, CInt b)) xy.

Definition white : pixel := RGBA 255 255 255 255.

Definition branch_levels : list (Z * Z * Z * Z) :=
  [(340, 96, 20, 8); (300, 116, 10, 7); (260, 136, 0, 6);
   (220, 126, -10, 5); (180, 106, -25, 4); (140, 86, -30, 3)].

Definition leaf_data : list (Z * Z * Z * Z * Z) :=
  [(160, 355, 12, 8, -30); (180, 340, 10, 6, -20);
   (352, 355, 12, 8, 30); (332, 340, 10, 6, 20);
   (140, 305, 14, 9, -25); (165, 290, 11, 7, -15);
   (372, 305, 14, 9, 25); (347, 290, 11, 7, 15);
   (120, 255, 15, 10, -20); (150, 242, 12, 8, -10);
   (392, 255, 15, 10, 20); (362, 242, 12, 8, 10);
   (130, 205, 14, 9, -15); (160, 192, 11, 7, -5);
   (382, 205, 14, 9, 15); (352, 192, 11, 7, 5);
   (150, 150, 13, 8, -10); (180, 155, 10, 6, 0);
   (362, 150, 13, 8, 10); (332, 155, 10, 6, 0);
   (170, 105, 12, 7, -5); (200, 95, 9, 5, 5);
   (342, 105, 12, 7, 5); (312, 95, 9, 5, -5)].

(** The image [final] that [create_arbor_icon] saves and returns. *)
Definition icon_image `{Imaging} (size_ : Z) : res image :=
  let '(tr, tg, tb) := THEME_COLOR in
  let? img := PIL.new size_ size_ (RGBA tr tg tb 255) in
  let? corner_radius :=
    (let? x := Py.int_mul_float size_ f0_22 in Py.int_of_float x) in
  let? mask := PIL.new size_ size_ 0 in
  let? mask := ImageDraw.rounded_rectangle mask
                 ((0, 0), (size_ - 1, size_ - 1)) corner_radius 255 in
  let? bg := PIL.new size_ size_ (RGBA tr tg tb 255) in
  let? scale := Py.int_truediv size_ 512 in
  (* main trunk *)
  let? trunk_points := points scale [(248, 480); (248, 320); (264, 320); (264, 480)] in
  let img := ImageDraw.polygon img trunk_points white in
  (* root flares *)
  let? flare_left := points scale [(230, 480); (248, 450); (248, 480)] in
  let img := ImageDraw.polygon img flare_left white in
  let? flare_right := points scale [(264, 480); (264, 450); (282, 480)] in
  let img := ImageDraw.polygon img flare_right white in
  (* lower trunk widening *)
  let? widening := points scale [(244, 380); (244, 320); (256, 300);
                                 (268, 320); (268, 380); (256, 395)] in
  let img := ImageDraw.polygon img widening white in
  (* branches *)
  let? img := fold_res branch_levels (fun '(y, spread, droop, width_) img =>
    let? left := points scale [(256, y); (256 - (spread `div` 2), y - 20 + droop);
                               (256 - spread, y + droop)] in
    let? wl := sw scale width_ in
    let img := ImageDraw.line img left white wl in
    let? right := points scale [(256, y); (256 + (spread `div` 2), y - 20 + droop);
                                (256 + spread, y + droop)] in
    let? wr := sw scale width_ in
    Ret (ImageDraw.line img right white wr)) img in
  (* crown *)
  let? x0 := s scale 246 in
  let? y0 := s scale 55 in
  let? x1 := s scale 266 in
  let? y1 := s scale 105 in
  let? img := ImageDraw.ellipse img ((x0, y0), (x1, y1)) white in
  (* leaves *)
  let? img := fold_res leaf_data (fun '(cx, cy, rx, ry, angle) img =>
    let? x := s scale cx in
    let? y := s scale cy in
    let? a := sw scale (rx * 2) in
    let? b := sw scale (ry * 2) in
    draw_ellipse_rotated img (x, y) a b angle white) img in
  (* rounded corner mask *)
  let? blank := PIL.new size_ size_ (RGBA 0 0 0 0) in
  PIL.composite img blank mask.

Definition create_arbor_icon `{Imaging} (size_ : Z) (output_path : string) : M image :=
  do final <- lift (icon_image size_);
  Image_save final output_path ;;
  print (CreatedPath output_path) ;;
  ret final.

Definition icon_specs : list (Z * string) :=
  [(16, "icon_16x16.png"); (32, "icon_16x16@2x.png");
   (32, "icon_32x32.png"); (64, "icon_32x32@2x.png");
   (128, "icon_128x128.png"); (256, "icon_128x128@2x.png");
   (256, "icon_256x256.png"); (512, "icon_256x256@2x.png");
   (512, "icon_512x512.png"); (1024, "icon_512x512@2x.png")].

Definition ico_sizes : list Z := [16; 32; 48; 64; 128; 256].

Definition temp_path (build_dir : string) (size_ : Z) : string :=
  os_path.join build_dir ("temp_ico_" +:+ pretty size_ +:+ ".png").

(** [path.unlink(missing_ok=True)]. *)
Definition unlink (path : string) : M unit :=
  fun w => (Ret tt, World (delete path (fs w)) (stdout w)).

(** [im.save(path, format='ICO', sizes=sizes)]. *)
Definition Image_save_ico (im : image) (path : string) (sizes : list (Z * Z)) : M unit :=
  fun w => (Ret tt, World (<[path := ICO im sizes]> (fs w)) (stdout w)).

(** The loop that fills [ico_images]. *)
Fixpoint ico_frames `{Imaging} (build_dir : string) (sizes : list Z) : M (list image) :=
  match sizes with
  | [] => ret []
  | size_ :: rest =>
      do img <- create_arbor_icon size_ (temp_path build_dir size_);
      do opened <- Image_open (temp_path build_dir size_);
      do others <- ico_frames build_dir rest;
      ret (opened :: others)
  end.

(** The body of the [try] block that assembles the Windows icon. *)
Definition assemble_ico `{Imaging} (build_dir : string) : M unit :=
  do ico_images <- ico_frames build_dir ico_sizes;
  let ico_path := os_path.join build_dir "icon.ico" in
  match ico_images with
  | first :: _ =>
      Image_save_ico first ico_path (map (fun n => (n, n)) ico_sizes) ;;
      print (IcoCreated ico_path) ;;
      for_each ico_sizes (fun size_ => unlink (temp_path build_dir size_))
  | [] => raise IndexError
  end.

(** The loop of [main] that generates all sizes of the iconset. *)
Definition write_iconset `{Imaging} (iconset_dir : string) : M unit :=
  for_each icon_specs (fun '(size_, filename) =>
    create_arbor_icon size_ (os_path.join iconset_dir filename) ;; ret tt).

(** [main], for the project root that [Path(__file__).parent.parent]
    resolves to. The two [mkdir(exist_ok=True)] calls change nothing in
    the flat file map. *)
Definition main `{Imaging} `{Platform} (project_root : string) : M unit :=
  let build_dir := os_path.join project_root "build" in
  let iconset_dir := os_path.join build_dir "icon.iconset" in
  write_iconset iconset_dir ;;
  let icns_path := os_path.join build_dir "icon.icns" in
  do result <- subprocess_run
                 ["iconutil"; "-c"; "icns"; iconset_dir; "-o"; icns_path] false;
  (if returncode result =? 0 then print (IcnsSuccess icns_path)
   else print (IconutilError (cp_stderr result))) ;;
  let png_path := os_path.join build_dir "icon.png" in
  create_arbor_icon 512 png_path ;;
  try_except (assemble_ico build_dir) (fun _ => true)
             (fun e => print (IcoFailed e)) ;;
  print Complete.

End generate_icon.

(** * Specification vocabulary *)

(** ** Results that return *)

(** [returns m P]: the computation [m] returns normally, with a value
    that satisfies [P]. *)
Definition returns {A} (m : res A) (P : A → Prop) : Prop :=
  ∃ a, m = Ret a ∧ P a.

(** ** Padding *)

(** The image [resize] hands back for a size of at least one pixel. *)
Definition resized_to `{Imaging} (im : image) (w h : Z) : image :=
  if decide (size im = (w, h)) then im
  else Raster (Z.to_N w) (Z.to_N h) (lanczos im w h).

(** The once-padded image, written out: the resized content pasted, through
    its own alpha band, at the centring offset of a transparent canvas. *)
Definition padded_image `{Imaging} (img : image) (S c : Z) : image :=
  PIL.paste (Raster (Z.to_N S) (Z.to_N S) (fun _ _ => add_icon_padding.transparent))
            (resized_to img c c) ((S - c) `div` 2) ((S - c) `div` 2)
            (resized_to img c c).

(** An image is opaque when every pixel of it has full alpha. *)
Definition opaque (im : image) : Prop :=
  ∀ i j, 0 <= i < Z.of_N (width im) → 0 <= j < Z.of_N (height im) →
         alpha (getpixel im i j) = 255.

(** Source index [i] lies in the support of output index [x] when an axis
    of [n_in] pixels is resampled to [n_out] pixels. Lanczos has a support
    of three pixels, stretched by the scale when shrinking, around the
    centre [(x + 1/2) * n_in / n_out]; the bound below (four pixels, in
    units of [1 / (2 * n_out)]) contains it. *)
Definition in_window (n_in n_out x i : Z) : Prop :=
  Z.abs ((2 * i + 1) * n_out - (2 * x + 1) * n_in) <= 8 * Z.max n_in n_out.

(** Two properties of the resampling filter, which is not part of the
    repository. Locality: an output pixel whose support holds transparent
    black only is transparent black. *)
Definition lanczos_local `{Imaging} : Prop :=
  ∀ (im : image) (w h x y : Z),
    0 < Z.of_N (width im) → 0 < Z.of_N (height im) →
    0 <= x < w → 0 <= y < h →
    (∀ i j, 0 <= i < Z.of_N (width im) → 0 <= j < Z.of_N (height im) →
            in_window (Z.of_N (width im)) w x i →
            in_window (Z.of_N (height im)) h y j →
            getpixel im i j = add_icon_padding.transparent) →
    lanczos im w h x y = add_icon_padding.transparent.

(** Opacity: resampling an opaque image leaves every pixel visible. *)
Definition lanczos_keeps_opaque `{Imaging} : Prop :=
  ∀ (im : image) (w h x y : Z),
    0 < Z.of_N (width im) → 0 < Z.of_N (height im) →
    0 <= x < w → 0 <= y < h →
    opaque im → 128 <= alpha (lanczos im w h x y).

(** ** Iconset completer *)

(** Where the completer looks for, and writes, a required file. *)
Definition icon_path (filename : string) : string :=
  os_path.join prepare_and_generate_icons.ICONSET_DIR filename.

(** The required entries in the order the completer scans them. *)
Definition scan_order : list (string * Z) :=
  sorted (fun x => - x.2) prepare_and_generate_icons.REQUIRED_SIZES.

(** What the second loop prints and writes, entry by entry. *)
Definition generated_lines (source_size : Z) (entries : list (string * Z)) : list line :=
  flat_map (fun '(filename, size_) =>
              (if size_ <=? source_size then []
               else [WarnUpscaling size_ source_size])
              ++ [CreatedSized filename size_]) entries.

Definition generated_files `{Imaging} (source_img : image)
    (entries : list (string * Z)) (files : gmap string file) : gmap string file :=
  foldl (fun files '(filename, size_) =>
           <[icon_path filename := PNG (resized_to source_img size_ size_)]> files)
        files entries.

Definition is_warning (l : line) : bool :=
  match l with WarnUpscaling _ _ => true | _ => false end.

(** The three lines [prepare_iconset] prints first. *)
Definition prepare_banner : list line :=
  [Text (str.repeat "=" 60); Text "Preparing Complete Iconset";
   Text (str.repeat "=" 60)].

(** ** Icon synthesizer *)

(** The part of [s(val)] that does not depend on the size:
    [(val - 256) * 0.75 + 256]. *)
Definition centered (val : Z) : res Py.float :=
  let? a := Py.int_mul_float (val - 256) generate_icon.f0_75 in
  let? f256 := Py.float_of_int 256 in
  Ret (Py.fadd a f256).

(** A positive double with a full 53-bit mantissa and an exponent between
    [lo] and [hi]. *)
Definition positive_normal (lo hi : Z) (x : Py.float) : bool :=
  match x with
  | S754_finite false m e => (Zdigits2 (Z.pos m) =? 53) && (lo <=? e) && (e <=? hi)
  | _ => false
  end.

Definition centered_ok (val : Z) : bool :=
  match centered val with
  | Ret x => positive_normal (-52) (-40) x
  | Raise _ => false
  end.

Definition width_ok (val : Z) : bool :=
  match Py.int_mul_float val generate_icon.f0_75 with
  | Ret x => positive_normal (-52) (-40) x
  | Raise _ => false
  end.

Definition scale_ok (size_ : Z) : bool :=
  match Py.int_truediv size_ 512 with
  | Ret x => positive_normal (-60) (-50) x
  | Raise _ => false
  end.

(** The bounding box of the crown, from the four [s] calls that
    [create_arbor_icon] makes for it, and the sizes at which it is one
    that [ImageDraw.ellipse] accepts. *)
Definition crown_box (scale : Py.float) : res ((Z * Z) * (Z * Z)) :=
  let? x0 := generate_icon.s scale 246 in
  let? y0 := generate_icon.s scale 55 in
  let? x1 := generate_icon.s scale 266 in
  let? y1 := generate_icon.s scale 105 in
  Ret ((x0, y0), (x1, y1)).

Definition crown_ok (size_ : Z) : bool :=
  match (let? scale := Py.int_truediv size_ 512 in crown_box scale) with
  | Ret xy => ImageDraw.ordered_box xy
  | Raise _ => false
  end.

(** An image of [n × n] pixels. *)
Definition square {P} (n : Z) (im : raster P) : Prop :=
  width im = Z.to_N n ∧ height im = Z.to_N n.

(** ** Theme recolorer: one theme *)

(** What an iteration of the theme loop does before it calls the
    packaging tool. *)
Definition theme_prefix (theme_name theme_color : string) : M string :=
  print (ThemeHeader theme_name theme_color) ;;
  print (Text (str.repeat "-" 40)) ;;
  generate_themed_icons.create_themed_iconset theme_name theme_color
    generate_themed_icons.base_iconset generate_themed_icons.output_dir.

Definition iconutil_args (iconset_path : string) : list string :=
  ["iconutil"; "-c"; "icns"; iconset_path].

(** ** Sample inputs *)

(** Nearest-neighbour sampling at pixel centres, a resampling filter that
    has the two properties above. *)
Definition nearest (im : image) (w h x y : Z) : pixel :=
  getpixel im (((2 * x + 1) * Z.of_N (width im)) `div` (2 * w))
              (((2 * y + 1) * Z.of_N (height im)) `div` (2 * h)).

(** An imaging library with that filter and with drawing calls that leave
    the pixels alone. *)
Definition sample_imaging : Imaging := {|
  lanczos := nearest;
  draw_polygon := fun img _ _ x y => getpixel img x y;
  draw_line := fun img _ _ _ x y => getpixel img x y;
  draw_ellipse := fun img _ _ x y => getpixel img x y;
  draw_rounded_rectangle := fun mask _ _ fill _ _ => fill;
  libm_cos := fun x => x;
  libm_sin := fun x => x
|}.

Definition white_square (n : N) : image :=
  Raster n n (fun _ _ => RGBA 255 255 255 255).

Definition wide_image : image :=
  Raster 200 100 (fun _ _ => RGBA 255 255 255 255).

Definition sample_world (path : string) (im : image) : world :=
  World {[ path := PNG im ]} [].

(** A platform whose packaging tool always exits with status 1 and leaves
    the files alone. *)
Definition sample_platform : Platform := {|
  spawn := fun _ files => Exited 1 "" "iconutil: failed" files
|}.

(** A platform on which the packaging tool cannot be started at all. *)
Definition absent_platform : Platform := {|
  spawn := fun _ _ => NoSuchProgram
|}.

Definition empty_world : world := World ∅ [].


(** * The rest of the scripts *)

(** ** build/add_icon_padding.py: the loop of [main] *)

Module add_icon_padding_main.
Import add_icon_padding.

(** One iteration of [for filename, size in ICON_SIZES]: an icon that
    exists is padded in place, a missing one is reported. *)
Definition pad_entry `{Imaging} (entry : string * Z) : M unit :=
  let '(filename, size_) := entry in
  let source_path := os_path.join ICONSET_DIR filename in
  do found <- os_path.exists_ source_path;
  if found then
    add_padding_to_icon source_path source_path size_ ;;
    print (Text ("  ✓ " +:+ filename +:+ " (" +:+ pretty size_ +:+ "x"
                 +:+ pretty size_ +:+ ")"))
  else print (Text ("  ✗ " +:+ filename +:+ " not found")).

Definition pad_icons `{Imaging} : M unit := for_each ICON_SIZES pad_entry.

End add_icon_padding_main.

(** ** build/prepare_and_generate_icons.py: [main] *)

Module prepare_and_generate_icons_main.
Import prepare_and_generate_icons.

(** [os.chdir(path)]: the world has no working directory, and the
    directory is there implicitly once files were written under it. *)
Definition chdir (path : string) : M unit := ret tt.

Definition newline : ascii := "010".

Definition main `{Imaging} `{Platform} : M unit :=
  do prepared <- prepare_iconset;
  if prepared then
    print (Text (String newline "✅ Iconset prepared successfully!")) ;;
    print (Text (String newline "Now running themed icon generator...")) ;;
    chdir BASE_DIR ;;
    do result <- subprocess_run ["python3"; "generate_themed_icons.py"] false;
    print (Text (cp_stdout result)) ;;
    match cp_stderr result with
    | EmptyString => ret tt
    | _ => print (Text ("STDERR: " +:+ cp_stderr result))
    end
  else print (Text (String newline "❌ Failed to prepare iconset")).

End prepare_and_generate_icons_main.

(** ** Vocabulary for the remaining scripts *)

(** The line the loop of [create_themed_iconset] prints for an entry,
    given the files it found. *)
Definition recolor_line (files : gmap string file) (base_iconset_path : string)
    (entry : string * Z) : line :=
  if bool_decide (is_Some (files !! os_path.join base_iconset_path entry.1))
  then Created entry.1 else WarnNotFound entry.1.

(** Every required icon of an iconset directory is a decodable image or
    missing. *)
Definition icons_readable (dir : string) (files : gmap string file) : Prop :=
  ∀ e, e ∈ generate_themed_icons.ICON_SIZES →
    files !! os_path.join dir e.1 = None
    ∨ ∃ img, files !! os_path.join dir e.1 = Some (PNG img).

(** The five lines that close the run of the theme recolorer. *)
Definition themes_done : list line :=
  [Text ""; Text (str.repeat "=" 60); Text "Done! All themed icons created in:";
   Text ("  " +:+ generate_themed_icons.output_dir); Text (str.repeat "=" 60)].

(** [holds_exactly x num shift]: the double [x] is positive, has a full
    mantissa, and its value is exactly [num / 2 ^ shift]. *)
Definition holds_exactly (x : Py.float) (num shift : Z) : bool :=
  match x with
  | S754_finite false m e =>
      (Zdigits2 (Z.pos m) =? 53) && (-80 <=? e) && (e <=? - shift)
      && (Z.pos m =? num * 2 ^ (- e - shift))
  | _ => false
  end.

(** The factors of the products in [s] and [sw] hold the values one
    expects: [(val - 256) * 0.75 + 256] is [(3 val + 256) / 4],
    [val * 0.75] is [3 val / 4] and [size / 512] is itself. *)
Definition centered_exact (val : Z) : bool :=
  match centered val with
  | Ret x => holds_exactly x (3 * val + 256) 2
  | Raise _ => false
  end.

Definition width_exact (val : Z) : bool :=
  match Py.int_mul_float val generate_icon.f0_75 with
  | Ret x => holds_exactly x (3 * val) 2
  | Raise _ => false
  end.

Definition scale_exact (size_ : Z) : bool :=
  match Py.int_truediv size_ 512 with
  | Ret x => holds_exactly x size_ 9
  | Raise _ => false
  end.

(** [corner_radius = int(size * 0.22)], as [create_arbor_icon] computes
    it, and the sizes at which it is the floor of [0.22 * size]. *)
Definition corner_radius (size_ : Z) : res Z :=
  let? x := Py.int_mul_float size_ generate_icon.f0_22 in Py.int_of_float x.

Definition radius_floor (size_ : Z) : bool :=
  match corner_radius size_ with
  | Ret r => r =? (22 * size_) `div` 100
  | Raise _ => false
  end.

(** The canvas sizes at which [int(canvas_size * 0.84)] is the floor of
    [84 * canvas_size / 100]. *)
Definition content_floor (canvas_size : Z) : bool :=
  match add_icon_padding.content_size canvas_size with
  | Ret c => c =? (84 * canvas_size) `div` 100
  | Raise _ => false
  end.

(** * Verification *)

(** ** Results and exceptions *)

Lemma returns_ret {A} (a : A) (P : A → Prop) : P a → returns (Ret a) P.
Proof. intros. by exists a. Qed.

Lemma returns_bind {A B} (m : res A) (k : A → res B) (Q : A → Prop) (P : B → Prop) :
  returns m Q → (∀ a, Q a → returns (k a) P) → returns (res_bind m k) P.
Proof. intros (a & -> & Ha) Hk. simpl. by apply Hk. Qed.

Lemma returns_weaken {A} (m : res A) (P Q : A → Prop) :
  returns m P → (∀ a, P a → Q a) → returns m Q.
Proof. intros (a & -> & Ha) HPQ. exists a. auto. Qed.

Lemma returns_fold_res {A S} (xs : list A) (body : A → S → res S) (P : S → Prop) :
  Forall (fun x => ∀ st, P st → returns (body x st) P) xs →
  ∀ st, P st → returns (fold_res xs body st) P.
Proof.
  induction 1 as [| x xs Hx _ IH]; intros st Hst; simpl.
  - by apply returns_ret.
  - eapply returns_bind; [by apply Hx | exact IH].
Qed.

Lemma returns_map_res {A B} (f : A → res B) (xs : list A) :
  Forall (fun x => returns (f x) (fun _ => True)) xs →
  returns (map_res f xs) (fun _ => True).
Proof.
  induction 1 as [| x xs Hx _ IH]; simpl.
  - by apply returns_ret.
  - eapply returns_bind; [exact Hx | intros y _].
    eapply returns_bind; [exact IH | intros ys _]. by apply returns_ret.
Qed.

(** ** Facts about binary64 rounding *)

Section float_facts.

Lemma digits2_pos_size p : digits2_pos p = Pos.size p.
Proof. induction p; simpl; congruence. Qed.

Lemma digits2_pos_bounds p :
  2 ^ (Z.pos (digits2_pos p) - 1) <= Z.pos p < 2 ^ Z.pos (digits2_pos p).
Proof.
  rewrite digits2_pos_size.
  pose proof (Pos.size_gt p) as Hgt. pose proof (Pos.size_le p) as Hle.
  assert (H2 : ∀ k, Z.pos (2 ^ k) = 2 ^ Z.pos k) by (intros; apply Pos2Z.inj_pow).
  split.
  - assert (H : Z.pos (2 ^ Pos.size p) <= Z.pos p~0)
      by (apply Pos2Z.pos_le_pos; exact Hle).
    rewrite H2 in H.
    replace (Z.pos (Pos.size p)) with ((Z.pos (Pos.size p) - 1) + 1) in H by lia.
    rewrite Z.pow_add_r in H by lia. lia.
  - rewrite <- H2. apply Pos2Z.pos_lt_pos. exact Hgt.
Qed.

Lemma digits2_pos_unique p d :
  2 ^ (d - 1) <= Z.pos p < 2 ^ d → Z.pos (digits2_pos p) = d.
Proof.
  intros [Hlo Hhi]. pose proof (digits2_pos_bounds p) as [Blo Bhi].
  set (D := Z.pos (digits2_pos p)) in *.
  assert (0 < D) by (subst D; lia).
  destruct (Z.lt_trichotomy D d) as [Hlt | [Heq | Hgt]]; [| done |].
  - exfalso. assert (2 ^ D <= 2 ^ (d - 1)) by (apply Z.pow_le_mono_r; lia). lia.
  - exfalso. assert (0 < d).
    { destruct (Z.le_gt_cases d 0); [| done]. destruct d; simpl in *; try lia.
      rewrite Z.pow_neg_r in Hhi by lia. lia. }
    assert (2 ^ d <= 2 ^ (D - 1)) by (apply Z.pow_le_mono_r; lia). lia.
Qed.

Lemma Zdigits2_unique m d : 0 < m → 2 ^ (d - 1) <= m < 2 ^ d → Zdigits2 m = d.
Proof.
  intros Hm H. destruct m as [| p | p]; try lia. simpl. by apply digits2_pos_unique.
Qed.

Lemma Zdigits2_bounds m : 0 < m → 2 ^ (Zdigits2 m - 1) <= m < 2 ^ Zdigits2 m.
Proof.
  intros Hm. destruct m as [| p | p]; try lia. simpl. apply digits2_pos_bounds.
Qed.

(** One right shift halves the mantissa. *)
Lemma shr_1_m r :
  0 <= shr_m r → shr_m (shr_1 r) = shr_m r / 2 ∧ 0 <= shr_m (shr_1 r).
Proof.
  destruct r as [m r s]; simpl. intros Hm.
  destruct m as [| [p | p |] |]; simpl shr_m.
  - split; [reflexivity | lia].
  - split; [| lia]. apply (Z.div_unique _ _ _ 1); lia.
  - split; [| lia]. apply (Z.div_unique _ _ _ 0); lia.
  - split; [reflexivity | lia].
  - lia.
Qed.

Lemma pow2_xI p : 2 ^ Z.pos p~1 = 2 * (2 ^ Z.pos p * 2 ^ Z.pos p).
Proof.
  rewrite Pos2Z.inj_xI, Z.pow_add_r, Z.pow_mul_r, Z.pow_2_r by lia.
  rewrite <- Z.pow_mul_l. change (2 * 2) with (2 ^ 2).
  rewrite <- Z.pow_mul_r by lia. rewrite Z.pow_1_r. lia.
Qed.

Lemma pow2_xO p : 2 ^ Z.pos p~0 = 2 ^ Z.pos p * 2 ^ Z.pos p.
Proof. rewrite Pos2Z.inj_xO. rewrite <- Z.pow_add_r by lia. f_equal. lia. Qed.

Lemma iter_shr_1_m p : ∀ r, 0 <= shr_m r →
  shr_m (SpecFloat.iter_pos shr_1 p r) = shr_m r / 2 ^ Z.pos p
  ∧ 0 <= shr_m (SpecFloat.iter_pos shr_1 p r).
Proof.
  induction p as [p IH | p IH |]; intros r Hr; simpl.
  - destruct (shr_1_m r Hr) as [E1 P1].
    destruct (IH _ P1) as [E2 P2]. destruct (IH _ P2) as [E3 P3].
    split; [| done]. rewrite E3, E2, E1.
    rewrite !Z.div_div by lia. rewrite pow2_xI. reflexivity.
  - destruct (IH _ Hr) as [E2 P2]. destruct (IH _ P2) as [E3 P3].
    split; [| done]. rewrite E3, E2.
    rewrite !Z.div_div by lia. rewrite pow2_xO. reflexivity.
  - destruct (shr_1_m r Hr) as [E1 P1]. split; [| done]. rewrite E1. reflexivity.
Qed.

Lemma round_nearest_even_bounds m l :
  m <= round_nearest_even m l <= m + 1.
Proof. destruct l as [| []]; simpl; try lia. destruct (Z.even m); lia. Qed.

Lemma shr_fexp_spec m e l n :
  0 < m → Zdigits2 m = Py.prec + n → 0 <= n → -1074 <= e + n →
  shr_fexp Py.prec Py.emax m e l = shr (shr_record_of_loc m l) e n.
Proof.
  intros Hm Hd Hn He. unfold shr_fexp. f_equal.
  rewrite Hd. unfold fexp, emin, Py.prec, Py.emax. lia.
Qed.

Lemma shr_spec r e n :
  0 <= shr_m r → 0 <= n →
  shr_m (shr r e n).1 = shr_m r / 2 ^ n ∧ (shr r e n).2 = e + n.
Proof.
  intros Hr Hn. destruct n as [| p | p]; simpl; [| | lia].
  - rewrite Z.div_1_r. split; [done | lia].
  - split; [| done]. by apply iter_shr_1_m.
Qed.

(** Rounding a positive mantissa [m] (at exponent [e]) that has [n] bits
    too many: the result is finite and lies between the two neighbours
    of [m] among the multiples of [2^n]. *)
Lemma binary_round_aux_bounds s m e n :
  0 < m → Zdigits2 m = Py.prec + n → 0 <= n →
  -1074 <= e + n → e + n + 1 <= Py.emax - Py.prec →
  ∃ q e', binary_round_aux Py.prec Py.emax s m e loc_Exact = S754_finite s q e'
    ∧ e <= e' ∧ e' <= e + n + 1
    ∧ m / 2 ^ n * 2 ^ n <= Z.pos q * 2 ^ (e' - e) <= (m / 2 ^ n + 1) * 2 ^ n.
Proof.
  intros Hm Hd Hn Helo Hehi.
  pose proof (Zdigits2_bounds m Hm) as Hb. rewrite Hd in Hb.
  unfold binary_round_aux.
  rewrite (shr_fexp_spec m e loc_Exact n) by done.
  destruct (shr_spec (shr_record_of_loc m loc_Exact) e n) as [Em Ee];
    [simpl; lia | done |].
  destruct (shr _ e n) as [r1 e1]. simpl in Em, Ee. subst e1.
  set (q0 := m / 2 ^ n) in *.
  assert (Hq0 : 2 ^ 52 <= q0 < 2 ^ 53).
  { subst q0. replace (Py.prec + n - 1) with (52 + n) in Hb by (unfold Py.prec; lia).
    replace (Py.prec + n) with (53 + n) in Hb by (unfold Py.prec; lia).
    rewrite !Z.pow_add_r in Hb by lia. split.
    - apply Z.div_le_lower_bound; lia.
    - apply Z.div_lt_upper_bound; lia. }
  pose proof (round_nearest_even_bounds (shr_m r1) (loc_of_shr_record r1)) as Hq1.
  set (q1 := round_nearest_even (shr_m r1) (loc_of_shr_record r1)) in *.
  rewrite Em in Hq1.
  assert (Hpn : 0 < 2 ^ n) by (apply Z.pow_pos_nonneg; lia).
  destruct (Z.eq_dec q1 (2 ^ 53)) as [Htop | Hntop].
  - (* the mantissa was rounded up to 2^53: one more shift *)
    rewrite (shr_fexp_spec q1 (e + n) loc_Exact 1); try lia.
    2:{ apply Zdigits2_unique; [lia |]. rewrite Htop. unfold Py.prec. simpl. lia. }
    assert (Hle : (e + n + 1 <=? Py.emax - Py.prec) = true) by (apply Z.leb_le; lia).
    rewrite Htop. change (2 ^ 53) with 9007199254740992.
    cbv [shr shr_record_of_loc SpecFloat.iter_pos shr_1 shr_m]. rewrite Hle.
    eexists _, _. split; [reflexivity |].
    split; [lia |]. split; [lia |].
    replace (e + n + 1 - e) with (1 + n) by lia. rewrite Z.pow_add_r by lia.
    change (2 ^ 53) with 9007199254740992 in *. change (2 ^ 1) with 2. nia.
  - rewrite (shr_fexp_spec q1 (e + n) loc_Exact 0); try lia.
    2:{ apply Zdigits2_unique; [lia |]. unfold Py.prec. simpl. lia. }
    assert (Hle : (e + n <=? Py.emax - Py.prec) = true) by (apply Z.leb_le; lia).
    cbv [shr]. destruct q1 as [| q | q]; try lia.
    cbv [shr_record_of_loc shr_m]. rewrite Hle.
    eexists _, _. split; [reflexivity |].
    split; [lia |]. split; [lia |].
    replace (e + n - e) with n by lia. nia.
Qed.

(** A mantissa of exactly 53 bits is not rounded. *)
Lemma binary_round_aux_exact s m e :
  Zdigits2 (Z.pos m) = Py.prec → -1074 <= e <= Py.emax - Py.prec →
  binary_round_aux Py.prec Py.emax s (Z.pos m) e loc_Exact = S754_finite s m e.
Proof.
  intros Hd He. unfold binary_round_aux.
  rewrite (shr_fexp_spec (Z.pos m) e loc_Exact 0); [| lia | lia | lia | lia].
  cbv [shr shr_record_of_loc shr_m loc_of_shr_record round_nearest_even].
  rewrite (shr_fexp_spec (Z.pos m) e loc_Exact 0); [| lia | lia | lia | lia].
  cbv [shr shr_record_of_loc shr_m].
  destruct (Z.leb_spec e (Py.emax - Py.prec)); [done | lia].
Qed.

Lemma pos_iter_xO p k : Z.pos (Pos.iter xO p k) = Z.pos p * 2 ^ Z.pos k.
Proof.
  induction k as [| k IH] using Pos.peano_ind.
  - simpl. lia.
  - rewrite Pos.iter_succ, Pos2Z.inj_xO, IH, Pos2Z.inj_succ, Z.pow_succ_r by lia. lia.
Qed.

(** An integer mantissa below 2^53 is represented exactly, on 53 bits. *)
Lemma binary_round_int s p :
  Z.pos p < 2 ^ 53 →
  ∃ m e, binary_round Py.prec Py.emax s p 0 = S754_finite s m e
    ∧ Zdigits2 (Z.pos m) = Py.prec ∧ -52 <= e <= 0
    ∧ Z.pos m = Z.pos p * 2 ^ (- e).
Proof.
  intros Hlt.
  pose proof (digits2_pos_bounds p) as Hb.
  unfold binary_round, shl_align.
  remember (Z.pos (digits2_pos p)) as d eqn:Ed.
  assert (Hd : 1 <= d <= 53).
  { split; [subst d; lia |]. destruct (Z.le_gt_cases d 53); [done |].
    assert (2 ^ 53 <= 2 ^ (d - 1)) by (apply Z.pow_le_mono_r; lia). lia. }
  replace (fexp Py.prec Py.emax (d + 0) - 0) with (d - 53)
    by (unfold fexp, emin, Py.prec, Py.emax; lia).
  replace (fexp Py.prec Py.emax (d + 0)) with (d - 53)
    by (unfold fexp, emin, Py.prec, Py.emax; lia).
  destruct (d - 53) as [| k | k] eqn:Hk; try lia.
  - rewrite binary_round_aux_exact;
      [| simpl; unfold Py.prec; lia | unfold Py.emax, Py.prec; lia].
    exists p, 0. repeat split; try lia. simpl. unfold Py.prec; lia.
  - assert (Hdig : Zdigits2 (Z.pos (Pos.iter xO p k)) = Py.prec).
    { apply Zdigits2_unique; [lia |]. rewrite pos_iter_xO. unfold Py.prec.
      replace (Z.pos k) with (53 - d) by lia.
      assert (E1 : 2 ^ (53 - 1) = 2 ^ (d - 1) * 2 ^ (53 - d))
        by (rewrite <- Z.pow_add_r by lia; f_equal; lia).
      assert (E2 : 2 ^ 53 = 2 ^ d * 2 ^ (53 - d))
        by (rewrite <- Z.pow_add_r by lia; f_equal; lia).
      rewrite E1, E2.
      assert (0 < 2 ^ (53 - d)) by (apply Z.pow_pos_nonneg; lia). nia. }
    rewrite binary_round_aux_exact; [| done | unfold Py.emax, Py.prec; lia].
    eexists _, _. split; [reflexivity |]. split; [done |]. split; [lia |].
    by rewrite pos_iter_xO.
Qed.

(** [float(n)] for a positive int below 2^53. *)
Lemma float_of_int_exact n :
  0 < n < 2 ^ 53 →
  ∃ m e, Py.float_of_int n = Ret (S754_finite false m e)
    ∧ Zdigits2 (Z.pos m) = Py.prec ∧ -52 <= e <= 0 ∧ Z.pos m = n * 2 ^ (- e).
Proof.
  intros [Hpos Hlt]. destruct n as [| p | p]; try lia.
  destruct (binary_round_int false p Hlt) as (m & e & E & Hd & He & Hm).
  exists m, e. unfold Py.float_of_int, binary_normalize. by rewrite E.
Qed.

(** [float(n)] never overflows for an int of magnitude below 2^53. *)
Lemma float_of_int_returns n :
  - 2 ^ 53 < n < 2 ^ 53 → returns (Py.float_of_int n) (fun _ => True).
Proof.
  intros Hn. unfold Py.float_of_int, binary_normalize.
  destruct n as [| p | p].
  - by apply returns_ret.
  - destruct (binary_round_int false p) as (m & e & -> & _); [lia |].
    by apply returns_ret.
  - destruct (binary_round_int true p) as (m & e & -> & _); [lia |].
    by apply returns_ret.
Qed.

(** The product of two doubles with full mantissas, away from overflow and
    underflow: finite, and within one unit in the last place of the exact
    product [P] taken at exponent [ex + ey]. *)
Lemma fmul_finite sx mx ex sy my ey :
  Zdigits2 (Z.pos mx) = Py.prec → Zdigits2 (Z.pos my) = Py.prec →
  -1074 <= ex + ey + 52 → ex + ey + 54 <= Py.emax - Py.prec →
  let P := Z.pos mx * Z.pos my in
  ∃ n q e', 52 <= n <= 53
    ∧ 2 ^ 104 <= P < 2 ^ 106
    ∧ Py.fmul (S754_finite sx mx ex) (S754_finite sy my ey)
      = S754_finite (xorb sx sy) q e'
    ∧ ex + ey <= e' <= ex + ey + n + 1
    ∧ P / 2 ^ n * 2 ^ n <= Z.pos q * 2 ^ (e' - (ex + ey)) <= (P / 2 ^ n + 1) * 2 ^ n.
Proof.
  intros Hdx Hdy Hlo Hhi P.
  pose proof (Zdigits2_bounds (Z.pos mx) eq_refl) as Hbx. rewrite Hdx in Hbx.
  pose proof (Zdigits2_bounds (Z.pos my) eq_refl) as Hby. rewrite Hdy in Hby.
  change (Py.prec - 1) with 52 in *. change Py.prec with 53 in *.
  assert (HP : 2 ^ 104 <= P < 2 ^ 106).
  { change (2 ^ 104) with (2 ^ 52 * 2 ^ 52). change (2 ^ 106) with (2 ^ 53 * 2 ^ 53).
    subst P. nia. }
  assert (Hn : 52 <= Zdigits2 P - 53 <= 53).
  { pose proof (Zdigits2_bounds P ltac:(lia)) as Hb.
    destruct (Z.le_gt_cases (Zdigits2 P) 104).
    { assert (2 ^ Zdigits2 P <= 2 ^ 104) by (apply Z.pow_le_mono_r; lia). lia. }
    destruct (Z.le_gt_cases 107 (Zdigits2 P)).
    { assert (2 ^ 106 <= 2 ^ (Zdigits2 P - 1)) by (apply Z.pow_le_mono_r; lia). lia. }
    lia. }
  destruct (binary_round_aux_bounds (xorb sx sy) P (ex + ey) (Zdigits2 P - 53))
    as (q & e' & E & He1 & He2 & Hq);
    [lia | unfold Py.prec; lia | lia | lia | unfold Py.emax, Py.prec in *; lia |].
  exists (Zdigits2 P - 53), q, e'. split; [done |]. split; [done |].
  split; [| split; [lia | done]].
  unfold Py.fmul, SFmul. rewrite <- E. by rewrite Pos2Z.inj_mul.
Qed.

End float_facts.

(** ** The padding normalizer *)

Section padding.
Context `{Imaging}.
Import add_icon_padding.

(** [int(S * 0.84)] is defined for every canvas size Pillow can hold, and
    for a canvas of at least two pixels it lies between 1 and [S]. *)
Lemma content_size_bounds S :
  2 <= S < 2 ^ 31 → ∃ c, content_size S = Ret c ∧ 1 <= c <= S.
Proof.
  intros HS. unfold content_size, Py.int_mul_float.
  destruct (float_of_int_exact S) as (m & e & -> & Hdm & He & Hm).
  { split; [lia |]. eapply Z.lt_trans; [apply HS | done]. }
  cbn [res_bind]. unfold CONTENT_RATIO.
  set (M := 7566047373982433%positive).
  assert (HM : 2 ^ 52 <= Z.pos M < 2 ^ 53) by (subst M; split; done).
  pose proof (Zdigits2_bounds (Z.pos m) eq_refl) as Hmb. rewrite Hdm in Hmb.
  change (Py.prec - 1) with 52 in Hmb. change Py.prec with 53 in Hmb.
  assert (He' : -51 <= e <= -22).
  { split.
    - destruct (Z.le_gt_cases (-51) e); [done |].
      assert (2 ^ 52 <= 2 ^ (- e)) by (apply Z.pow_le_mono_r; lia). nia.
    - destruct (Z.le_gt_cases e (-22)); [done |].
      assert (2 ^ (- e) <= 2 ^ 21) by (apply Z.pow_le_mono_r; lia).
      change (2 ^ 52) with (2 ^ 31 * 2 ^ 21) in Hmb. nia. }
  destruct (fmul_finite false m e false M (-53)) as (n & q & e' & Hn & HP & -> & He2 & Hq);
    [done | done | lia | unfold Py.emax, Py.prec; lia |].
  set (P := Z.pos m * Z.pos M) in *.
  set (K := 53 - e).
  replace (e' - (e + -53)) with (e' + K) in Hq by (subst K; lia).
  assert (HK : 2 ^ K = 2 ^ (K - n) * 2 ^ n)
    by (rewrite <- Z.pow_add_r by (subst K; lia); f_equal; lia).
  assert (HK' : 2 ^ K = 2 ^ (e' + K) * 2 ^ (- e'))
    by (rewrite <- Z.pow_add_r by (subst K; lia); f_equal; lia).
  assert (HKe : 2 ^ K = 2 ^ (- e) * 2 ^ 53)
    by (rewrite <- Z.pow_add_r by lia; f_equal; subst K; lia).
  assert (Hpn : 0 < 2 ^ n) by (apply Z.pow_pos_nonneg; lia).
  assert (Hpe : 0 < 2 ^ (- e)) by (apply Z.pow_pos_nonneg; lia).
  assert (Hpe' : 0 < 2 ^ (- e')) by (apply Z.pow_pos_nonneg; lia).
  assert (Hpk : 0 < 2 ^ (e' + K)) by (apply Z.pow_pos_nonneg; subst K; lia).
  assert (Hpkn : 0 < 2 ^ (K - n)) by (apply Z.pow_pos_nonneg; subst K; lia).
  assert (HPlo : 2 ^ K <= P).
  { rewrite HKe. subst P. rewrite Hm. change (2 ^ 53) with (2 * 2 ^ 52). nia. }
  assert (HPhi : P < S * 2 ^ K).
  { rewrite HKe. subst P. rewrite Hm. nia. }
  assert (Hdlo : 2 ^ (K - n) <= P `div` 2 ^ n).
  { apply Z.div_le_lower_bound; [done |]. lia. }
  assert (Hdhi : P `div` 2 ^ n < S * 2 ^ (K - n)).
  { apply Z.div_lt_upper_bound; [done |]. nia. }
  unfold Py.int_of_float. cbn [xorb]. destruct (Z.leb_spec 0 e'); [lia |].
  eexists. split; [reflexivity |].
  replace (Z.pos q `div` 2 ^ (- e')) with ((Z.pos q * 2 ^ (e' + K)) `div` 2 ^ K).
  2:{ rewrite HK', (Z.mul_comm (2 ^ (e' + K))), Z.div_mul_cancel_r by lia. done. }
  split.
  - apply Z.div_le_lower_bound; [lia |]. nia.
  - apply Z.div_le_upper_bound; [lia |]. nia.
Qed.

Lemma INT_MAX_eq : PIL.INT_MAX = 2 ^ 31 - 1.
Proof. reflexivity. Qed.

Lemma fits_int_true n : 0 <= n <= PIL.INT_MAX → PIL.fits_int n = true.
Proof.
  rewrite INT_MAX_eq. intros Hn. unfold PIL.fits_int. rewrite INT_MAX_eq.
  apply andb_true_intro. split; apply Z.leb_le; lia.
Qed.

(** [Image.new] on a size Pillow can hold. *)
Lemma new_returns {P} (w h : Z) (color : P) :
  0 <= w <= PIL.INT_MAX → 0 <= h <= PIL.INT_MAX →
  PIL.new w h color = Ret (Raster (Z.to_N w) (Z.to_N h) (fun _ _ => color)).
Proof.
  intros Hw Hh. unfold PIL.new.
  destruct (Z.ltb_spec w 0); [lia |]. destruct (Z.ltb_spec h 0); [lia |].
  by rewrite !fits_int_true.
Qed.

Lemma resize_returns (im : image) (w h : Z) :
  1 <= w <= PIL.INT_MAX → 1 <= h <= PIL.INT_MAX →
  PIL.resize im w h = Ret (resized_to im w h).
Proof.
  intros Hw Hh. unfold PIL.resize, resized_to.
  destruct (decide (size im = (w, h))); [done |].
  rewrite !fits_int_true by lia. simpl.
  destruct (Z.ltb_spec w 1); [lia |]. destruct (Z.ltb_spec h 1); [lia |]. done.
Qed.

Lemma size_resized_to (im : image) (w h : Z) :
  0 <= w → 0 <= h → size (resized_to im w h) = (w, h).
Proof.
  intros Hw Hh. unfold resized_to.
  destruct (decide (size im = (w, h))); [done |].
  unfold size. simpl. f_equal; lia.
Qed.

Lemma padded_returns (img : image) (S : Z) :
  2 <= S <= PIL.INT_MAX →
  ∃ c, content_size S = Ret c ∧ 1 <= c <= S
       ∧ padded img S = Ret (padded_image img S c).
Proof.
  intros HS. rewrite INT_MAX_eq in HS.
  destruct (content_size_bounds S) as (c & Hc & Hb); [lia |].
  exists c. split; [done |]. split; [done |].
  unfold padded. rewrite Hc. cbn [res_bind].
  rewrite resize_returns by (rewrite INT_MAX_eq; lia). cbn [res_bind].
  rewrite new_returns by (rewrite INT_MAX_eq; lia). reflexivity.
Qed.

Lemma padded_image_size (img : image) (S c : Z) :
  0 <= S → size (padded_image img S c) = (S, S).
Proof. intros HS. unfold size. simpl. f_equal; lia. Qed.

(** Outside the pasted box the canvas keeps its transparent pixels. *)
Lemma padded_image_outside (img : image) (S c x y : Z) :
  0 <= c →
  let offset := (S - c) `div` 2 in
  ¬ (offset <= x < offset + c ∧ offset <= y < offset + c) →
  getpixel (padded_image img S c) x y = transparent.
Proof.
  intros Hc offset Hout. unfold padded_image, PIL.paste. cbn [getpixel].
  pose proof (size_resized_to img c c Hc Hc) as Hsz. unfold size in Hsz.
  injection Hsz as Hw Hh. rewrite Hw, Hh. fold offset.
  destruct (PIL.in_box offset offset c c x y) eqn:Hbox; [| done].
  exfalso. apply Hout. unfold PIL.in_box in Hbox.
  apply andb_prop in Hbox as [Hbox Hy2]. apply andb_prop in Hbox as [Hbox Hy1].
  apply andb_prop in Hbox as [Hx1 Hx2].
  apply Z.leb_le in Hx1, Hy1. apply Z.ltb_lt in Hx2, Hy2. lia.
Qed.

(** Inside the box every band is the paste blend of the resized content
    over the transparent canvas. *)
Lemma padded_image_inside (img : image) (S c x y : Z) :
  0 <= c <= S →
  let offset := (S - c) `div` 2 in
  offset <= x < offset + c → offset <= y < offset + c →
  getpixel (padded_image img S c) x y =
    let p := getpixel (resized_to img c c) (x - offset) (y - offset) in
    PIL.blend_pixel (alpha p) transparent p.
Proof.
  intros Hc offset Hx Hy. unfold padded_image, PIL.paste. cbn [getpixel width height].
  pose proof (size_resized_to img c c ltac:(lia) ltac:(lia)) as Hsz. unfold size in Hsz.
  injection Hsz as Hw Hh. rewrite Hw, Hh. fold offset.
  assert (Hoff : 0 <= offset) by (subst offset; apply Z.div_pos; lia).
  assert (Hoff' : offset + c <= S).
  { subst offset. pose proof (Z.mul_div_le (S - c) 2 ltac:(lia)). lia. }
  assert (B1 : PIL.in_box offset offset c c x y = true).
  { unfold PIL.in_box. repeat (apply andb_true_intro; split);
      (apply Z.leb_le || apply Z.ltb_lt); lia. }
  assert (B2 : PIL.in_box 0 0 (Z.of_N (Z.to_N S)) (Z.of_N (Z.to_N S)) x y = true).
  { unfold PIL.in_box. repeat (apply andb_true_intro; split);
      (apply Z.leb_le || apply Z.ltb_lt); lia. }
  by rewrite B1, B2.
Qed.

(** Running the transform on a stored PNG writes the padded image. *)
Lemma add_padding_to_icon_run (img : image) (S : Z) (source_path target_path : string)
    (w : world) :
  2 <= S <= PIL.INT_MAX →
  fs w !! source_path = Some (PNG img) →
  ∃ c, content_size S = Ret c ∧ 1 <= c <= S
    ∧ add_padding_to_icon source_path target_path S w
      = (Ret true, World (<[target_path := PNG (padded_image img S c)]> (fs w)) (stdout w)).
Proof.
  intros HS Hsrc. destruct (padded_returns img S HS) as (c & Hc & Hb & Hp).
  exists c. split; [done |]. split; [done |].
  unfold add_padding_to_icon, bind, Image_open, lift, Image_save, ret.
  by rewrite Hsrc, Hp.
Qed.

End padding.

(** ** Claims about the padding normalizer *)

Section padding_claims.
Context `{Imaging}.
Import add_icon_padding.

(** C1. One application of the padding transform to a stored icon, for a
    canvas size [S] of at least two pixels that Pillow can hold: the file
    written is an [S × S] image; its content is the input resized to
    [c × c] with [c = int(S * 0.84)], pasted at offset [(S - c) // 2] on
    both axes; every pixel outside that square is transparent black. For
    [S = 128] the content is 107 wide at offset 10, spanning [10, 117). *)
Theorem padding_once_geometry (img : image) (S : Z)
    (source_path target_path : string) (w : world) :
  2 <= S <= PIL.INT_MAX →
  fs w !! source_path = Some (PNG img) →
  ∃ c out,
    content_size S = Ret c
    ∧ add_padding_to_icon source_path target_path S w
      = (Ret true, World (<[target_path := PNG out]> (fs w)) (stdout w))
    ∧ size out = (S, S)
    ∧ size (resized_to img c c) = (c, c)
    ∧ let offset := (S - c) `div` 2 in
      1 <= c ∧ 0 <= offset ∧ offset + c <= S
      ∧ (∀ x y, offset <= x < offset + c → offset <= y < offset + c →
           getpixel out x y =
             let p := getpixel (resized_to img c c) (x - offset) (y - offset) in
             PIL.blend_pixel (alpha p) transparent p)
      ∧ (∀ x y, ¬ (offset <= x < offset + c ∧ offset <= y < offset + c) →
           getpixel out x y = transparent ∧ alpha (getpixel out x y) = 0)
      ∧ (S = 128 → c = 107 ∧ offset = 10 ∧ offset + c = 117).
Proof.
  intros HS Hsrc.
  destruct (add_padding_to_icon_run img S source_path target_path w HS Hsrc)
    as (c & Hc & Hb & Hrun).
  exists c, (padded_image img S c).
  split; [done |]. split; [done |].
  split; [apply padded_image_size; lia |].
  split; [apply size_resized_to; lia |].
  intros offset.
  assert (Hoff : 0 <= offset) by (subst offset; apply Z.div_pos; lia).
  assert (Hoff' : offset + c <= S).
  { subst offset. pose proof (Z.mul_div_le (S - c) 2 ltac:(lia)). lia. }
  split; [lia |]. split; [done |]. split; [done |].
  split; [| split].
  - intros x y Hx Hy. by apply padded_image_inside; [lia | |].
  - intros x y Hout.
    rewrite (padded_image_outside img S c x y); [done | lia | done].
  - intros ->. assert (Hc128 : content_size 128 = Ret 107) by (vm_compute; reflexivity).
    rewrite Hc128 in Hc. injection Hc as <-. subst offset. by vm_compute.
Qed.

(** C10. For a canvas size [S] of at least two pixels that Pillow can
    hold, the padding transform takes an input of any width and height:
    it never rejects it, and it always resizes it to the square
    [c × c] with [c = int(S * 0.84)] (by resampling, unless the input is
    [c × c] already), whatever the aspect ratio, and returns an [S × S]
    canvas that carries the square content. *)
Theorem padding_ignores_aspect_ratio (img : image) (S : Z) :
  2 <= S <= PIL.INT_MAX →
  ∃ c,
    content_size S = Ret c
    ∧ PIL.resize img c c = Ret (resized_to img c c)
    ∧ size (resized_to img c c) = (c, c)
    ∧ (size img ≠ (c, c) →
       ∀ x y, getpixel (resized_to img c c) x y = lanczos img c c x y)
    ∧ padded img S = Ret (padded_image img S c)
    ∧ size (padded_image img S c) = (S, S).
Proof.
  intros HS. destruct (padded_returns img S HS) as (c & Hc & Hb & Hp).
  exists c. split; [done |].
  split; [apply resize_returns; lia |].
  split; [apply size_resized_to; lia |].
  split.
  - intros Hne x y. unfold resized_to. by destruct (decide (size img = (c, c))).
  - split; [done | apply padded_image_size; lia].
Qed.

End padding_claims.

(** ** Padding twice *)

Section padding_twice.
Context `{Imaging}.
Import add_icon_padding.

(** The rounded division by 255 keeps a large enough product positive. *)
Lemma DIV255_pos t : 16384 <= t → 64 <= PIL.DIV255 t.
Proof.
  intros Ht. unfold PIL.DIV255. rewrite !Z.shiftr_div_pow2 by lia.
  change (2 ^ 8) with 256.
  assert (0 <= (t + 128) `div` 256) by (apply Z.div_pos; lia).
  apply Z.div_le_lower_bound; lia.
Qed.

Lemma blend_alpha_visible (p : pixel) :
  128 <= alpha p → 0 < alpha (PIL.blend_pixel (alpha p) transparent p).
Proof.
  intros Ha. unfold PIL.blend_pixel, PIL.BLEND8, transparent. cbn [alpha].
  assert (64 <= PIL.DIV255 (0 * (255 - alpha p) + alpha p * alpha p)); [| lia].
  apply DIV255_pos. nia.
Qed.

Lemma blend_transparent :
  PIL.blend_pixel (alpha transparent) transparent transparent = transparent.
Proof. reflexivity. Qed.

(** Resizing an opaque, non-empty image leaves every pixel visible. *)
Lemma resized_opaque_visible (img : image) (c x y : Z) :
  lanczos_keeps_opaque →
  0 < Z.of_N (width img) → 0 < Z.of_N (height img) → opaque img →
  0 <= x < c → 0 <= y < c →
  128 <= alpha (getpixel (resized_to img c c) x y).
Proof.
  intros Hop Hw Hh Himg Hx Hy. unfold resized_to.
  destruct (decide (size img = (c, c))) as [Hsz | Hsz].
  - unfold size in Hsz. injection Hsz as Hwc Hhc.
    rewrite Himg by lia. lia.
  - cbn [getpixel]. by apply Hop.
Qed.

(** Every pixel of the content square of a once-padded opaque image is
    visible. *)
Lemma padded_once_visible (img : image) (S c x y : Z) :
  lanczos_keeps_opaque →
  0 < Z.of_N (width img) → 0 < Z.of_N (height img) → opaque img →
  0 <= c <= S →
  let offset := (S - c) `div` 2 in
  offset <= x < offset + c → offset <= y < offset + c →
  0 < alpha (getpixel (padded_image img S c) x y).
Proof.
  intros Hop Hw Hh Himg Hc offset Hx Hy.
  rewrite padded_image_inside by done. cbn zeta. fold offset.
  apply blend_alpha_visible.
  apply resized_opaque_visible; try done; lia.
Qed.

(** Resampling the once-padded 128-pixel canvas to 107 pixels: the five
    outermost output rows and columns see the transparent border only. *)
Lemma resized_padded_border (img : image) (x y : Z) :
  lanczos_local →
  0 <= x < 107 → 0 <= y < 107 →
  ¬ (5 <= x < 102 ∧ 5 <= y < 102) →
  getpixel (resized_to (padded_image img 128 107) 107 107) x y = transparent.
Proof.
  intros Hloc Hx Hy Hedge. unfold resized_to.
  destruct (decide (size (padded_image img 128 107) = (107, 107))) as [Hsz | _].
  { rewrite padded_image_size in Hsz by lia. discriminate. }
  cbn [getpixel]. apply Hloc; [by cbn | by cbn | done | done |].
  intros i j Hi Hj Wi Wj.
  apply padded_image_outside; [lia |].
  change ((128 - 107) `div` 2) with 10.
  unfold in_window in Wi, Wj.
  change (Z.of_N (width (padded_image img 128 107))) with 128 in Wi.
  change (Z.of_N (height (padded_image img 128 107))) with 128 in Wj.
  lia.
Qed.

(** C3. The padding transform is not idempotent and nothing detects an
    input that is padded already. Whenever the resampling filter is local
    and keeps opaque images visible: for every opaque, non-empty icon
    stored at a path, padding it in place twice for a 128-pixel canvas
    succeeds both times; the second run resamples the whole once-padded
    canvas, border included, into the same 107-pixel box; after the first
    run every pixel of the square [10, 117) is visible, after the second
    only pixels of the smaller square [15, 112) can be, so the two images
    differ. *)
Theorem padding_twice_shrinks (img : image) (path : string) (w : world) :
  lanczos_local → lanczos_keeps_opaque →
  0 < Z.of_N (width img) → 0 < Z.of_N (height img) → opaque img →
  fs w !! path = Some (PNG img) →
  ∃ once twice w1 w2,
    add_padding_to_icon path path 128 w = (Ret true, w1)
    ∧ fs w1 !! path = Some (PNG once)
    ∧ add_padding_to_icon path path 128 w1 = (Ret true, w2)
    ∧ fs w2 !! path = Some (PNG twice)
    ∧ size once = (128, 128) ∧ size twice = (128, 128)
    ∧ twice = padded_image once 128 107
    ∧ (∀ x y, 10 <= x < 117 → 10 <= y < 117 → 0 < alpha (getpixel once x y))
    ∧ (∀ x y, ¬ (15 <= x < 112 ∧ 15 <= y < 112) → getpixel twice x y = transparent)
    ∧ twice ≠ once.
Proof.
  intros Hloc Hop Hw Hh Himg Hsrc.
  assert (HS : 2 <= 128 <= PIL.INT_MAX) by (rewrite INT_MAX_eq; lia).
  assert (Hc128 : content_size 128 = Ret 107) by (vm_compute; reflexivity).
  destruct (add_padding_to_icon_run img 128 path path w HS Hsrc)
    as (c & Hc & _ & Hrun1).
  rewrite Hc128 in Hc. injection Hc as <-.
  set (once := padded_image img 128 107) in *.
  set (w1 := World (<[path := PNG once]> (fs w)) (stdout w)) in *.
  assert (Hsrc1 : fs w1 !! path = Some (PNG once)) by (cbn; apply lookup_insert_eq).
  destruct (add_padding_to_icon_run once 128 path path w1 HS Hsrc1)
    as (c & Hc & _ & Hrun2).
  rewrite Hc128 in Hc. injection Hc as <-.
  set (twice := padded_image once 128 107) in *.
  assert (Hvis : ∀ x y, 10 <= x < 117 → 10 <= y < 117 → 0 < alpha (getpixel once x y)).
  { intros x y Hx Hy. subst once.
    apply padded_once_visible; try done; change ((128 - 107) `div` 2) with 10; lia. }
  assert (Hshrunk : ∀ x y, ¬ (15 <= x < 112 ∧ 15 <= y < 112) →
                           getpixel twice x y = transparent).
  { intros x y Hout.
    destruct (decide (10 <= x < 117 ∧ 10 <= y < 117)) as [[Hx Hy] | Hborder].
    - subst twice once. rewrite padded_image_inside;
        [| lia | change ((128 - 107) `div` 2) with 10; lia
         | change ((128 - 107) `div` 2) with 10; lia].
      cbn zeta. change ((128 - 107) `div` 2) with 10.
      rewrite resized_padded_border; [apply blend_transparent | done | lia | lia | lia].
    - subst twice. apply padded_image_outside; [lia |].
      change ((128 - 107) `div` 2) with 10. lia. }
  exists once, twice, w1, (World (<[path := PNG twice]> (fs w1)) (stdout w1)).
  split; [exact Hrun1 |]. split; [exact Hsrc1 |]. split; [exact Hrun2 |].
  split; [cbn; apply lookup_insert_eq |].
  split; [apply padded_image_size; lia |]. split; [apply padded_image_size; lia |].
  split; [done |]. split; [exact Hvis |]. split; [exact Hshrunk |].
  intros Heq. specialize (Hvis 10 10 ltac:(lia) ltac:(lia)).
  rewrite <- Heq, Hshrunk in Hvis by lia. cbn in Hvis. lia.
Qed.

End padding_twice.

(** ** The sample filter has the two properties *)

Lemma nearest_index_range (n w x : Z) :
  0 < n → 0 <= x < w →
  0 <= ((2 * x + 1) * n) `div` (2 * w) < n
  ∧ in_window n w x (((2 * x + 1) * n) `div` (2 * w)).
Proof.
  intros Hn Hx. set (i := ((2 * x + 1) * n) `div` (2 * w)).
  pose proof (Z.div_mod ((2 * x + 1) * n) (2 * w) ltac:(lia)) as Hdm.
  pose proof (Z.mod_pos_bound ((2 * x + 1) * n) (2 * w) ltac:(lia)) as Hr.
  fold i in Hdm. set (r := ((2 * x + 1) * n) `mod` (2 * w)) in *.
  assert (Hi0 : 0 <= i) by (subst i; apply Z.div_pos; nia).
  assert (Hi1 : i < n) by (subst i; apply Z.div_lt_upper_bound; nia).
  split; [lia |]. unfold in_window. nia.
Qed.

Lemma sample_imaging_local : @lanczos_local sample_imaging.
Proof.
  intros im w h x y Hw Hh Hx Hy Hblank. cbn [lanczos sample_imaging]. unfold nearest.
  destruct (nearest_index_range (Z.of_N (width im)) w x Hw Hx) as [Hi Wi].
  destruct (nearest_index_range (Z.of_N (height im)) h y Hh Hy) as [Hj Wj].
  by apply Hblank.
Qed.

Lemma sample_imaging_keeps_opaque : @lanczos_keeps_opaque sample_imaging.
Proof.
  intros im w h x y Hw Hh Hx Hy Hop. cbn [lanczos sample_imaging]. unfold nearest.
  destruct (nearest_index_range (Z.of_N (width im)) w x Hw Hx) as [Hi _].
  destruct (nearest_index_range (Z.of_N (height im)) h y Hh Hy) as [Hj _].
  rewrite Hop by done. lia.
Qed.

Lemma white_square_opaque n : opaque (white_square n).
Proof. by intros i j _ _. Qed.

Lemma sample_world_lookup path im : fs (sample_world path im) !! path = Some (PNG im).
Proof. apply lookup_singleton_eq. Qed.

(** The padding claims at sample inputs: a white 128-pixel square, a
    200 × 100 image, and nearest-neighbour resampling. *)
Lemma padding_once_geometry_witness :
  ∃ c out,
    add_icon_padding.content_size 128 = Ret c
    ∧ fs (add_icon_padding.add_padding_to_icon (H := sample_imaging) "icon.png" "icon.png" 128
            (sample_world "icon.png" (white_square 128))).2 !! "icon.png" = Some (PNG out)
    ∧ size out = (128, 128) ∧ c = 107.
Proof.
  destruct (@padding_once_geometry sample_imaging (white_square 128) 128
              "icon.png" "icon.png" (sample_world "icon.png" (white_square 128)))
    as (c & out & Hc & Hrun & Hsz & _ & Hgeo).
  - rewrite INT_MAX_eq. lia.
  - apply sample_world_lookup.
  - exists c, out. split; [done |]. rewrite Hrun. cbn [snd fs].
    split; [apply lookup_insert_eq |]. split; [done |].
    by destruct Hgeo as (_ & _ & _ & _ & _ & Hc128); destruct Hc128.
Defined.

Lemma padding_ignores_aspect_ratio_witness :
  ∃ c, add_icon_padding.content_size 128 = Ret c
       ∧ size (resized_to (H := sample_imaging) wide_image c c) = (c, c)
       ∧ size (padded_image (H := sample_imaging) wide_image 128 c) = (128, 128).
Proof.
  destruct (@padding_ignores_aspect_ratio sample_imaging wide_image 128)
    as (c & Hc & _ & Hsq & _ & _ & Hsz).
  - rewrite INT_MAX_eq. lia.
  - exists c. done.
Defined.

Lemma padding_twice_shrinks_witness :
  ∃ once twice,
    size once = (128, 128) ∧ size twice = (128, 128)
    ∧ 0 < alpha (getpixel once 10 10)
    ∧ getpixel twice 10 10 = add_icon_padding.transparent
    ∧ twice ≠ once.
Proof.
  destruct (@padding_twice_shrinks sample_imaging (white_square 128) "icon.png"
              (sample_world "icon.png" (white_square 128)))
    as (once & twice & w1 & w2 & _ & _ & _ & _ & Hs1 & Hs2 & _ & Hvis & Hshrunk & Hne).
  - exact sample_imaging_local.
  - exact sample_imaging_keeps_opaque.
  - cbn. lia.
  - cbn. lia.
  - apply white_square_opaque.
  - apply sample_world_lookup.
  - exists once, twice. repeat split; try done.
    + apply Hvis; lia.
    + apply Hshrunk; lia.
Defined.

(** ** The theme recolorer: pixels *)

Section recolor.
Import generate_themed_icons.



Lemma is_background_spec (p : pixel) :
  is_background p = true ↔ is_white p = false ∧ is_transparent p = false.
Proof.
  unfold is_background. rewrite andb_true_iff, !negb_true_iff. done.
Qed.

Lemma recolor_pixel_background (new_r new_g new_b : Z) (p : pixel) :
  is_background p = true →
  recolor_pixel (new_r, new_g, new_b) p = RGBA new_r new_g new_b (alpha p).
Proof. intros Hb. unfold recolor_pixel. by rewrite Hb. Qed.

Lemma recolor_pixel_kept (new : Z * Z * Z) (p : pixel) :
  is_background p = false → recolor_pixel new p = p.
Proof. intros Hb. destruct new as [[r g] b]. unfold recolor_pixel. by rewrite Hb. Qed.

Lemma recolor_pixel_alpha (new : Z * Z * Z) (p : pixel) :
  alpha (recolor_pixel new p) = alpha p.
Proof.
  destruct new as [[r g] b]. unfold recolor_pixel. by destruct (is_background p).
Qed.

(** Every colour of the theme table parses, into three bytes. *)
Lemma THEMES_colors (theme_name theme_color : string) :
  (theme_name, theme_color) ∈ THEMES →
  ∃ r g b, hex_to_rgb theme_color = Ret (r, g, b)
           ∧ 0 <= r <= 255 ∧ 0 <= g <= 255 ∧ 0 <= b <= 255.
Proof.
  unfold THEMES. rewrite !elem_of_cons, elem_of_nil.
  intros Hin.
  repeat (destruct Hin as [Hin | Hin];
          [injection Hin as -> ->; eexists _, _, _;
           split; [vm_compute; reflexivity | lia] |]).
  done.
Qed.

Lemma recolor_icon_run (img : image) (source_path target_path new_bg_color : string)
    (new : Z * Z * Z) (w : world) :
  fs w !! source_path = Some (PNG img) →
  hex_to_rgb new_bg_color = Ret new →
  recolor_icon source_path target_path new_bg_color w
  = (Ret true, World (<[target_path := PNG (recolored img new)]> (fs w)) (stdout w)).
Proof.
  intros Hsrc Hnew.
  unfold recolor_icon, bind, Image_open, lift, Image_save, ret.
  by rewrite Hsrc, Hnew.
Qed.


(** C9. What recolouring leaves alone: the image keeps its size and every
    pixel keeps its alpha; a pixel that is not background (foreground or
    transparent) is kept in all four bands, so a pixel that differs from
    the input is a background pixel, and differs by its RGB only. The run
    itself prints nothing and changes no file but the target. *)
Theorem recolor_frame (img : image) (new : Z * Z * Z)
    (source_path target_path new_bg_color : string) (w : world) :
  size (recolored img new) = size img
  ∧ (∀ x y,
       let p := getpixel img x y in
       let p' := getpixel (recolored img new) x y in
       alpha p' = alpha p
       ∧ (is_white p = true ∨ is_transparent p = true → p' = p)
       ∧ (p' ≠ p →
          is_background p = true ∧ p' = RGBA new.1.1 new.1.2 new.2 (alpha p)))
  ∧ (let r := recolor_icon source_path target_path new_bg_color w in
     stdout r.2 = stdout w
     ∧ (∀ path, path ≠ target_path → fs r.2 !! path = fs w !! path)
     ∧ (r.1 = Ret true →
        ∃ img0 new0, fs w !! source_path = Some (PNG img0)
                     ∧ hex_to_rgb new_bg_color = Ret new0
                     ∧ fs r.2 !! target_path = Some (PNG (recolored img0 new0)))).
Proof.
  split; [reflexivity |]. split.
  - intros x y p p'. subst p'. cbn [recolored getpixel]. fold p.
    split; [apply recolor_pixel_alpha |]. split.
    + intros Hfg. apply recolor_pixel_kept. unfold is_background.
      destruct Hfg as [-> | ->]; [done |]. by destruct (is_white p).
    + intros Hne. destruct (is_background p) eqn:Hb.
      * split; [done |]. destruct new as [[r g] b]. by apply recolor_pixel_background.
      * by rewrite recolor_pixel_kept in Hne.
  - cbn zeta. unfold recolor_icon, bind, Image_open, lift, Image_save, ret.
    destruct (fs w !! source_path) as [[img0 | |] |] eqn:Hsrc; cbn;
      try (split; [done |]; split; [done |]; discriminate).
    destruct (hex_to_rgb new_bg_color) as [new0 |] eqn:Hnew; cbn;
      try (split; [done |]; split; [done |]; discriminate).
    split; [done |]. split.
    + intros path Hne. by apply lookup_insert_ne.
    + intros _. exists img0, new0. split; [done |]. split; [done |].
      apply lookup_insert_eq.
Qed.

End recolor.


Lemma recolor_frame_witness :
  getpixel (generate_themed_icons.recolored (white_square 16) (88, 101, 242)) 3 4
  = RGBA 255 255 255 255.
Proof.
  destruct (recolor_frame (white_square 16) (88, 101, 242)
              "icon.png" "themed.png" "#5865f2"
              (sample_world "icon.png" (white_square 16)))
    as (_ & Hpix & _).
  destruct (Hpix 3 4) as (_ & Hkept & _).
  rewrite Hkept; [done |]. left. reflexivity.
Defined.

(** ** The iconset completer *)

(** [NoDup] of a list of distinct constants. *)
Ltac solve_NoDup :=
  repeat (apply NoDup_cons; split;
          [rewrite ?elem_of_cons, elem_of_nil; intros Hin;
           repeat (destruct Hin as [Hin | Hin]; [discriminate |]); done |]);
  apply NoDup_nil_2.

Section completer.
Context `{Imaging}.
Import prepare_and_generate_icons.

Lemma append_inj_r (a b c : string) : a +:+ b = a +:+ c → b = c.
Proof. induction a as [| x a IH]; simpl; [done |]. intros Heq. injection Heq. auto. Qed.

Lemma icon_path_inj (f g : string) : icon_path f = icon_path g → f = g.
Proof.
  unfold icon_path, os_path.join. intros Heq.
  apply append_inj_r in Heq. by apply append_inj_r in Heq.
Qed.

(** The scan order: the ten required entries, largest first, entries of
    one size in the order of the table. *)
Lemma scan_order_eq :
  scan_order =
  [("icon_512x512@2x.png", 1024); ("icon_256x256@2x.png", 512);
   ("icon_512x512.png", 512); ("icon_128x128@2x.png", 256);
   ("icon_256x256.png", 256); ("icon_128x128.png", 128);
   ("icon_32x32@2x.png", 64); ("icon_16x16@2x.png", 32);
   ("icon_32x32.png", 32); ("icon_16x16.png", 16)].
Proof. reflexivity. Qed.

Lemma scan_order_perm : scan_order ≡ₚ REQUIRED_SIZES.
Proof.
  rewrite scan_order_eq. unfold REQUIRED_SIZES.
  apply NoDup_Permutation.
  - solve_NoDup.
  - solve_NoDup.
  - intros x. rewrite !elem_of_cons, !elem_of_nil. tauto.
Qed.

Lemma scan_order_elem (e : string * Z) : e ∈ scan_order ↔ e ∈ REQUIRED_SIZES.
Proof. by rewrite scan_order_perm. Qed.

Lemma scan_order_decreasing (i j : nat) (a b : string * Z) :
  (i <= j)%nat → scan_order !! i = Some a → scan_order !! j = Some b → b.2 <= a.2.
Proof.
  rewrite scan_order_eq. intros Hij Ha Hb.
  do 10 (destruct i as [| i]; [
    do 10 (destruct j as [| j]; [simplify_eq/=; lia |]); simplify_eq/= |]).
  simplify_eq/=.
Qed.

Lemma required_names_NoDup : NoDup (REQUIRED_SIZES.*1).
Proof.
  unfold REQUIRED_SIZES. cbn [fmap list_fmap fst].
  solve_NoDup.
Qed.

Lemma required_sizes_range (f : string) (n : Z) :
  (f, n) ∈ REQUIRED_SIZES → 16 <= n <= 1024.
Proof.
  unfold REQUIRED_SIZES. rewrite !elem_of_cons, elem_of_nil. intros Hin.
  repeat (destruct Hin as [Hin | Hin]; [injection Hin as -> ->; lia |]). done.
Qed.

(** *** The first loop *)

Lemma find_source_skip (pre rest : list (string * Z)) (w : world) :
  (∀ e, e ∈ pre → fs w !! icon_path e.1 = None) →
  find_source (pre ++ rest) None 0 w = find_source rest None 0 w.
Proof.
  induction pre as [| [f n] pre IH]; intros Hpre; [done |].
  cbn [app find_source]. unfold bind at 1, os_path.exists_.
  assert (Hf : fs w !! icon_path f = None)
    by (apply (Hpre (f, n)), elem_of_cons; by left).
  fold (icon_path f). rewrite Hf.
  rewrite bool_decide_eq_false_2 by (by intros [? ?]).
  apply IH. intros e He. apply Hpre. apply elem_of_cons. by right.
Qed.

Lemma find_source_hit (f : string) (n : Z) (rest : list (string * Z))
    (img : image) (w : world) :
  fs w !! icon_path f = Some (PNG img) →
  find_source ((f, n) :: rest) None 0 w
  = (Ret (Some img, Z.of_N (width img)),
     World (fs w) (stdout w ++ [UsingSource f (Z.of_N (width img))])).
Proof.
  intros Hf. cbn [find_source]. unfold bind, os_path.exists_, Image_open, print, ret.
  fold (icon_path f). rewrite Hf.
  rewrite bool_decide_eq_true_2 by (by eexists). rewrite Hf.
  cbn [size fst]. destruct (Z.geb_spec (Z.of_N (width img)) 0); [done | lia].
Qed.

Lemma find_source_undecodable (f : string) (n : Z) (rest : list (string * Z))
    (c : file) (w : world) :
  fs w !! icon_path f = Some c → (∀ img, c ≠ PNG img) →
  find_source ((f, n) :: rest) None 0 w = (Raise UnidentifiedImageError, w).
Proof.
  intros Hf Hc. cbn [find_source]. unfold bind, os_path.exists_, Image_open.
  fold (icon_path f). rewrite Hf.
  rewrite bool_decide_eq_true_2 by (by eexists). rewrite Hf.
  destruct c as [img | |]; [by destruct (Hc img) | done | done].
Qed.

Lemma find_source_none (entries : list (string * Z)) (w : world) :
  (∀ e, e ∈ entries → fs w !! icon_path e.1 = None) →
  find_source entries None 0 w = (Ret (None, 0), w).
Proof.
  intros Hnone. rewrite <- (app_nil_r entries). by rewrite find_source_skip.
Qed.

(** A list with a present file splits at the first one. *)
Lemma first_present_split (files : gmap string file) (entries : list (string * Z)) :
  (∃ e, e ∈ entries ∧ is_Some (files !! icon_path e.1)) →
  ∃ pre e post, entries = pre ++ e :: post
    ∧ (∀ e', e' ∈ pre → files !! icon_path e'.1 = None)
    ∧ is_Some (files !! icon_path e.1).
Proof.
  induction entries as [| a entries IH]; intros (e & He & Hsome).
  - by apply elem_of_nil in He.
  - destruct (files !! icon_path a.1) as [c |] eqn:Ha.
    + exists [], a, entries. split; [done |]. split; [| by rewrite Ha].
      intros e' He'. by apply elem_of_nil in He'.
    + destruct IH as (pre & e0 & post & -> & Hpre & Hsome0).
      { exists e. split; [| done]. apply elem_of_cons in He as [-> | He]; [| done].
        rewrite Ha in Hsome. by destruct Hsome. }
      exists (a :: pre), e0, post. split; [done |]. split; [| done].
      intros e' He'. apply elem_of_cons in He' as [-> | He']; [done | by apply Hpre].
Qed.

(** *** The second loop *)

Lemma generate_one_run (source_img : image) (source_size : Z) (f : string) (n : Z)
    (w : world) :
  1 <= n <= PIL.INT_MAX →
  generate_one source_img source_size (f, n) w
  = (Ret tt,
     World (<[icon_path f := PNG (resized_to source_img n n)]> (fs w))
           (stdout w ++ generated_lines source_size [(f, n)])).
Proof.
  intros Hn. unfold generate_one, bind, lift, print, ret, Image_save.
  rewrite resize_returns by done. fold (icon_path f).
  unfold generated_lines. cbn [flat_map]. rewrite app_nil_r.
  destruct (n <=? source_size); cbn; [done |]. by rewrite <- app_assoc.
Qed.

Lemma generated_files_cons (source_img : image) (f : string) (n : Z)
    (entries : list (string * Z)) (files : gmap string file) :
  generated_files source_img ((f, n) :: entries) files
  = generated_files source_img entries
      (<[icon_path f := PNG (resized_to source_img n n)]> files).
Proof. reflexivity. Qed.

Lemma generate_entries_run (source_img : image) (source_size : Z)
    (entries : list (string * Z)) :
  Forall (fun e => 1 <= e.2 <= PIL.INT_MAX) entries →
  ∀ w, for_each entries (generate_one source_img source_size) w
       = (Ret tt,
          World (generated_files source_img entries (fs w))
                (stdout w ++ generated_lines source_size entries)).
Proof.
  induction 1 as [| [f n] entries Hn _ IH]; intros w.
  - cbn. rewrite app_nil_r. by destruct w.
  - cbn [for_each]. unfold bind at 1. rewrite generate_one_run by done.
    rewrite IH. cbn [fs stdout]. rewrite generated_files_cons.
    f_equal. f_equal. rewrite <- app_assoc. f_equal.
    unfold generated_lines. cbn [flat_map]. by rewrite app_nil_r.
Qed.

Lemma generated_files_other (source_img : image) (entries : list (string * Z))
    (files : gmap string file) (path : string) :
  (∀ e, e ∈ entries → icon_path e.1 ≠ path) →
  generated_files source_img entries files !! path = files !! path.
Proof.
  revert files. induction entries as [| [f n] entries IH]; intros files Hne; [done |].
  rewrite generated_files_cons.
  rewrite IH by (intros e He; apply Hne, elem_of_cons; by right).
  apply lookup_insert_ne. apply (Hne (f, n)). apply elem_of_cons. by left.
Qed.

Lemma generated_files_lookup (source_img : image) (entries : list (string * Z))
    (files : gmap string file) (f : string) (n : Z) :
  NoDup (entries.*1) → (f, n) ∈ entries →
  generated_files source_img entries files !! icon_path f
  = Some (PNG (resized_to source_img n n)).
Proof.
  revert files. induction entries as [| [g m] entries IH]; intros files Hnd Hin.
  - by apply elem_of_nil in Hin.
  - cbn [fmap list_fmap fst] in Hnd. apply NoDup_cons in Hnd as [Hg Hnd].
    rewrite generated_files_cons.
    apply elem_of_cons in Hin as [Heq | Hin].
    + injection Heq as -> ->. rewrite generated_files_other; [apply lookup_insert_eq |].
      intros e He Hpath. apply icon_path_inj in Hpath. apply Hg.
      rewrite <- Hpath. apply list_elem_of_fmap. by exists e.
    + by apply IH.
Qed.

Lemma elem_of_generated_lines_warning (source_size n s' : Z)
    (entries : list (string * Z)) :
  WarnUpscaling n s' ∈ generated_lines source_size entries
  ↔ s' = source_size ∧ source_size < n ∧ ∃ f, (f, n) ∈ entries.
Proof.
  induction entries as [| [g m] entries IH].
  - cbn. rewrite elem_of_nil. split; [done |]. intros (_ & _ & f & Hf).
    by apply elem_of_nil in Hf.
  - change (generated_lines source_size ((g, m) :: entries))
      with (((if m <=? source_size then [] else [WarnUpscaling m source_size])
             ++ [CreatedSized g m]) ++ generated_lines source_size entries).
    rewrite !elem_of_app, IH. split.
    + intros [[Hw | Hc] | (-> & Hlt & f & Hf)].
      * destruct (Z.leb_spec m source_size) as [Hle | Hgt];
          [by apply elem_of_nil in Hw |].
        apply list_elem_of_singleton in Hw. injection Hw as -> ->.
        split; [done |]. split; [done |]. exists g. apply elem_of_cons. by left.
      * apply list_elem_of_singleton in Hc. discriminate.
      * split; [done |]. split; [done |]. exists f. apply elem_of_cons. by right.
    + intros (-> & Hlt & f & Hf). apply elem_of_cons in Hf as [Heq | Hf].
      * injection Heq as <- <-. left. left.
        destruct (Z.leb_spec n source_size); [lia |]. by apply list_elem_of_singleton.
      * right. split; [done |]. split; [done |]. by exists f.
Qed.

Lemma elem_of_generated_lines_created (source_size n : Z) (f : string)
    (entries : list (string * Z)) :
  (f, n) ∈ entries → CreatedSized f n ∈ generated_lines source_size entries.
Proof.
  induction entries as [| [g m] entries IH]; intros Hin.
  - by apply elem_of_nil in Hin.
  - change (generated_lines source_size ((g, m) :: entries))
      with (((if m <=? source_size then [] else [WarnUpscaling m source_size])
             ++ [CreatedSized g m]) ++ generated_lines source_size entries).
    rewrite !elem_of_app. apply elem_of_cons in Hin as [Heq | Hin].
    + injection Heq as <- <-. left. right. by apply list_elem_of_singleton.
    + right. by apply IH.
Qed.

Lemma required_sizes_resizable :
  Forall (fun e : string * Z => 1 <= e.2 <= PIL.INT_MAX) REQUIRED_SIZES.
Proof.
  apply Forall_forall. intros [f n] Hin. apply required_sizes_range in Hin.
  cbn. rewrite INT_MAX_eq. lia.
Qed.

(** *** The whole of [prepare_iconset] *)

Lemma prepare_iconset_found (pre post : list (string * Z)) (f : string) (n : Z)
    (img : image) (w : world) :
  scan_order = pre ++ (f, n) :: post →
  (∀ e, e ∈ pre → fs w !! icon_path e.1 = None) →
  fs w !! icon_path f = Some (PNG img) →
  prepare_iconset w
  = (Ret true,
     World (generated_files img REQUIRED_SIZES (fs w))
           (stdout w ++ prepare_banner
              ++ [UsingSource f (Z.of_N (width img)); Text "Generating icons:"]
              ++ generated_lines (Z.of_N (width img)) REQUIRED_SIZES)).
Proof.
  intros Hsplit Hpre Hf. unfold prepare_iconset.
  fold scan_order. rewrite Hsplit.
  unfold bind at 1 2 3 4, print at 1 2 3. cbn [fs stdout].
  rewrite find_source_skip by done.
  rewrite (find_source_hit f n post img) by done.
  unfold bind at 1 2, print at 1. cbn [fs stdout].
  unfold generate_all. rewrite generate_entries_run by apply required_sizes_resizable.
  unfold ret. cbn [fs stdout]. f_equal. f_equal.
  unfold prepare_banner. rewrite <- !app_assoc. reflexivity.
Qed.

Lemma prepare_iconset_missing (w : world) :
  (∀ e, e ∈ REQUIRED_SIZES → fs w !! icon_path e.1 = None) →
  prepare_iconset w
  = (Ret false, World (fs w) (stdout w ++ prepare_banner ++ [ErrorNoSource])).
Proof.
  intros Hnone. unfold prepare_iconset. fold scan_order.
  unfold bind at 1 2 3 4, print at 1 2 3. cbn [fs stdout].
  rewrite find_source_none by (intros e He; apply Hnone; by apply scan_order_elem).
  unfold bind, print, ret. cbn [fs stdout]. f_equal. f_equal.
  unfold prepare_banner. rewrite <- !app_assoc. reflexivity.
Qed.

Lemma prepare_iconset_undecodable (pre post : list (string * Z)) (f : string) (n : Z)
    (c : file) (w : world) :
  scan_order = pre ++ (f, n) :: post →
  (∀ e, e ∈ pre → fs w !! icon_path e.1 = None) →
  fs w !! icon_path f = Some c → (∀ img, c ≠ PNG img) →
  ∃ w', prepare_iconset w = (Raise UnidentifiedImageError, w').
Proof.
  intros Hsplit Hpre Hf Hc. unfold prepare_iconset. fold scan_order. rewrite Hsplit.
  unfold bind at 1 2 3 4, print at 1 2 3. cbn [fs stdout].
  rewrite find_source_skip by done.
  rewrite (find_source_undecodable f n post c) by done. by eexists.
Qed.

End completer.

(** ** Claims about the iconset completer *)

Section completer_claims.
Context `{Imaging}.
Import prepare_and_generate_icons.

(** C5. The completer scans the required entries largest size first: the
    scan order is a permutation of the required table in which sizes never
    increase. The first entry of that order whose file exists is the one
    source: when it decodes to [img], [prepare_iconset] returns [True],
    announces that entry, and every required file then holds [img]
    resampled to the entry's size. [prepare_iconset] returns [False]
    (a returned value, not an exception) exactly when none of the required
    files exists, and then it prints the error line and changes no file. *)
Theorem completer_source_selection (w : world) :
  scan_order ≡ₚ REQUIRED_SIZES
  ∧ (∀ (i j : nat) a b, (i <= j)%nat →
       scan_order !! i = Some a → scan_order !! j = Some b → b.2 <= a.2)
  ∧ (∀ pre f n post img,
       scan_order = pre ++ (f, n) :: post →
       (∀ e, e ∈ pre → fs w !! icon_path e.1 = None) →
       fs w !! icon_path f = Some (PNG img) →
       ∃ w', prepare_iconset w = (Ret true, w')
         ∧ UsingSource f (size img).1 ∈ stdout w'
         ∧ ∀ g m, (g, m) ∈ REQUIRED_SIZES →
             PIL.resize img m m = Ret (resized_to img m m)
             ∧ fs w' !! icon_path g = Some (PNG (resized_to img m m)))
  ∧ ((∃ w', prepare_iconset w = (Ret false, w'))
     ↔ ∀ f n, (f, n) ∈ REQUIRED_SIZES → fs w !! icon_path f = None)
  ∧ ((∀ f n, (f, n) ∈ REQUIRED_SIZES → fs w !! icon_path f = None) →
     prepare_iconset w
     = (Ret false, World (fs w) (stdout w ++ prepare_banner ++ [ErrorNoSource]))).
Proof.
  split; [apply scan_order_perm |].
  split; [apply scan_order_decreasing |].
  split; [| split].
  - intros pre f n post img Hsplit Hpre Hf.
    eexists. split; [by eapply prepare_iconset_found |].
    cbn [stdout fs]. split.
    + rewrite !elem_of_app. right. right. left. apply elem_of_cons. by left.
    + intros g m Hin. split.
      * apply resize_returns; apply required_sizes_range in Hin;
          rewrite INT_MAX_eq; lia.
      * apply generated_files_lookup; [apply required_names_NoDup | done].
  - split.
    + intros [w' Hfalse] f n Hin.
      destruct (fs w !! icon_path f) as [c |] eqn:Hf; [exfalso | done].
      destruct (first_present_split (fs w) scan_order)
        as (pre & [f0 n0] & post & Hsplit & Hpre & [c0 Hc0]).
      { exists (f, n). split; [by apply scan_order_elem |]. cbn [fst]. by rewrite Hf. }
      destruct c0 as [img | sizes im |].
      * rewrite (prepare_iconset_found pre post f0 n0 img w) in Hfalse by done.
        discriminate.
      * destruct (prepare_iconset_undecodable pre post f0 n0 _ w Hsplit Hpre Hc0)
          as [w'' Hraise]; [done |]. rewrite Hraise in Hfalse. discriminate.
      * destruct (prepare_iconset_undecodable pre post f0 n0 _ w Hsplit Hpre Hc0)
          as [w'' Hraise]; [done |]. rewrite Hraise in Hfalse. discriminate.
    + intros Hnone. eexists. apply prepare_iconset_missing.
      intros [f n] Hin. by apply (Hnone f n).
  - intros Hnone. apply prepare_iconset_missing.
    intros [f n] Hin. by apply (Hnone f n).
Qed.

(** C4. A directory whose only required file is a 512 × 512 image: the
    completer returns [True]; afterwards each of the ten required files
    holds an image of exactly its entry's size; the lines it prints hold
    one upscaling warning, for 1024 from 512, and a target size draws a
    warning exactly when it exceeds 512; the 1024-pixel file is written
    all the same. *)
Theorem completer_from_512 (w : world) (f0 : string) (n0 : Z) (img : image) :
  (f0, n0) ∈ REQUIRED_SIZES →
  fs w !! icon_path f0 = Some (PNG img) →
  size img = (512, 512) →
  (∀ f n, (f, n) ∈ REQUIRED_SIZES → f ≠ f0 → fs w !! icon_path f = None) →
  ∃ w' printed,
    prepare_iconset w = (Ret true, w')
    ∧ length REQUIRED_SIZES = 10%nat
    ∧ (∀ f n, (f, n) ∈ REQUIRED_SIZES →
         ∃ out, fs w' !! icon_path f = Some (PNG out) ∧ size out = (n, n))
    ∧ stdout w' = stdout w ++ printed
    ∧ filter (fun l => is_warning l = true) printed = [WarnUpscaling 1024 512]
    ∧ (∀ f n, (f, n) ∈ REQUIRED_SIZES →
         (WarnUpscaling n 512 ∈ printed ↔ 512 < n)
         ∧ CreatedSized f n ∈ printed).
Proof.
  intros Hin0 Hf0 Hsz Hothers.
  assert (Hw : Z.of_N (width img) = 512) by (unfold size in Hsz; by injection Hsz).
  destruct (list_elem_of_split scan_order (f0, n0)) as (pre & post & Hsplit);
    [by apply scan_order_elem |].
  assert (Hpre : ∀ e, e ∈ pre → fs w !! icon_path e.1 = None).
  { intros [f n] He. apply (Hothers f n).
    - apply scan_order_elem. rewrite Hsplit. apply elem_of_app. by left.
    - intros ->. cbn in He.
      assert (Hnd : NoDup (scan_order.*1))
        by (rewrite scan_order_perm; apply required_names_NoDup).
      rewrite Hsplit, fmap_app in Hnd. apply NoDup_app in Hnd as (_ & Hdisj & _).
      apply (Hdisj f0).
      + apply list_elem_of_fmap. by exists (f0, n).
      + cbn. apply elem_of_cons. by left. }
  eexists _, _. split; [by eapply prepare_iconset_found |].
  cbn [fs stdout]. rewrite Hw.
  split; [done |]. split; [| split; [reflexivity | split]].
  - intros f n Hin. exists (resized_to img n n). split.
    + apply generated_files_lookup; [apply required_names_NoDup | done].
    + apply required_sizes_range in Hin. apply size_resized_to; lia.
  - reflexivity.
  - intros f n Hin. split.
    + rewrite elem_of_app, elem_of_app, elem_of_generated_lines_warning. split.
      * intros [Hb | [Hb | (_ & Hlt & _)]]; [exfalso | exfalso | done].
        -- unfold prepare_banner in Hb. rewrite !elem_of_cons, elem_of_nil in Hb.
           repeat (destruct Hb as [Hb | Hb]; [discriminate |]). done.
        -- rewrite !elem_of_cons, elem_of_nil in Hb.
           repeat (destruct Hb as [Hb | Hb]; [discriminate |]). done.
      * intros Hlt. right. right. split; [done |]. split; [done |]. by exists f.
    + rewrite !elem_of_app. right. right.
      by apply elem_of_generated_lines_created.
Qed.

End completer_claims.

Lemma completer_source_selection_witness :
  ∃ w', prepare_and_generate_icons.prepare_iconset (H := sample_imaging)
          (sample_world (icon_path "icon_512x512@2x.png") (white_square 1024))
        = (Ret true, w')
    ∧ ∃ out, fs w' !! icon_path "icon_16x16.png" = Some (PNG out)
             ∧ size out = (16, 16).
Proof.
  destruct (@completer_source_selection sample_imaging
              (sample_world (icon_path "icon_512x512@2x.png") (white_square 1024)))
    as (_ & _ & Hfound & _).
  destruct (Hfound [] "icon_512x512@2x.png" 1024
              (List.tl scan_order) (white_square 1024))
    as (w' & Hrun & _ & Hfiles).
  - reflexivity.
  - intros e He. by apply elem_of_nil in He.
  - apply sample_world_lookup.
  - exists w'. split; [done |].
    destruct (Hfiles "icon_16x16.png" 16) as [_ Hfile].
    { unfold prepare_and_generate_icons.REQUIRED_SIZES. apply elem_of_cons. by left. }
    eexists. split; [exact Hfile |]. apply size_resized_to; lia.
Defined.

Lemma sample_world_lookup_ne path path' im :
  path ≠ path' → fs (sample_world path im) !! path' = None.
Proof. intros Hne. by apply lookup_singleton_ne. Qed.

Lemma completer_from_512_witness :
  ∃ w' printed,
    prepare_and_generate_icons.prepare_iconset (H := sample_imaging)
      (sample_world (icon_path "icon_512x512.png") (white_square 512))
    = (Ret true, w')
    ∧ stdout w' = printed
    ∧ filter (fun l => is_warning l = true) printed = [WarnUpscaling 1024 512]
    ∧ ∃ out, fs w' !! icon_path "icon_512x512@2x.png" = Some (PNG out)
             ∧ size out = (1024, 1024).
Proof.
  destruct (@completer_from_512 sample_imaging
              (sample_world (icon_path "icon_512x512.png") (white_square 512))
              "icon_512x512.png" 512 (white_square 512))
    as (w' & printed & Hrun & _ & Hfiles & Hout & Hwarn & _).
  - unfold prepare_and_generate_icons.REQUIRED_SIZES.
    rewrite !elem_of_cons. tauto.
  - apply sample_world_lookup.
  - reflexivity.
  - intros f n _ Hne. apply sample_world_lookup_ne.
    intros Heq. apply icon_path_inj in Heq. congruence.
  - exists w', printed. split; [done |]. split; [by rewrite Hout |].
    split; [done |]. apply Hfiles.
    unfold prepare_and_generate_icons.REQUIRED_SIZES. rewrite !elem_of_cons. tauto.
Defined.

(** ** The icon synthesizer *)

Section synthesizer.
Context `{Imaging}.
Import generate_icon.

Lemma positive_normal_spec (lo hi : Z) (x : Py.float) :
  positive_normal lo hi x = true →
  ∃ m e, x = S754_finite false m e ∧ Zdigits2 (Z.pos m) = Py.prec ∧ lo <= e <= hi.
Proof.
  destruct x as [| | | [] m e]; try discriminate. unfold positive_normal.
  rewrite !andb_true_iff, Z.eqb_eq, !Z.leb_le. intros [[Hd Hlo] Hhi].
  exists m, e. unfold Py.prec. auto.
Qed.

(** Truncating the product of two positive doubles whose exponents sum to
    at most -55: an int between 0 and 2^53. *)
Lemma int_of_fmul_returns (mx my : positive) (ex ey : Z) :
  Zdigits2 (Z.pos mx) = Py.prec → Zdigits2 (Z.pos my) = Py.prec →
  -1000 <= ex + ey <= -55 →
  returns (Py.int_of_float (Py.fmul (S754_finite false mx ex) (S754_finite false my ey)))
          (fun z => 0 <= z < 2 ^ 53).
Proof.
  intros Hx Hy HE.
  destruct (fmul_finite false mx ex false my ey)
    as (n & q & e' & Hn & HP & -> & He' & Hq);
    [done | done | lia | unfold Py.emax, Py.prec; lia |].
  cbn [xorb]. unfold Py.int_of_float.
  destruct (Z.leb_spec 0 e'); [lia |].
  eexists. split; [reflexivity |]. cbv beta.
  set (E := ex + ey) in *. set (P := Z.pos mx * Z.pos my) in *.
  assert (HK : 2 ^ (- E) = 2 ^ (e' - E) * 2 ^ (- e'))
    by (rewrite <- Z.pow_add_r by lia; f_equal; lia).
  assert (Hpe : 0 < 2 ^ (- e')) by (apply Z.pow_pos_nonneg; lia).
  assert (Hpk : 0 < 2 ^ (e' - E)) by (apply Z.pow_pos_nonneg; lia).
  assert (Hpn : 0 < 2 ^ n) by (apply Z.pow_pos_nonneg; lia).
  replace (Z.pos q `div` 2 ^ (- e')) with ((Z.pos q * 2 ^ (e' - E)) `div` 2 ^ (- E)).
  2:{ rewrite HK, (Z.mul_comm (2 ^ (e' - E))), Z.div_mul_cancel_r by lia. done. }
  assert (Hbig : 2 ^ 55 <= 2 ^ (- E)) by (apply Z.pow_le_mono_r; lia).
  assert (Hn' : 2 ^ n <= 2 ^ 53) by (apply Z.pow_le_mono_r; lia).
  pose proof (Z.mul_div_le P (2 ^ n) Hpn) as Hfloor.
  change (2 ^ 106) with (2 ^ 53 * 2 ^ 53) in HP.
  change (2 ^ 55) with (4 * 2 ^ 53) in Hbig.
  assert (Hp53 : 0 < 2 ^ 53) by done.
  split.
  - apply Z.div_pos; lia.
  - apply Z.div_lt_upper_bound; [lia |]. nia.
Qed.

Lemma s_unfold (scale : Py.float) (val : Z) (c : Py.float) :
  centered val = Ret c → s scale val = Py.int_of_float (Py.fmul c scale).
Proof.
  unfold centered, s. destruct (Py.int_mul_float (val - 256) f0_75); [| discriminate].
  cbn [res_bind]. destruct (Py.float_of_int 256); [| discriminate].
  cbn [res_bind]. by intros [= <-].
Qed.

Lemma s_returns (scale : Py.float) (val : Z) :
  positive_normal (-60) (-50) scale = true → centered_ok val = true →
  returns (s scale val) (fun z => 0 <= z < 2 ^ 53).
Proof.
  intros Hs Hc. unfold centered_ok in Hc.
  destruct (centered val) as [c |] eqn:Ec; [| discriminate].
  apply positive_normal_spec in Hc as (mc & ec & -> & Hdc & Hec).
  apply positive_normal_spec in Hs as (ms & es & -> & Hds & Hes).
  rewrite (s_unfold _ _ _ Ec). apply int_of_fmul_returns; [done | done | lia].
Qed.

Lemma sw_returns (scale : Py.float) (val : Z) :
  positive_normal (-60) (-50) scale = true → width_ok val = true →
  returns (sw scale val) (fun z => 0 <= z < 2 ^ 53).
Proof.
  intros Hs Hc. unfold width_ok in Hc. unfold sw.
  destruct (Py.int_mul_float val f0_75) as [a |] eqn:Ea; [| discriminate].
  apply positive_normal_spec in Hc as (ma & ea & -> & Hda & Hea).
  apply positive_normal_spec in Hs as (ms & es & -> & Hds & Hes).
  cbn [res_bind]. eapply returns_bind.
  - apply int_of_fmul_returns; [done | done | lia].
  - intros n Hn. apply returns_ret. cbv beta in Hn. lia.
Qed.

Lemma scale_ok_all (size_ : Z) : 16 <= size_ <= 1024 → scale_ok size_ = true.
Proof.
  intros Hsize.
  assert (Hall : forallb scale_ok (seqZ 16 1009) = true) by (vm_compute; reflexivity).
  rewrite forallb_forall in Hall. apply Hall.
  apply list_elem_of_In, elem_of_seqZ. lia.
Qed.

(** At every supported size the crown's box is ordered: checked size by
    size. *)
Lemma crown_ok_all (size_ : Z) : 16 <= size_ <= 1024 → crown_ok size_ = true.
Proof.
  intros Hsize.
  assert (Hall : forallb crown_ok (seqZ 16 1009) = true) by (vm_compute; reflexivity).
  rewrite forallb_forall in Hall. apply Hall.
  apply list_elem_of_In, elem_of_seqZ. lia.
Qed.

Lemma truediv_returns (size_ : Z) :
  16 <= size_ <= 1024 →
  returns (Py.int_truediv size_ 512)
    (fun scale => positive_normal (-60) (-50) scale = true
                  ∧ returns (crown_box scale)
                            (fun xy => ImageDraw.ordered_box xy = true)).
Proof.
  intros Hsize. pose proof (scale_ok_all size_ Hsize) as Hok. unfold scale_ok in Hok.
  pose proof (crown_ok_all size_ Hsize) as Hcrown. unfold crown_ok in Hcrown.
  destruct (Py.int_truediv size_ 512) as [scale |]; [| discriminate].
  cbn [res_bind] in Hcrown. apply returns_ret. split; [exact Hok |].
  destruct (crown_box scale) as [xy |]; [| discriminate]. by apply returns_ret.
Qed.

Lemma rounded_rectangle_square (n : Z) (mask : raster Z) (xy : (Z * Z) * (Z * Z))
    (radius fill : Z) :
  ImageDraw.ordered_box xy = true → square n mask →
  returns (ImageDraw.rounded_rectangle mask xy radius fill) (square n).
Proof.
  intros Hbox Hmask. unfold ImageDraw.rounded_rectangle. rewrite Hbox.
  by apply returns_ret.
Qed.

Lemma ellipse_square (n : Z) (img : image) (xy : (Z * Z) * (Z * Z)) (fill : pixel) :
  ImageDraw.ordered_box xy = true → square n img →
  returns (ImageDraw.ellipse img xy fill) (square n).
Proof.
  intros Hbox Himg. unfold ImageDraw.ellipse. destruct xy as [[x0 y0] [x1 y1]].
  rewrite Hbox. by apply returns_ret.
Qed.

Lemma corner_radius_returns (size_ : Z) :
  16 <= size_ <= 1024 →
  returns (let? x := Py.int_mul_float size_ f0_22 in Py.int_of_float x) (fun _ => True).
Proof.
  intros Hsize. unfold Py.int_mul_float.
  destruct (float_of_int_exact size_) as (m & e & -> & Hd & He & _).
  { split; [lia |]. eapply Z.le_lt_trans; [apply Hsize | done]. }
  cbn [res_bind]. unfold f0_22.
  eapply returns_weaken; [apply int_of_fmul_returns; [done | done | lia] | done].
Qed.

Lemma new_square {P} (n : Z) (color : P) :
  0 <= n <= PIL.INT_MAX → returns (PIL.new n n color) (square n).
Proof. intros Hn. rewrite new_returns by done. by apply returns_ret. Qed.

Lemma points_returns (scale : Py.float) (xy : list (Z * Z)) :
  positive_normal (-60) (-50) scale = true →
  Forall (fun p => centered_ok p.1 = true ∧ centered_ok p.2 = true) xy →
  returns (points scale xy) (fun _ => True).
Proof.
  intros Hs Hxy. unfold points. apply returns_map_res.
  eapply Forall_impl; [exact Hxy |]. intros [x y] [Hx Hy]. cbn [fst snd] in *.
  eapply returns_bind; [by apply s_returns | intros a _].
  eapply returns_bind; [by apply s_returns | intros b _].
  by apply returns_ret.
Qed.

Lemma int_mul_float_returns (n : Z) (x : Py.float) :
  - 2 ^ 53 < n < 2 ^ 53 → returns (Py.int_mul_float n x) (fun _ => True).
Proof.
  intros Hn. unfold Py.int_mul_float.
  eapply returns_bind; [by apply float_of_int_returns | intros fn _].
  by apply returns_ret.
Qed.

Lemma ellipse_point_returns (cx cy rx ry angle i : Z) :
  - 2 ^ 53 < cx < 2 ^ 53 → - 2 ^ 53 < cy < 2 ^ 53 →
  - 2 ^ 53 < rx < 2 ^ 53 → - 2 ^ 53 < ry < 2 ^ 53 →
  - 2 ^ 53 < angle < 2 ^ 53 → - 2 ^ 53 < i < 2 ^ 53 →
  returns (ellipse_point cx cy rx ry angle i) (fun _ => True).
Proof.
  intros Hcx Hcy Hrx Hry Ha Hi. unfold ellipse_point, math_radians.
  eapply returns_bind; [by apply int_mul_float_returns | intros two_pi _].
  eapply returns_bind; [by apply float_of_int_returns | intros fi _].
  eapply returns_bind; [by apply float_of_int_returns | intros f36 _].
  cbv zeta.
  eapply returns_bind; [by apply int_mul_float_returns | intros x _].
  eapply returns_bind; [by apply int_mul_float_returns | intros y _].
  eapply returns_bind.
  { eapply returns_bind; [by apply float_of_int_returns | intros fa _].
    eapply returns_bind; [by apply float_of_int_returns | intros d180 _].
    by apply (returns_ret _ (fun _ => True)). }
  intros rad _.
  eapply returns_bind; [by apply float_of_int_returns | intros fcx _].
  eapply returns_bind; [by apply float_of_int_returns | intros fcy _].
  by apply returns_ret.
Qed.

Lemma draw_ellipse_rotated_returns (n : Z) (draw : image) (x y a b angle : Z)
    (fill : pixel) :
  0 <= x < 2 ^ 53 → 0 <= y < 2 ^ 53 → 0 <= a < 2 ^ 53 → 0 <= b < 2 ^ 53 →
  -360 <= angle <= 360 →
  square n draw →
  returns (draw_ellipse_rotated draw (x, y) a b angle fill) (square n).
Proof.
  intros Hx Hy Ha Hb Hang Hdraw. unfold draw_ellipse_rotated.
  eapply returns_bind.
  - apply returns_map_res. apply Forall_forall. intros i Hi.
    apply elem_of_seqZ in Hi. apply ellipse_point_returns; lia.
  - intros pts _. by apply returns_ret.
Qed.

Lemma composite_square (n : Z) (im1 im2 : image) (mask : raster Z) :
  0 <= n → square n im1 → square n im2 → square n mask →
  returns (PIL.composite im1 im2 mask) (fun final => size final = (n, n)).
Proof.
  intros Hn [W1 H1] [W2 H2] [Wm Hm]. unfold PIL.composite.
  rewrite decide_True.
  - apply returns_ret. unfold size. cbn [width height]. rewrite W2, H2. f_equal; lia.
  - unfold size. by rewrite W1, H1, W2, H2, Wm, Hm.
Qed.

(** Steps through a drawing computation, one call at a time. *)
Ltac coords_ok :=
  repeat (apply Forall_cons; split; [split; vm_compute; reflexivity |]);
  by apply Forall_nil.

Ltac draw_step Hscale :=
  cbv beta iota zeta in *;
  lazymatch goal with
  | |- returns (res_bind (points _ _) _) _ =>
      eapply returns_bind;
      [apply points_returns; [exact Hscale | coords_ok] | intros ? _]
  | |- returns (res_bind (s _ _) _) _ =>
      eapply returns_bind;
      [apply s_returns; [exact Hscale | vm_compute; reflexivity] | intros ? ?]
  | |- returns (res_bind (sw _ _) _) _ =>
      eapply returns_bind;
      [apply sw_returns; [exact Hscale | vm_compute; reflexivity] | intros ? ?]
  | |- returns (res_bind (draw_ellipse_rotated _ _ _ _ _ _) _) _ =>
      eapply returns_bind;
      [eapply draw_ellipse_rotated_returns; [lia | lia | lia | lia | lia | eassumption]
      | intros ? ?]
  | |- returns (draw_ellipse_rotated _ _ _ _ _ _) _ =>
      eapply draw_ellipse_rotated_returns; [lia | lia | lia | lia | lia | eassumption]
  | |- returns (Ret _) _ => apply returns_ret; assumption
  end.

(** For every supported size the drawing returns a square image of that
    size. *)
Lemma icon_image_returns (size_ : Z) :
  16 <= size_ <= 1024 →
  returns (icon_image size_) (fun final => size final = (size_, size_)).
Proof.
  intros Hsize.
  assert (Hmax : 0 <= size_ <= PIL.INT_MAX) by (rewrite INT_MAX_eq; lia).
  unfold icon_image, THEME_COLOR. cbv beta iota zeta.
  eapply returns_bind; [by apply new_square | intros img Himg].
  eapply returns_bind; [by apply corner_radius_returns | intros corner_radius _].
  eapply returns_bind; [by apply new_square | intros mask0 Hmask0].
  eapply returns_bind.
  { apply (rounded_rectangle_square size_); [| exact Hmask0].
    unfold ImageDraw.ordered_box. apply andb_true_intro. split; apply Z.leb_le; lia. }
  intros mask Hmask.
  eapply returns_bind; [by apply new_square | intros bg _].
  eapply returns_bind; [by apply truediv_returns | intros scale [Hscale Hcrown]].
  do 4 draw_step Hscale.
  (* branches *)
  eapply returns_bind.
  { apply (returns_fold_res _ _ (square size_)); [| exact Himg].
    unfold branch_levels.
    repeat (apply Forall_cons; split;
            [intros st Hst; do 4 draw_step Hscale; apply returns_ret; exact Hst |]).
    by apply Forall_nil. }
  intros img1 Himg1.
  (* crown *)
  destruct Hcrown as (box & Hbox & Hordered). unfold crown_box in Hbox.
  destruct (s scale 246) as [x0 |]; [| discriminate]. cbn [res_bind] in Hbox |- *.
  destruct (s scale 55) as [y0 |]; [| discriminate]. cbn [res_bind] in Hbox |- *.
  destruct (s scale 266) as [x1 |]; [| discriminate]. cbn [res_bind] in Hbox |- *.
  destruct (s scale 105) as [y1 |]; [| discriminate]. cbn [res_bind] in Hbox |- *.
  injection Hbox as <-.
  eapply returns_bind; [by apply (ellipse_square size_) | intros img_crown Hcrown].
  (* leaves *)
  eapply returns_bind.
  { apply (returns_fold_res _ _ (square size_)); [| exact Hcrown].
    unfold leaf_data.
    repeat (apply Forall_cons; split;
            [intros st Hst; do 5 draw_step Hscale |]).
    by apply Forall_nil. }
  intros img2 Himg2.
  eapply returns_bind; [by apply new_square | intros blank Hblank].
  apply composite_square; [lia | done | done | exact Hmask].
Qed.

Lemma create_arbor_icon_run (size_ : Z) (output_path : string) (w : world) :
  16 <= size_ <= 1024 →
  ∃ final, icon_image size_ = Ret final ∧ size final = (size_, size_)
    ∧ create_arbor_icon size_ output_path w
      = (Ret final,
         World (<[output_path := PNG final]> (fs w))
               (stdout w ++ [CreatedPath output_path])).
Proof.
  intros Hsize. destruct (icon_image_returns size_ Hsize) as (final & Hfinal & Hsz).
  exists final. split; [done |]. split; [done |].
  unfold create_arbor_icon, bind, lift, Image_save, print, ret. by rewrite Hfinal.
Qed.

End synthesizer.

(** ** Claims about the icon synthesizer *)

Section synthesizer_claims.
Context `{Imaging}.
Import generate_icon.

(** C7. For every target size from 16 to 1024 pixels, [create_arbor_icon]
    returns normally; the RGBA image it returns, which is also the image
    it saves at the output path, is exactly [size × size]. *)
Theorem synthesized_icon_size (size_ : Z) (output_path : string) (w : world) :
  16 <= size_ <= 1024 →
  ∃ final w',
    create_arbor_icon size_ output_path w = (Ret final, w')
    ∧ size final = (size_, size_)
    ∧ Z.of_N (width final) = size_ ∧ Z.of_N (height final) = size_
    ∧ fs w' !! output_path = Some (PNG final).
Proof.
  intros Hsize.
  destruct (create_arbor_icon_run size_ output_path w Hsize)
    as (final & _ & Hsz & Hrun).
  exists final. eexists. split; [exact Hrun |]. split; [done |].
  unfold size in Hsz. injection Hsz as Hw Hh.
  split; [done |]. split; [done |]. cbn [fs]. apply lookup_insert_eq.
Qed.

(** C8. The glyph generation is deterministic: what [create_arbor_icon]
    returns for a size is the value of [icon_image] at that size, whatever
    the output path and whatever the state of the world, so two
    invocations with one size return the same image (or raise the same
    exception), and they save the same image. *)
Theorem synthesizer_deterministic (size_ : Z) (path1 path2 : string) (w1 w2 : world) :
  (create_arbor_icon size_ path1 w1).1 = icon_image size_
  ∧ (create_arbor_icon size_ path1 w1).1 = (create_arbor_icon size_ path2 w2).1
  ∧ (∀ final, (create_arbor_icon size_ path1 w1).1 = Ret final →
       fs (create_arbor_icon size_ path1 w1).2 !! path1 = Some (PNG final)
       ∧ fs (create_arbor_icon size_ path2 w2).2 !! path2 = Some (PNG final)).
Proof.
  unfold create_arbor_icon, bind, lift, Image_save, print, ret.
  destruct (icon_image size_) as [final | e]; cbn [fst snd fs].
  - split; [done |]. split; [done |]. intros final' [= <-].
    split; apply lookup_insert_eq.
  - split; [done |]. split; [done |]. discriminate.
Qed.

End synthesizer_claims.

Lemma synthesized_icon_size_witness :
  ∃ final, (generate_icon.create_arbor_icon (H := sample_imaging) 48 "icon.png"
              empty_world).1 = Ret final
           ∧ size final = (48, 48).
Proof.
  destruct (@synthesized_icon_size sample_imaging 48 "icon.png" empty_world)
    as (final & w' & Hrun & Hsz & _).
  - lia.
  - exists final. split; [rewrite Hrun; reflexivity | exact Hsz].
Defined.

Lemma synthesizer_deterministic_witness :
  ∃ final,
    (generate_icon.create_arbor_icon (H := sample_imaging) 64 "a.png" empty_world).1
    = Ret final
    ∧ fs (generate_icon.create_arbor_icon (H := sample_imaging) 64 "b.png"
            (sample_world "a.png" final)).2 !! "b.png" = Some (PNG final).
Proof.
  destruct (@create_arbor_icon_run sample_imaging 64 "a.png" empty_world)
    as (final & _ & _ & Hrun); [lia |].
  exists final. split; [rewrite Hrun; reflexivity |].
  destruct (@synthesizer_deterministic sample_imaging 64 "a.png" "b.png"
              empty_world (sample_world "a.png" final)) as (_ & _ & Hsame).
  destruct (Hsame final) as [_ Hsaved]; [rewrite Hrun; reflexivity | exact Hsaved].
Defined.

(** ** A failing packaging tool *)

Lemma bind_run {A B} (m : M A) (k : A → M B) (w w1 : world) (a : A) :
  m w = (Ret a, w1) → bind m k w = k a w1.
Proof. intros Hm. unfold bind. by rewrite Hm. Qed.

Lemma print_run (l : line) (w : world) :
  print l w = (Ret tt, World (fs w) (stdout w ++ [l])).
Proof. reflexivity. Qed.

Lemma try_except_run {A} (body : M A) (handled : exn → bool) (handler : exn → M A)
    (w w1 : world) (a : A) :
  body w = (Ret a, w1) → try_except body handled handler w = (Ret a, w1).
Proof. intros Hbody. unfold try_except. by rewrite Hbody. Qed.

Lemma join_inj (dir a b : string) : os_path.join dir a = os_path.join dir b → a = b.
Proof.
  unfold os_path.join. intros Heq. apply append_inj_r in Heq. by apply append_inj_r in Heq.
Qed.

Section theme_tool.
Context `{Platform}.
Import generate_themed_icons.

(** A non-zero exit status of the tool is caught where it is raised. *)
Lemma convert_iconset_to_icns_failure (iconset_path : string) (w : world)
    (rc : Z) (out err : string) (files' : gmap string file) :
  spawn (iconutil_args iconset_path) (fs w) = Exited rc out err files' →
  rc ≠ 0 →
  convert_iconset_to_icns iconset_path w
  = (Ret None, World files' (stdout w ++ [ErrorIcns (CalledProcessError rc)])).
Proof.
  intros Hspawn Hrc.
  unfold convert_iconset_to_icns, try_except, bind, subprocess_run.
  fold (iconutil_args iconset_path). rewrite Hspawn.
  destruct (Z.eqb_spec rc 0); [done |]. reflexivity.
Qed.

Lemma theme_iteration_unfold (theme_name theme_color : string) (w : world) :
  theme_iteration (theme_name, theme_color) w
  = bind (theme_prefix theme_name theme_color)
         (fun iconset_path => convert_iconset_to_icns iconset_path ;; ret tt) w.
Proof.
  unfold theme_iteration, theme_prefix, bind, print.
  by destruct (create_themed_iconset _ _ _ _ _) as [[] ?].
Qed.

(** With no base icon at all, an iteration only prints its header and one
    warning per required file. *)
Lemma warn_all_missing (base_iconset_path iconset_path theme_color : string)
    (entries : list (string * Z)) :
  ∀ w, (∀ e, e ∈ entries → fs w !! os_path.join base_iconset_path e.1 = None) →
  for_each entries (fun '(filename, expected_size) =>
    let source_path := os_path.join base_iconset_path filename in
    let target_path := os_path.join iconset_path filename in
    do found <- os_path.exists_ source_path;
    if found then
      (recolor_icon source_path target_path theme_color ;;
       print (Created filename))
    else print (WarnNotFound filename)) w
  = (Ret tt, World (fs w) (stdout w ++ map (fun e => WarnNotFound e.1) entries)).
Proof.
  induction entries as [| [f n] entries IH]; intros w Hnone.
  - cbn. rewrite app_nil_r. by destruct w.
  - cbn [for_each map fst]. unfold bind at 1 2, os_path.exists_ at 1.
    assert (Hf : fs w !! os_path.join base_iconset_path f = None)
      by (apply (Hnone (f, n)), elem_of_cons; by left).
    cbv zeta. rewrite Hf, bool_decide_eq_false_2 by (by intros [? ?]).
    rewrite print_run, IH.
    + cbn [fs stdout]. by rewrite <- app_assoc.
    + intros e He. cbn [fs]. apply Hnone, elem_of_cons. by right.
Qed.

Lemma theme_prefix_missing (theme_name theme_color : string) (w : world) :
  (∀ e, e ∈ ICON_SIZES → fs w !! os_path.join base_iconset e.1 = None) →
  ∃ w1, theme_prefix theme_name theme_color w
        = (Ret (os_path.join output_dir ("icon-" +:+ theme_name +:+ ".iconset")), w1).
Proof.
  intros Hnone. unfold theme_prefix, create_themed_iconset.
  rewrite (bind_run _ _ _ _ _ (print_run _ _)).
  rewrite (bind_run _ _ _ _ _ (print_run _ _)).
  unfold makedirs. unfold bind at 1, ret at 1.
  unfold bind at 1. rewrite warn_all_missing by done. by eexists.
Qed.

End theme_tool.

Section synthesizer_tool.
Context `{Imaging}.
Import generate_icon.

(** From here on the drawing is used through [icon_image_returns] only. *)
#[local] Opaque icon_image.

Lemma temp_path_ne (build_dir : string) (n : Z) (name : string) :
  (∀ rest, name ≠ String "t" rest) →
  os_path.join build_dir name ≠ temp_path build_dir n.
Proof.
  intros Hname Heq. unfold temp_path in Heq. apply join_inj in Heq.
  by apply (Hname _ Heq).
Qed.

Lemma write_specs_run (iconset_dir : string) (specs : list (Z * string)) :
  Forall (fun spec => 16 <= spec.1 <= 1024) specs →
  ∀ w, ∃ w1,
    for_each specs (fun '(size_, filename) =>
      create_arbor_icon size_ (os_path.join iconset_dir filename) ;; ret tt) w
    = (Ret tt, w1).
Proof.
  induction 1 as [| [n f] specs Hn _ IH]; intros w.
  - by eexists.
  - cbn [for_each]. cbn [fst] in Hn.
    destruct (create_arbor_icon_run n (os_path.join iconset_dir f) w Hn)
      as (final & _ & _ & Hrun).
    unfold bind at 1 2. rewrite Hrun. unfold ret at 1. apply IH.
Qed.

Lemma write_iconset_run (iconset_dir : string) (w : world) :
  write_iconset iconset_dir w = (Ret tt, (write_iconset iconset_dir w).2).
Proof.
  unfold write_iconset.
  destruct (write_specs_run iconset_dir icon_specs) with (w := w) as [w1 Hrun].
  - unfold icon_specs. repeat (apply Forall_cons; split; [cbn; lia |]).
    by apply Forall_nil.
  - rewrite Hrun. reflexivity.
Qed.

(** The loop that draws, saves and reopens the frames of the Windows
    icon touches the temporary files only. *)
Lemma ico_frames_run (build_dir : string) (sizes : list Z) :
  Forall (fun n => 16 <= n <= 1024) sizes →
  ∀ w, ∃ frames w1 printed,
    ico_frames build_dir sizes w = (Ret frames, w1)
    ∧ Forall2 (fun n im => icon_image n = Ret im ∧ size im = (n, n)) sizes frames
    ∧ stdout w1 = stdout w ++ printed
    ∧ (∀ path, (∀ n, n ∈ sizes → path ≠ temp_path build_dir n) →
               fs w1 !! path = fs w !! path).
Proof.
  induction 1 as [| n sizes Hn _ IH]; intros w.
  - exists [], w, []. split; [done |]. split; [constructor |].
    split; [by rewrite app_nil_r | done].
  - cbn [ico_frames].
    destruct (create_arbor_icon_run n (temp_path build_dir n) w Hn)
      as (final & Hfinal & Hsz & Hrun).
    set (wa := World (<[temp_path build_dir n := PNG final]> (fs w))
                     (stdout w ++ [CreatedPath (temp_path build_dir n)])) in *.
    assert (Hopen : Image_open (temp_path build_dir n) wa = (Ret final, wa)).
    { unfold Image_open. subst wa. cbn [fs]. by rewrite lookup_insert_eq. }
    destruct (IH wa) as (frames & w1 & printed & Hrest & Hframes & Hout & Hfs).
    exists (final :: frames), w1, (CreatedPath (temp_path build_dir n) :: printed).
    split; [| split; [| split]].
    + rewrite (bind_run _ _ _ _ _ Hrun), (bind_run _ _ _ _ _ Hopen).
      by rewrite (bind_run _ _ _ _ _ Hrest).
    + by constructor.
    + rewrite Hout. subst wa. cbn [stdout]. by rewrite <- app_assoc.
    + intros path Hpath. rewrite Hfs.
      * subst wa. cbn [fs]. apply lookup_insert_ne. intros Heq.
        apply (Hpath n); [apply elem_of_cons; by left | done].
      * intros m Hm. apply Hpath. apply elem_of_cons. by right.
Qed.

Lemma unlink_all_run (build_dir : string) (sizes : list Z) (w : world) :
  ∃ w1, for_each sizes (fun size_ => unlink (temp_path build_dir size_)) w = (Ret tt, w1)
    ∧ stdout w1 = stdout w
    ∧ (∀ path, (∀ n, n ∈ sizes → path ≠ temp_path build_dir n) →
               fs w1 !! path = fs w !! path).
Proof.
  revert w. induction sizes as [| n sizes IH]; intros w.
  - by exists w.
  - cbn [for_each]. unfold bind at 1, unlink at 1.
    destruct (IH (World (delete (temp_path build_dir n) (fs w)) (stdout w)))
      as (w1 & Hrun & Hout & Hfs).
    exists w1. split; [done |]. split; [done |].
    intros path Hpath. rewrite Hfs.
    + cbn [fs]. apply lookup_delete_ne. intros Heq.
      apply (Hpath n); [apply elem_of_cons; by left | done].
    + intros m Hm. apply Hpath. apply elem_of_cons. by right.
Qed.

(** Assembling the Windows icon succeeds on its own: it needs no file
    and no tool. *)
Lemma assemble_ico_run (build_dir : string) (w : world) :
  ∃ first w1 printed,
    assemble_ico build_dir w = (Ret tt, w1)
    ∧ icon_image 16 = Ret first ∧ size first = (16, 16)
    ∧ stdout w1 = stdout w ++ printed
    ∧ IcoCreated (os_path.join build_dir "icon.ico") ∈ printed
    ∧ fs w1 !! os_path.join build_dir "icon.ico"
      = Some (ICO first (map (fun n => (n, n)) ico_sizes))
    ∧ (∀ name, (∀ rest, name ≠ String "t" rest) → name ≠ "icon.ico" →
         fs w1 !! os_path.join build_dir name = fs w !! os_path.join build_dir name).
Proof.
  destruct (ico_frames_run build_dir ico_sizes) with (w := w)
    as (frames & wa & printed & Hframes & Hall & Hout & Hfs).
  { unfold ico_sizes. repeat (apply Forall_cons; split; [lia |]). by apply Forall_nil. }
  unfold ico_sizes in Hall at 1.
  destruct frames as [| first frames];
    [exfalso; exact (Forall2_cons_nil_inv _ _ _ Hall) |].
  apply Forall2_cons_1 in Hall as [[Hfirst Hsz] _].
  set (ico_path := os_path.join build_dir "icon.ico").
  set (wb := World (<[ico_path := ICO first (map (fun n => (n, n)) ico_sizes)]> (fs wa))
                   (stdout wa ++ [IcoCreated ico_path])).
  destruct (unlink_all_run build_dir ico_sizes wb) as (w1 & Hunlink & Hout1 & Hfs1).
  exists first, w1, (printed ++ [IcoCreated ico_path]).
  split; [| split; [done | split; [done | split; [| split; [| split]]]]].
  - unfold assemble_ico. rewrite (bind_run _ _ _ _ _ Hframes).
    fold ico_path. unfold bind, Image_save_ico, print. exact Hunlink.
  - rewrite Hout1. subst wb. cbn [stdout]. by rewrite Hout, <- app_assoc.
  - apply elem_of_app. right. apply elem_of_cons. by left.
  - rewrite Hfs1.
    + subst wb. cbn [fs]. apply lookup_insert_eq.
    + intros n _. subst ico_path. apply temp_path_ne. intros rest. discriminate.
  - intros name Ht Hico. rewrite Hfs1 by (intros n _; by apply temp_path_ne).
    subst wb. cbn [fs]. rewrite lookup_insert_ne.
    + apply Hfs. intros n _. by apply temp_path_ne.
    + subst ico_path. intros Heq. apply join_inj in Heq. congruence.
Qed.

End synthesizer_tool.

(** [main] written out, as a function of the world. *)
Lemma main_unfold `{Imaging} `{Platform} (project_root : string) :
  generate_icon.main project_root
  = (generate_icon.write_iconset
       (os_path.join (os_path.join project_root "build") "icon.iconset") ;;
     do result <- subprocess_run
                    ["iconutil"; "-c"; "icns";
                     os_path.join (os_path.join project_root "build") "icon.iconset";
                     "-o";
                     os_path.join (os_path.join project_root "build") "icon.icns"] false;
     (if returncode result =? 0
      then print (IcnsSuccess (os_path.join (os_path.join project_root "build") "icon.icns"))
      else print (IconutilError (cp_stderr result))) ;;
     generate_icon.create_arbor_icon 512
       (os_path.join (os_path.join project_root "build") "icon.png") ;;
     try_except (generate_icon.assemble_ico (os_path.join project_root "build"))
                (fun _ => true) (fun e => print (IcoFailed e)) ;;
     print Complete).
Proof. reflexivity. Qed.

(** What [main] does once the iconset is written and the packaging tool
    has run and exited with a non-zero status. *)
Section synthesizer_main.
Context `{Imaging} `{Platform}.

#[local] Opaque generate_icon.icon_image.

Lemma main_after_failure (project_root : string) (w w1 : world)
    (rc : Z) (out err : string) (files' : gmap string file) :
  let build_dir := os_path.join project_root "build" in
  let iconset_dir := os_path.join build_dir "icon.iconset" in
  generate_icon.write_iconset iconset_dir w = (Ret tt, w1) →
  spawn ["iconutil"; "-c"; "icns"; iconset_dir; "-o";
         os_path.join build_dir "icon.icns"] (fs w1)
  = Exited rc out err files' →
  rc ≠ 0 →
  ∃ (w' : world) (icon512 icon16 : image) (printed : list line),
    generate_icon.main project_root w = (Ret tt, w')
    ∧ stdout w'
      = stdout w1 ++ [IconutilError err]
        ++ [CreatedPath (os_path.join build_dir "icon.png")]
        ++ printed ++ [Complete]
    ∧ IcoCreated (os_path.join build_dir "icon.ico") ∈ printed
    ∧ fs w' !! os_path.join build_dir "icon.png" = Some (PNG icon512)
    ∧ size icon512 = (512, 512)
    ∧ fs w' !! os_path.join build_dir "icon.ico"
      = Some (ICO icon16 (map (fun n => (n, n)) generate_icon.ico_sizes))
    ∧ size icon16 = (16, 16).
Proof.
  intros build_dir iconset_dir Hwrite Hspawn Hrc.
  rewrite main_unfold. fold build_dir. fold iconset_dir.
  rewrite (bind_run _ _ _ _ _ Hwrite).
  assert (Hsub : subprocess_run
                   ["iconutil"; "-c"; "icns"; iconset_dir; "-o";
                    os_path.join build_dir "icon.icns"] false w1
                 = (Ret (Completed rc out err), World files' (stdout w1))).
  { unfold subprocess_run. rewrite Hspawn. reflexivity. }
  rewrite (bind_run _ _ _ _ _ Hsub). cbn [returncode cp_stderr].
  destruct (Z.eqb_spec rc 0) as [Hz | _]; [contradiction |].
  rewrite (bind_run _ _ _ _ _ (print_run _ _)). cbn [fs stdout].
  set (wa := World files' (stdout w1 ++ [IconutilError err])).
  destruct (create_arbor_icon_run 512 (os_path.join build_dir "icon.png") wa)
    as (icon512 & _ & Hsz512 & Hpng); [lia |].
  rewrite (bind_run _ _ _ _ _ Hpng). clear Hpng.
  set (wb := World (<[os_path.join build_dir "icon.png" := PNG icon512]> (fs wa))
                   (stdout wa ++ [CreatedPath (os_path.join build_dir "icon.png")])).
  destruct (assemble_ico_run build_dir wb)
    as (icon16 & wc & printed & Hasm & _ & Hsz16 & Hout & Hin & Hico & Hkeep).
  rewrite (bind_run _ _ _ _ _ (try_except_run _ _ _ _ _ _ Hasm)). clear Hasm.
  exists (World (fs wc) (stdout wc ++ [Complete])), icon512, icon16, printed.
  split; [reflexivity |]. cbn [fs stdout].
  split; [| split; [exact Hin | split; [| split; [exact Hsz512 | split;
    [exact Hico | exact Hsz16]]]]].
  - rewrite Hout. subst wb wa. cbn [stdout]. rewrite <- !app_assoc. reflexivity.
  - rewrite Hkeep; [subst wb; cbn [fs]; apply lookup_insert_eq | |];
      intros; discriminate.
Qed.

End synthesizer_main.

(** ** Claim about a failing packaging tool *)

Section tool_claims.
Context `{Imaging} `{Platform}.

#[local] Opaque generate_icon.icon_image.

(** C6, as amended. A packaging tool that is started and exits with a
    non-zero status stops nothing else. (A tool that cannot be started
    is another matter: the scripts handle the exit status only.)

    Theme recolorer: when the tool fails for a theme, the conversion call
    returns [None] having printed the error line, nothing is raised, and
    the loop over the themes goes on with the remaining themes from the
    world the failed call left.

    Icon synthesizer: when the tool fails after the iconset was written,
    [main] still returns normally, having printed the tool's error; it
    then writes the 512 × 512 [icon.png], assembles [icon.ico] from the
    16-pixel drawing and prints its closing line. *)
Theorem iconutil_failure_is_contained :
  (∀ (theme_name theme_color : string) (rest : list (string * string)) (w w1 : world)
     (iconset_path : string) (rc : Z) (out err : string) (files' : gmap string file),
     theme_prefix theme_name theme_color w = (Ret iconset_path, w1) →
     spawn (iconutil_args iconset_path) (fs w1) = Exited rc out err files' →
     rc ≠ 0 →
     let w2 := World files' (stdout w1 ++ [ErrorIcns (CalledProcessError rc)]) in
     generate_themed_icons.convert_iconset_to_icns iconset_path w1 = (Ret None, w2)
     ∧ generate_themed_icons.theme_iteration (theme_name, theme_color) w = (Ret tt, w2)
     ∧ for_each ((theme_name, theme_color) :: rest)
                generate_themed_icons.theme_iteration w
       = for_each rest generate_themed_icons.theme_iteration w2)
  ∧ (∀ (project_root : string) (w : world)
       (rc : Z) (out err : string) (files' : gmap string file),
       let build_dir := os_path.join project_root "build" in
       let iconset_dir := os_path.join build_dir "icon.iconset" in
       let w1 := (generate_icon.write_iconset iconset_dir w).2 in
       spawn ["iconutil"; "-c"; "icns"; iconset_dir; "-o";
              os_path.join build_dir "icon.icns"] (fs w1)
       = Exited rc out err files' →
       rc ≠ 0 →
       ∃ (w' : world) (icon512 icon16 : image) (printed : list line),
         generate_icon.main project_root w = (Ret tt, w')
         ∧ stdout w'
           = stdout w1 ++ [IconutilError err]
             ++ [CreatedPath (os_path.join build_dir "icon.png")]
             ++ printed ++ [Complete]
         ∧ IcoCreated (os_path.join build_dir "icon.ico") ∈ printed
         ∧ fs w' !! os_path.join build_dir "icon.png" = Some (PNG icon512)
         ∧ size icon512 = (512, 512)
         ∧ fs w' !! os_path.join build_dir "icon.ico"
           = Some (ICO icon16 (map (fun n => (n, n)) generate_icon.ico_sizes))
         ∧ size icon16 = (16, 16)).
Proof.
  split.
  - intros theme_name theme_color rest w w1 iconset_path rc out err files'
           Hprefix Hspawn Hrc w2.
    pose proof (convert_iconset_to_icns_failure iconset_path w1 rc out err files'
                  Hspawn Hrc) as Hconvert.
    fold w2 in Hconvert.
    assert (Hiter : generate_themed_icons.theme_iteration (theme_name, theme_color) w
                    = (Ret tt, w2)).
    { rewrite theme_iteration_unfold, (bind_run _ _ _ _ _ Hprefix).
      rewrite (bind_run _ _ _ _ _ Hconvert). reflexivity. }
    split; [exact Hconvert |]. split; [exact Hiter |].
    cbn [for_each]. rewrite (bind_run _ _ _ _ _ Hiter). reflexivity.
  - intros project_root w rc out err files' build_dir iconset_dir w1 Hspawn Hrc.
    exact (main_after_failure project_root w w1 rc out err files'
             (write_iconset_run iconset_dir w) Hspawn Hrc).
Qed.

End tool_claims.

(** The claim at a sample input: the tool always exits with status 1. *)
Lemma sample_theme_prefix :
  ∃ w1, theme_prefix "midnight" "#5865f2" empty_world
        = (Ret (os_path.join generate_themed_icons.output_dir "icon-midnight.iconset"), w1).
Proof. apply theme_prefix_missing. intros e _. apply lookup_empty. Qed.

Lemma iconutil_failure_is_contained_witness :
  (∃ w2, for_each [("midnight", "#5865f2"); ("ember", "#ff6b35")]
           (generate_themed_icons.theme_iteration (H := sample_platform)) empty_world
         = for_each [("ember", "#ff6b35")]
             (generate_themed_icons.theme_iteration (H := sample_platform)) w2)
  ∧ (∃ w' icon512,
       generate_icon.main (H := sample_imaging) (H0 := sample_platform) "/project"
         empty_world = (Ret tt, w')
       ∧ fs w' !! "/project/build/icon.png" = Some (PNG icon512)
       ∧ size icon512 = (512, 512)).
Proof.
  destruct (@iconutil_failure_is_contained sample_imaging sample_platform)
    as [Hthemes Hsynth].
  split.
  - destruct sample_theme_prefix as [w1 Hprefix].
    destruct (Hthemes "midnight" "#5865f2" [("ember", "#ff6b35")] empty_world w1 _
                1 "" "iconutil: failed" (fs w1) Hprefix)
      as (_ & _ & Hloop).
    + reflexivity.
    + lia.
    + eexists. exact Hloop.
  - destruct (Hsynth "/project" empty_world 1 "" "iconutil: failed"
                (fs (generate_icon.write_iconset (H := sample_imaging)
                       "/project/build/icon.iconset" empty_world).2))
      as (w' & icon512 & icon16 & printed & Hmain & _ & _ & Hpng & Hsz & _).
    + reflexivity.
    + lia.
    + exists w', icon512. split; [exact Hmain |]. split; [exact Hpng | exact Hsz].
Defined.


(** * The scripts beyond the claims *)

(** ** The padding normalizer: failures, alpha, and the loop of [main] *)

Section padding_more.
Context `{Imaging}.
Import add_icon_padding add_icon_padding_main.

Lemma exists_run (path : string) (w : world) :
  os_path.exists_ path w = (Ret (bool_decide (is_Some (fs w !! path))), w).
Proof. reflexivity. Qed.

Lemma bind_raise {A B} (m : M A) (k : A → M B) (w w1 : world) (e : exn) :
  m w = (Raise e, w1) → bind m k w = (Raise e, w1).
Proof. intros Hm. unfold bind. by rewrite Hm. Qed.

(** The rounded division by 255 is monotone and inverts the product
    with 255. *)
Lemma DIV255_le (t v : Z) : 0 <= t <= 255 * v → PIL.DIV255 t <= v.
Proof.
  intros Ht. unfold PIL.DIV255. cbv zeta. rewrite !Z.shiftr_div_pow2 by lia.
  change (2 ^ 8) with 256.
  assert (H1 : (t + 128) `div` 256 <= v)
    by (apply Z.lt_succ_r, Z.div_lt_upper_bound; lia).
  apply Z.lt_succ_r, Z.div_lt_upper_bound; lia.
Qed.

Lemma DIV255_nonneg (t : Z) : 0 <= t → 0 <= PIL.DIV255 t.
Proof.
  intros Ht. unfold PIL.DIV255. cbv zeta. rewrite !Z.shiftr_div_pow2 by lia.
  apply Z.div_pos; [| lia]. pose proof (Z.div_pos (t + 128) (2 ^ 8)). lia.
Qed.

Lemma DIV255_square_lt (a : Z) : 0 < a < 255 → PIL.DIV255 (a * a) < a.
Proof.
  intros Ha.
  assert (Hall : forallb (fun a => PIL.DIV255 (a * a) <? a) (seqZ 1 254) = true)
    by (vm_compute; reflexivity).
  rewrite forallb_forall in Hall. apply Z.ltb_lt. apply Hall.
  apply list_elem_of_In, elem_of_seqZ. lia.
Qed.

Lemma blend_over_transparent (a : Z) (p : pixel) :
  PIL.blend_pixel a transparent p
  = RGBA (PIL.DIV255 (red p * a)) (PIL.DIV255 (green p * a))
         (PIL.DIV255 (blue p * a)) (PIL.DIV255 (alpha p * a)).
Proof. reflexivity. Qed.

Lemma DIV255_full (v : Z) : 0 <= v <= 255 → PIL.DIV255 (v * 255) = v.
Proof.
  intros Hv.
  assert (Hall : forallb (fun v => PIL.DIV255 (v * 255) =? v) (seqZ 0 256) = true)
    by (vm_compute; reflexivity).
  rewrite forallb_forall in Hall. apply Z.eqb_eq. apply Hall.
  apply list_elem_of_In, elem_of_seqZ. lia.
Qed.

(** X1. How [add_padding_to_icon] fails, and what it never touches: a
    missing source raises [FileNotFoundError]; a canvas of zero or one
    pixel raises [ValueError], because the content size is then 0 and
    Pillow rejects an empty resize; a failed call leaves the world as it
    was; no call prints, and no call changes a file other than the
    target. *)
Theorem padding_failures_change_nothing
    (source_path target_path : string) (S : Z) (w : world) :
  (fs w !! source_path = None →
   add_padding_to_icon source_path target_path S w = (Raise FileNotFoundError, w))
  ∧ (∀ img, fs w !! source_path = Some (PNG img) → size img ≠ (0, 0) →
       0 <= S <= 1 →
       add_padding_to_icon source_path target_path S w = (Raise ValueError, w))
  ∧ (∀ r w', add_padding_to_icon source_path target_path S w = (r, w') →
       stdout w' = stdout w
       ∧ (∀ path, path ≠ target_path → fs w' !! path = fs w !! path)
       ∧ (∀ e, r = Raise e → w' = w)).
Proof.
  split; [| split].
  - intros Hsrc. unfold add_padding_to_icon, bind, Image_open. by rewrite Hsrc.
  - intros img Hsrc Hsz HS.
    unfold add_padding_to_icon, bind, Image_open, lift. rewrite Hsrc.
    assert (Hc : content_size S = Ret 0).
    { assert (S = 0 ∨ S = 1) as [-> | ->] by lia; vm_compute; reflexivity. }
    unfold padded. rewrite Hc. cbn [res_bind]. unfold PIL.resize.
    rewrite decide_False by done. reflexivity.
  - intros r w'. unfold add_padding_to_icon, bind, Image_open, lift, Image_save, ret.
    destruct (fs w !! source_path) as [[img | |] |];
      try (intros [= <- <-]; split; [done |]; split; [done |]; done).
    destruct (padded img S) as [canvas | e];
      intros [= <- <-]; cbn [fs stdout].
    + split; [done |]. split; [| discriminate].
      intros path Hne. by apply lookup_insert_ne.
    + split; [done |]. split; done.
Qed.

(** X2. Pasting the resized icon through its own alpha band onto the
    transparent canvas applies the alpha twice: inside the content square
    every band of the output is the band of the resized icon times its
    alpha, divided by 255 and rounded. An opaque pixel comes out as it
    is; a partly transparent one comes out strictly more transparent,
    and no band ever grows. *)
Theorem padding_applies_alpha_twice (img : image) (S c x y : Z) :
  2 <= S <= PIL.INT_MAX → content_size S = Ret c →
  let offset := (S - c) `div` 2 in
  offset <= x < offset + c → offset <= y < offset + c →
  let p := getpixel (resized_to img c c) (x - offset) (y - offset) in
  let p' := getpixel (padded_image img S c) x y in
  0 <= red p <= 255 → 0 <= green p <= 255 → 0 <= blue p <= 255 →
  0 <= alpha p <= 255 →
  padded img S = Ret (padded_image img S c)
  ∧ p' = RGBA (PIL.DIV255 (red p * alpha p)) (PIL.DIV255 (green p * alpha p))
              (PIL.DIV255 (blue p * alpha p)) (PIL.DIV255 (alpha p * alpha p))
  ∧ 0 <= red p' <= red p ∧ 0 <= green p' <= green p ∧ 0 <= blue p' <= blue p
  ∧ 0 <= alpha p' <= alpha p
  ∧ (0 < alpha p < 255 → alpha p' < alpha p)
  ∧ (alpha p = 255 → p' = p).
Proof.
  intros HS Hc offset Hx Hy p p' Hr Hg Hb Ha.
  destruct (padded_returns img S HS) as (c' & Hc' & Hrange & Hpad).
  rewrite Hc in Hc'. injection Hc' as <-.
  split; [exact Hpad |].
  assert (Hp' : p' = PIL.blend_pixel (alpha p) transparent p).
  { subst p' p. apply padded_image_inside; [lia | done | done]. }
  rewrite blend_over_transparent in Hp'.
  split; [exact Hp' |]. rewrite Hp'. cbn [red green blue alpha].
  repeat split; try (apply DIV255_nonneg; nia); try (apply DIV255_le; nia).
  - intros Hpartial. by apply DIV255_square_lt.
  - intros Hfull. rewrite Hfull. rewrite !DIV255_full by lia.
    destruct p as [r g b a]. cbn in *. by subst a.
Qed.

(** The loop over a list of entries with distinct names. *)
Lemma pad_entries_run (entries : list (string * Z)) :
  NoDup (entries.*1) →
  Forall (fun e => 2 <= e.2 <= PIL.INT_MAX) entries →
  ∀ w,
    (∀ e, e ∈ entries →
       fs w !! os_path.join ICONSET_DIR e.1 = None
       ∨ ∃ img, fs w !! os_path.join ICONSET_DIR e.1 = Some (PNG img)) →
    ∃ w', for_each entries pad_entry w = (Ret tt, w')
      ∧ length (stdout w') = (length (stdout w) + length entries)%nat
      ∧ (∀ path, (∀ e, e ∈ entries → path ≠ os_path.join ICONSET_DIR e.1) →
           fs w' !! path = fs w !! path)
      ∧ (∀ f n, (f, n) ∈ entries →
           match fs w !! os_path.join ICONSET_DIR f with
           | Some (PNG img) =>
               ∃ c, content_size n = Ret c
                 ∧ fs w' !! os_path.join ICONSET_DIR f
                   = Some (PNG (padded_image img n c))
           | _ => fs w' !! os_path.join ICONSET_DIR f = None
           end).
Proof.
  induction entries as [| [f n] rest IH]; intros Hnd Hrange w Hfiles.
  - exists w. split; [reflexivity |]. split; [cbn; lia |]. split; [done |].
    intros f n Hin. by apply elem_of_nil in Hin.
  - cbn [fmap list_fmap fst] in Hnd. apply NoDup_cons in Hnd as [Hf Hnd].
    apply Forall_cons in Hrange as [Hn Hrange]. cbn [snd] in Hn.
    assert (Hother : ∀ e, e ∈ rest →
              os_path.join ICONSET_DIR e.1 ≠ os_path.join ICONSET_DIR f).
    { intros e He Heq. apply join_inj in Heq. apply Hf.
      rewrite <- Heq. apply list_elem_of_fmap. by exists e. }
    cbn [for_each].
    destruct (Hfiles (f, n)) as [Hnone | [img Hsome]];
      [apply elem_of_cons; by left | |]; cbn [fst] in *.
    + set (w1 := World (fs w) (stdout w ++ [Text ("  ✗ " +:+ f +:+ " not found")])).
      assert (Hstep : pad_entry (f, n) w = (Ret tt, w1)).
      { unfold pad_entry. rewrite (bind_run _ _ _ _ _ (exists_run _ w)).
        rewrite Hnone. rewrite bool_decide_false by (by intros [? ?]).
        apply print_run. }
      rewrite (bind_run _ _ _ _ _ Hstep).
      destruct (IH Hnd Hrange w1) as (w' & Hrun & Hlen & Hframe & Hfiles').
      { intros e He. cbn [fs w1]. apply Hfiles. apply elem_of_cons. by right. }
      exists w'. split; [exact Hrun |].
      split; [rewrite Hlen; subst w1; cbn [stdout]; rewrite length_app; cbn; lia |].
      split.
      * intros path Hpath. rewrite Hframe; [done |].
        intros e He. apply Hpath. apply elem_of_cons. by right.
      * intros g m Hin. apply elem_of_cons in Hin as [[= -> ->] | Hin].
        -- rewrite Hnone. rewrite Hframe; [done |].
           intros e He Heq. by apply (Hother e He).
        -- by apply Hfiles'.
    + destruct (add_padding_to_icon_run img n _ (os_path.join ICONSET_DIR f) w Hn Hsome)
        as (c & Hc & _ & Hpad).
      set (w1 := World (<[os_path.join ICONSET_DIR f := PNG (padded_image img n c)]> (fs w))
                       (stdout w ++ [Text ("  ✓ " +:+ f +:+ " (" +:+ pretty n +:+ "x"
                                           +:+ pretty n +:+ ")")])).
      assert (Hstep : pad_entry (f, n) w = (Ret tt, w1)).
      { unfold pad_entry. rewrite (bind_run _ _ _ _ _ (exists_run _ w)).
        rewrite Hsome. rewrite bool_decide_true by (by eexists).
        rewrite (bind_run _ _ _ _ _ Hpad). apply print_run. }
      rewrite (bind_run _ _ _ _ _ Hstep).
      destruct (IH Hnd Hrange w1) as (w' & Hrun & Hlen & Hframe & Hfiles').
      { intros e He. subst w1. cbn [fs].
        rewrite lookup_insert_ne by (intros Heq; by apply (Hother e He)).
        apply Hfiles. apply elem_of_cons. by right. }
      exists w'. split; [exact Hrun |].
      split; [rewrite Hlen; subst w1; cbn [stdout]; rewrite length_app; cbn; lia |].
      split.
      * intros path Hpath. rewrite Hframe.
        -- subst w1. cbn [fs]. apply lookup_insert_ne. intros Heq.
           apply (Hpath (f, n)); [apply elem_of_cons; by left | done].
        -- intros e He. apply Hpath. apply elem_of_cons. by right.
      * intros g m Hin. apply elem_of_cons in Hin as [[= -> ->] | Hin].
        -- rewrite Hsome. exists c. split; [done |].
           rewrite Hframe; [subst w1; cbn [fs]; apply lookup_insert_eq |].
           intros e He Heq. by apply (Hother e He).
        -- specialize (Hfiles' g m Hin). subst w1. cbn [fs] in Hfiles'.
           rewrite lookup_insert_ne in Hfiles'; [done |].
           intros Heq. apply (Hother (g, m) Hin). done.
Qed.

(** X3. The loop of [main] over [ICON_SIZES], on an iconset whose
    required files are images or missing: it never raises; every icon
    that exists is replaced, in place, by its padded version, which has
    the size its entry names whatever size the file had; a missing icon
    stays missing; one line is printed per entry; no other file is
    touched. *)
Theorem pad_icons_covers_iconset (w : world) :
  (∀ f n, (f, n) ∈ ICON_SIZES →
     fs w !! os_path.join ICONSET_DIR f = None
     ∨ ∃ img, fs w !! os_path.join ICONSET_DIR f = Some (PNG img)) →
  ∃ w', pad_icons w = (Ret tt, w')
    ∧ length (stdout w') = (length (stdout w) + 10)%nat
    ∧ (∀ path, (∀ f n, (f, n) ∈ ICON_SIZES → path ≠ os_path.join ICONSET_DIR f) →
         fs w' !! path = fs w !! path)
    ∧ (∀ f n, (f, n) ∈ ICON_SIZES →
         match fs w !! os_path.join ICONSET_DIR f with
         | Some (PNG img) =>
             ∃ c out, content_size n = Ret c ∧ out = padded_image img n c
               ∧ fs w' !! os_path.join ICONSET_DIR f = Some (PNG out)
               ∧ size out = (n, n)
         | _ => fs w' !! os_path.join ICONSET_DIR f = None
         end).
Proof.
  intros Hfiles.
  assert (Hrange : Forall (fun e : string * Z => 2 <= e.2 <= PIL.INT_MAX) ICON_SIZES).
  { unfold ICON_SIZES. rewrite INT_MAX_eq.
    repeat (apply Forall_cons; split; [cbn; lia |]). by apply Forall_nil. }
  destruct (pad_entries_run ICON_SIZES required_names_NoDup Hrange w)
    as (w' & Hrun & Hlen & Hframe & Hout).
  { intros [f n] He. by apply (Hfiles f n). }
  exists w'. split; [exact Hrun |]. split; [exact Hlen |]. split.
  - intros path Hpath. apply Hframe. intros [f n] He. by apply (Hpath f n).
  - intros f n Hin. specialize (Hout f n Hin).
    destruct (fs w !! os_path.join ICONSET_DIR f) as [[img | |] |]; try done.
    destruct Hout as (c & Hc & Hfile). exists c, (padded_image img n c).
    split; [done |]. split; [done |]. split; [done |].
    apply padded_image_size.
    rewrite Forall_forall in Hrange. specialize (Hrange (f, n) Hin). cbn in Hrange. lia.
Qed.

End padding_more.

(** The three properties at sample inputs. *)
Lemma padding_failures_change_nothing_witness :
  add_icon_padding.add_padding_to_icon (H := sample_imaging) "gone.png" "out.png" 128
    empty_world = (Raise FileNotFoundError, empty_world)
  ∧ add_icon_padding.add_padding_to_icon (H := sample_imaging) "icon.png" "out.png" 1
      (sample_world "icon.png" (white_square 16))
    = (Raise ValueError, sample_world "icon.png" (white_square 16)).
Proof.
  split.
  - destruct (@padding_failures_change_nothing sample_imaging "gone.png" "out.png" 128
                empty_world) as (Hmissing & _).
    apply Hmissing. apply lookup_empty.
  - destruct (@padding_failures_change_nothing sample_imaging "icon.png" "out.png" 1
                (sample_world "icon.png" (white_square 16))) as (_ & Htiny & _).
    apply (Htiny (white_square 16)); [apply sample_world_lookup | discriminate | lia].
Defined.

Lemma padding_applies_alpha_twice_witness :
  getpixel (padded_image (H := sample_imaging) (white_square 128) 128 107) 64 64
  = RGBA 255 255 255 255.
Proof.
  destruct (@padding_applies_alpha_twice sample_imaging (white_square 128) 128 107 64 64)
    as (_ & _ & _ & _ & _ & _ & _ & Hopaque);
    [rewrite INT_MAX_eq; lia | vm_compute; reflexivity
    | vm_compute; split; [discriminate | reflexivity]
    | vm_compute; split; [discriminate | reflexivity]
    | vm_compute; split; discriminate | vm_compute; split; discriminate
    | vm_compute; split; discriminate | vm_compute; split; discriminate |].
  rewrite Hopaque; reflexivity.
Defined.

Lemma pad_icons_covers_iconset_witness :
  ∃ w' out,
    add_icon_padding_main.pad_icons (H := sample_imaging)
      (sample_world (os_path.join add_icon_padding.ICONSET_DIR "icon_16x16.png")
                    (white_square 64))
    = (Ret tt, w')
    ∧ fs w' !! os_path.join add_icon_padding.ICONSET_DIR "icon_16x16.png"
      = Some (PNG out)
    ∧ size out = (16, 16).
Proof.
  destruct (@pad_icons_covers_iconset sample_imaging
              (sample_world (os_path.join add_icon_padding.ICONSET_DIR "icon_16x16.png")
                            (white_square 64)))
    as (w' & Hrun & _ & _ & Hout).
  - intros f n _.
    destruct (decide (f = "icon_16x16.png")) as [-> | Hne].
    + right. eexists. apply sample_world_lookup.
    + left. apply sample_world_lookup_ne. intros Heq. by apply join_inj in Heq.
  - specialize (Hout "icon_16x16.png" 16).
    rewrite sample_world_lookup in Hout.
    destruct Hout as (c & out & _ & _ & Hfile & Hsz).
    { unfold add_icon_padding.ICON_SIZES. apply elem_of_cons. by left. }
    exists w', out. split; [exact Hrun | split; [exact Hfile | exact Hsz]].
Defined.


(** ** The theme recolorer: colours, iconsets and the whole run *)

Section colours.
Import generate_themed_icons.

Lemma hex_digit_range (a : ascii) (v : Z) : str.hex_digit a = Some v → 0 <= v <= 15.
Proof.
  unfold str.hex_digit. cbv zeta. set (n := Z.of_N (N_of_ascii a)).
  repeat case_match; intros [= <-]; lia.
Qed.

Lemma hex_digit_not_hash (a : ascii) (v : Z) : str.hex_digit a = Some v → a ≠ "#"%char.
Proof. intros Hd ->. discriminate. Qed.

Lemma lstrip_repeat (k : nat) (s : string) :
  str.lstrip "#" (str.repeat "#" k +:+ s) = str.lstrip "#" s.
Proof. induction k as [| k IH]; [reflexivity | exact IH]. Qed.

Lemma lstrip_digit (a : ascii) (v : Z) (s : string) :
  str.hex_digit a = Some v → str.lstrip "#" (String a s) = String a s.
Proof.
  intros Hd. cbn [str.lstrip].
  destruct (Ascii.eqb_spec a "#") as [-> | _]; [discriminate | reflexivity].
Qed.

Lemma int16_two (a b : ascii) (va vb : Z) :
  str.hex_digit a = Some va → str.hex_digit b = Some vb →
  str.int16 (String a (String b EmptyString)) = Ret (16 * va + vb).
Proof.
  intros Ha Hb. unfold str.int16. cbn [str.hex_value]. rewrite Ha. cbn.
  rewrite Hb. cbn. f_equal; lia.
Qed.

Lemma int16_raises (s : string) (e : exn) : str.int16 s = Raise e → e = ValueError.
Proof.
  unfold str.int16. destruct s; [by intros [= <-] |].
  destruct (str.hex_value 0 _); [discriminate | by intros [= <-]].
Qed.

(** X4. A colour written as any number of [#] followed by six
    hexadecimal digits, upper or lower case, parses to the three bytes the
    digit pairs denote; whatever follows the sixth digit is ignored. *)
Theorem hex_to_rgb_six_digits (k : nat) (d1 d2 d3 d4 d5 d6 : ascii) (rest : string)
    (v1 v2 v3 v4 v5 v6 : Z) :
  str.hex_digit d1 = Some v1 → str.hex_digit d2 = Some v2 →
  str.hex_digit d3 = Some v3 → str.hex_digit d4 = Some v4 →
  str.hex_digit d5 = Some v5 → str.hex_digit d6 = Some v6 →
  hex_to_rgb (str.repeat "#" k
              +:+ String d1 (String d2 (String d3 (String d4 (String d5 (String d6 rest))))))
  = Ret (16 * v1 + v2, 16 * v3 + v4, 16 * v5 + v6)
  ∧ 0 <= 16 * v1 + v2 <= 255 ∧ 0 <= 16 * v3 + v4 <= 255 ∧ 0 <= 16 * v5 + v6 <= 255.
Proof.
  intros H1 H2 H3 H4 H5 H6. split.
  - unfold hex_to_rgb. cbv zeta. rewrite lstrip_repeat, (lstrip_digit d1 v1) by done.
    unfold str.slice. cbn [String.substring].
    replace (String.substring 0 0 rest) with EmptyString by (by destruct rest).
    rewrite (int16_two d1 d2 v1 v2), (int16_two d3 d4 v3 v4), (int16_two d5 d6 v5 v6)
      by done.
    reflexivity.
  - apply hex_digit_range in H1, H2, H3, H4, H5, H6. lia.
Qed.

(** X5. Shorter colours. A colour with at most four characters after its
    leading [#], the CSS short form [#rgb] among them, raises
    [ValueError]. One with five hexadecimal digits is accepted: its last
    digit alone is read as the blue value. *)
Theorem hex_to_rgb_short_colours :
  (∀ hex_color : string,
     (String.length (str.lstrip "#" hex_color) <= 4)%nat →
     hex_to_rgb hex_color = Raise ValueError)
  ∧ (∀ (d1 d2 d3 d4 d5 : ascii) (v1 v2 v3 v4 v5 : Z),
       str.hex_digit d1 = Some v1 → str.hex_digit d2 = Some v2 →
       str.hex_digit d3 = Some v3 → str.hex_digit d4 = Some v4 →
       str.hex_digit d5 = Some v5 →
       hex_to_rgb (String "#" (String d1 (String d2 (String d3 (String d4
                     (String d5 EmptyString))))))
       = Ret (16 * v1 + v2, 16 * v3 + v4, v5)).
Proof.
  split.
  - intros hex_color Hlen. unfold hex_to_rgb. cbv zeta.
    set (t := str.lstrip "#" hex_color) in *.
    assert (Hb : str.slice 4 2 t = EmptyString).
    { destruct t as [| a1 [| a2 [| a3 [| a4 [| a5 t']]]]]; cbn in Hlen; try lia;
        reflexivity. }
    rewrite Hb.
    destruct (str.int16 (str.slice 0 2 t)) as [r | e] eqn:Er; cbn [res_bind].
    + destruct (str.int16 (str.slice 2 2 t)) as [g | e] eqn:Eg; cbn [res_bind].
      * reflexivity.
      * by rewrite (int16_raises _ _ Eg).
    + by rewrite (int16_raises _ _ Er).
  - intros d1 d2 d3 d4 d5 v1 v2 v3 v4 v5 H1 H2 H3 H4 H5.
    unfold hex_to_rgb. cbv zeta.
    change (String "#" ?s) with (str.repeat "#" 1 +:+ s).
    rewrite lstrip_repeat, (lstrip_digit d1 v1) by done.
    unfold str.slice. cbn [String.substring].
    rewrite (int16_two d1 d2 v1 v2), (int16_two d3 d4 v3 v4) by done.
    cbn [res_bind]. unfold str.int16. cbn [str.hex_value]. rewrite H5. cbn.
    do 2 f_equal; lia.
Qed.

End colours.

Lemma hex_to_rgb_six_digits_witness :
  generate_themed_icons.hex_to_rgb "#D4a574ff" = Ret (212, 165, 116).
Proof.
  destruct (hex_to_rgb_six_digits 1 "D" "4" "a" "5" "7" "4" "ff" 13 4 10 5 7 4)
    as [Hparse _];
    [reflexivity | reflexivity | reflexivity | reflexivity | reflexivity | reflexivity |].
  exact Hparse.
Defined.

Lemma hex_to_rgb_short_colours_witness :
  generate_themed_icons.hex_to_rgb "#fff" = Raise ValueError
  ∧ generate_themed_icons.hex_to_rgb "#12345" = Ret (18, 52, 5).
Proof.
  destruct hex_to_rgb_short_colours as [Hshort Hfive]. split.
  - apply Hshort. cbn. lia.
  - apply (Hfive "1"%char "2"%char "3"%char "4"%char "5"%char 1 2 3 4 5); reflexivity.
Defined.


Section themed_iconsets.
Import generate_themed_icons.

(** The loop of [create_themed_iconset], for a colour that parses and
    targets that are not sources. *)
Lemma recolor_entries_run (base_iconset_path iconset_path theme_color : string)
    (new : Z * Z * Z) (entries : list (string * Z)) :
  hex_to_rgb theme_color = Ret new →
  NoDup (entries.*1) →
  (∀ f g, os_path.join iconset_path f ≠ os_path.join base_iconset_path g) →
  ∀ w,
    (∀ e, e ∈ entries →
       fs w !! os_path.join base_iconset_path e.1 = None
       ∨ ∃ img, fs w !! os_path.join base_iconset_path e.1 = Some (PNG img)) →
    ∃ w',
      for_each entries (fun '(filename, expected_size) =>
        let source_path := os_path.join base_iconset_path filename in
        let target_path := os_path.join iconset_path filename in
        do found <- os_path.exists_ source_path;
        if found then
          (recolor_icon source_path target_path theme_color ;;
           print (Created filename))
        else print (WarnNotFound filename)) w
      = (Ret tt, w')
      ∧ stdout w' = stdout w ++ map (recolor_line (fs w) base_iconset_path) entries
      ∧ (∀ path, (∀ e, e ∈ entries → path ≠ os_path.join iconset_path e.1) →
           fs w' !! path = fs w !! path)
      ∧ (∀ f n, (f, n) ∈ entries →
           match fs w !! os_path.join base_iconset_path f with
           | Some (PNG img) =>
               fs w' !! os_path.join iconset_path f = Some (PNG (recolored img new))
           | _ => fs w' !! os_path.join iconset_path f
                  = fs w !! os_path.join iconset_path f
           end).
Proof.
  intros Hnew. induction entries as [| [f n] rest IH]; intros Hnd Hdisj w Hfiles.
  - exists w. split; [reflexivity |]. split; [cbn; by rewrite app_nil_r |].
    split; [done |]. intros f n Hin. by apply elem_of_nil in Hin.
  - cbn [fmap list_fmap fst] in Hnd. apply NoDup_cons in Hnd as [Hf Hnd].
    assert (Hother : ∀ e, e ∈ rest →
              os_path.join iconset_path e.1 ≠ os_path.join iconset_path f).
    { intros e He Heq. apply join_inj in Heq. apply Hf.
      rewrite <- Heq. apply list_elem_of_fmap. by exists e. }
    cbn [for_each map].
    destruct (Hfiles (f, n)) as [Hnone | [img Hsome]];
      [apply elem_of_cons; by left | |]; cbn [fst] in *.
    + set (w1 := World (fs w) (stdout w ++ [WarnNotFound f])).
      rewrite (bind_run _ _ w w1 tt).
      2:{ rewrite (bind_run _ _ _ _ _ (exists_run _ w)).
          rewrite Hnone. rewrite bool_decide_false by (by intros [? ?]).
          apply print_run. }
      destruct (IH Hnd Hdisj w1) as (w' & Hrun & Hout & Hframe & Hfiles').
      { intros e He. apply Hfiles. apply elem_of_cons. by right. }
      exists w'. split; [exact Hrun |]. split; [| split].
      * rewrite Hout. subst w1. cbn [stdout fs]. rewrite <- app_assoc. f_equal.
        cbn [app]. f_equal. unfold recolor_line at 1. cbn [fst]. rewrite Hnone.
        by rewrite bool_decide_false by (by intros [? ?]).
      * intros path Hpath. rewrite Hframe; [done |].
        intros e He. apply Hpath. apply elem_of_cons. by right.
      * intros g m Hin. apply elem_of_cons in Hin as [[= -> ->] | Hin].
        -- rewrite Hnone. rewrite Hframe; [done |]. intros e He Heq.
           by apply (Hother e He).
        -- by apply (Hfiles' g m).
    + set (w1 := World (<[os_path.join iconset_path f := PNG (recolored img new)]> (fs w))
                       (stdout w ++ [Created f])).
      rewrite (bind_run _ _ w w1 tt).
      2:{ rewrite (bind_run _ _ _ _ _ (exists_run _ w)).
          rewrite Hsome. rewrite bool_decide_true by (by eexists).
          rewrite (bind_run _ _ _ _ _
                     (recolor_icon_run img _ (os_path.join iconset_path f) _ new w
                        Hsome Hnew)).
          apply print_run. }
      assert (Hbase : ∀ g, fs w1 !! os_path.join base_iconset_path g
                           = fs w !! os_path.join base_iconset_path g).
      { intros g. subst w1. cbn [fs]. apply lookup_insert_ne. apply Hdisj. }
      destruct (IH Hnd Hdisj w1) as (w' & Hrun & Hout & Hframe & Hfiles').
      { intros e He. rewrite Hbase. apply Hfiles. apply elem_of_cons. by right. }
      exists w'. split; [exact Hrun |]. split; [| split].
      * rewrite Hout. subst w1. cbn [stdout]. rewrite <- app_assoc. f_equal.
        cbn [app]. f_equal.
        -- unfold recolor_line. cbn [fst]. rewrite Hsome.
           by rewrite bool_decide_true by (by eexists).
        -- apply map_ext. intros e. unfold recolor_line. by rewrite Hbase.
      * intros path Hpath. rewrite Hframe.
        -- subst w1. cbn [fs]. apply lookup_insert_ne. intros Heq.
           apply (Hpath (f, n)); [apply elem_of_cons; by left | done].
        -- intros e He. apply Hpath. apply elem_of_cons. by right.
      * intros g m Hin. apply elem_of_cons in Hin as [[= -> ->] | Hin].
        -- rewrite Hsome. rewrite Hframe; [subst w1; cbn [fs]; apply lookup_insert_eq |].
           intros e He Heq. by apply (Hother e He).
        -- specialize (Hfiles' g m Hin). rewrite Hbase in Hfiles'.
           destruct (fs w !! os_path.join base_iconset_path g) as [[img' | |] |];
             try done; rewrite Hfiles'; subst w1; cbn [fs]; apply lookup_insert_ne;
             intros Heq; by apply (Hother (g, m) Hin).
Qed.

Lemma theme_names_NoDup : NoDup (ICON_SIZES.*1).
Proof. exact required_names_NoDup. Qed.

Lemma for_each_app {A} (xs ys : list A) (body : A → M unit) (w : world) :
  for_each (xs ++ ys) body w = (for_each xs body ;; for_each ys body) w.
Proof.
  revert w. induction xs as [| x xs IH]; intros w; [reflexivity |].
  cbn [app for_each]. unfold bind.
  destruct (body x w) as [[[] | e] w1]; [| reflexivity].
  rewrite IH. reflexivity.
Qed.

(** The themed iconsets of [main] never overlap the base iconset. *)
Lemma themed_target_ne_base (theme_name f g : string) :
  os_path.join (os_path.join output_dir ("icon-" +:+ theme_name +:+ ".iconset")) f
  ≠ os_path.join base_iconset g.
Proof.
  unfold os_path.join, output_dir, base_iconset, base_path, os_path.join.
  cbn [String.append]. intros Heq. discriminate Heq.
Qed.

(** X6. [create_themed_iconset] for a colour that parses, a base iconset
    whose required icons are images or missing, and an output directory
    whose iconset does not overlap the base one: it returns the path
    [output_dir/icon-<theme>.iconset]; every base icon that exists is
    written recoloured under that path, in the size of the base icon (the
    size its entry names is never looked at); for a missing base icon it
    prints a warning and leaves whatever was at the target; the base
    icons and all other files stay as they were. *)
Theorem create_themed_iconset_run
    (theme_name theme_color base_iconset_path output_dir : string)
    (new : Z * Z * Z) (w : world) :
  let iconset_path := os_path.join output_dir ("icon-" +:+ theme_name +:+ ".iconset") in
  hex_to_rgb theme_color = Ret new →
  (∀ f g, os_path.join iconset_path f ≠ os_path.join base_iconset_path g) →
  icons_readable base_iconset_path (fs w) →
  ∃ w',
    create_themed_iconset theme_name theme_color base_iconset_path output_dir w
    = (Ret iconset_path, w')
    ∧ stdout w' = stdout w ++ map (recolor_line (fs w) base_iconset_path) ICON_SIZES
    ∧ (∀ path, (∀ f n, (f, n) ∈ ICON_SIZES → path ≠ os_path.join iconset_path f) →
         fs w' !! path = fs w !! path)
    ∧ (∀ f n, (f, n) ∈ ICON_SIZES →
         fs w' !! os_path.join base_iconset_path f
         = fs w !! os_path.join base_iconset_path f
         ∧ match fs w !! os_path.join base_iconset_path f with
           | Some (PNG img) =>
               fs w' !! os_path.join iconset_path f = Some (PNG (recolored img new))
               ∧ size (recolored img new) = size img
           | _ => fs w' !! os_path.join iconset_path f
                  = fs w !! os_path.join iconset_path f
           end).
Proof.
  intros iconset_path Hnew Hdisj Hread.
  destruct (recolor_entries_run base_iconset_path iconset_path theme_color new
              ICON_SIZES Hnew theme_names_NoDup Hdisj w Hread)
    as (w' & Hrun & Hout & Hframe & Hfiles).
  exists w'. split.
  - unfold create_themed_iconset. cbv zeta. fold iconset_path.
    unfold makedirs. rewrite (bind_run _ _ w w tt) by reflexivity.
    rewrite (bind_run _ _ _ _ _ Hrun). reflexivity.
  - split; [exact Hout |]. split.
    + intros path Hpath. apply Hframe. intros [f n] He. by apply (Hpath f n).
    + intros f n Hin. split.
      * apply Hframe. intros e _ Heq. symmetry in Heq. by apply Hdisj in Heq.
      * specialize (Hfiles f n Hin).
        destruct (fs w !! os_path.join base_iconset_path f) as [[img | |] |]; done.
Qed.


End themed_iconsets.

Lemma create_themed_iconset_run_witness :
  ∃ w',
    generate_themed_icons.create_themed_iconset "ember" "#ff6b35"
      generate_themed_icons.base_iconset generate_themed_icons.output_dir
      (sample_world (os_path.join generate_themed_icons.base_iconset "icon_32x32.png")
                    (white_square 64))
    = (Ret (os_path.join generate_themed_icons.output_dir "icon-ember.iconset"), w')
    ∧ fs w' !! os_path.join
                 (os_path.join generate_themed_icons.output_dir "icon-ember.iconset")
                 "icon_32x32.png"
      = Some (PNG (generate_themed_icons.recolored (white_square 64) (255, 107, 53))).
Proof.
  destruct (create_themed_iconset_run "ember" "#ff6b35"
              generate_themed_icons.base_iconset generate_themed_icons.output_dir
              (255, 107, 53)
              (sample_world
                 (os_path.join generate_themed_icons.base_iconset "icon_32x32.png")
                 (white_square 64)))
    as (w' & Hrun & _ & _ & Hfiles).
  - reflexivity.
  - apply themed_target_ne_base.
  - intros [f n] _. cbn [fst].
    destruct (decide (f = "icon_32x32.png")) as [-> | Hne].
    + right. eexists. apply sample_world_lookup.
    + left. apply sample_world_lookup_ne. intros Heq. by apply join_inj in Heq.
  - exists w'. split; [exact Hrun |].
    destruct (Hfiles "icon_32x32.png" 32) as [_ Hfile].
    { unfold generate_themed_icons.ICON_SIZES. rewrite !elem_of_cons. tauto. }
    rewrite sample_world_lookup in Hfile. by destruct Hfile as [Hfile _].
Defined.



Section theme_runs.
Context `{Platform}.
Import generate_themed_icons.

Lemma convert_iconset_to_icns_exit0 (iconset_path : string) (w : world)
    (out err : string) (files' : gmap string file) :
  spawn (iconutil_args iconset_path) (fs w) = Exited 0 out err files' →
  convert_iconset_to_icns iconset_path w
  = (Ret (Some (str.replace ".iconset" ".icns" iconset_path)),
     World files'
       (stdout w ++ [CreatedIcns (basename (str.replace ".iconset" ".icns" iconset_path))])).
Proof.
  intros Hspawn. unfold convert_iconset_to_icns. cbv zeta.
  apply try_except_run.
  assert (Hsub : subprocess_run ["iconutil"; "-c"; "icns"; iconset_path] true w
                 = (Ret (Completed 0 out err), World files' (stdout w))).
  { unfold subprocess_run. unfold iconutil_args in Hspawn. by rewrite Hspawn. }
  rewrite (bind_run _ _ _ _ _ Hsub).
  rewrite (bind_run _ _ _ _ _ (print_run _ _)). reflexivity.
Qed.

Lemma convert_iconset_to_icns_no_tool (iconset_path : string) (w : world) :
  spawn (iconutil_args iconset_path) (fs w) = NoSuchProgram →
  convert_iconset_to_icns iconset_path w = (Raise FileNotFoundError, w).
Proof.
  intros Hspawn. unfold convert_iconset_to_icns, try_except. cbv zeta.
  assert (Hsub : subprocess_run ["iconutil"; "-c"; "icns"; iconset_path] true w
                 = (Raise FileNotFoundError, w)).
  { unfold subprocess_run. unfold iconutil_args in Hspawn. by rewrite Hspawn. }
  rewrite (bind_raise _ _ _ _ _ Hsub). reflexivity.
Qed.

(** X8. When the packaging tool exits with status 0,
    [convert_iconset_to_icns] prints the name of the [.icns] file and
    returns its path, which it computes itself by replacing [.iconset]
    in the iconset path: for every theme of the table that is
    [icon-<theme>.icns] in the output directory. *)
Theorem convert_iconset_to_icns_success (iconset_path : string) (w : world)
    (out err : string) (files' : gmap string file) :
  spawn (iconutil_args iconset_path) (fs w) = Exited 0 out err files' →
  let icns_path := str.replace ".iconset" ".icns" iconset_path in
  convert_iconset_to_icns iconset_path w
  = (Ret (Some icns_path),
     World files' (stdout w ++ [CreatedIcns (basename icns_path)]))
  ∧ (∀ theme_name theme_color,
       (theme_name, theme_color) ∈ THEMES →
       iconset_path = os_path.join output_dir ("icon-" +:+ theme_name +:+ ".iconset") →
       icns_path = os_path.join output_dir ("icon-" +:+ theme_name +:+ ".icns")
       ∧ basename icns_path = "icon-" +:+ theme_name +:+ ".icns").
Proof.
  intros Hspawn icns_path.
  split; [exact (convert_iconset_to_icns_exit0 iconset_path w out err files' Hspawn) |].
  intros theme_name theme_color Hin ->. subst icns_path.
  unfold THEMES in Hin. rewrite !elem_of_cons, elem_of_nil in Hin.
  repeat (destruct Hin as [[= -> ->] | Hin]; [split; vm_compute; reflexivity |]).
  done.
Qed.

(** X9. A packaging tool that cannot be started is not handled:
    [convert_iconset_to_icns] lets [FileNotFoundError] through, so the
    loop over the themes stops at the first theme, after that theme's
    iconset was written, and no later theme is processed. *)
Theorem missing_tool_aborts_themes (theme_name theme_color : string)
    (rest : list (string * string)) (w w1 : world) (iconset_path : string) :
  theme_prefix theme_name theme_color w = (Ret iconset_path, w1) →
  spawn (iconutil_args iconset_path) (fs w1) = NoSuchProgram →
  convert_iconset_to_icns iconset_path w1 = (Raise FileNotFoundError, w1)
  ∧ theme_iteration (theme_name, theme_color) w = (Raise FileNotFoundError, w1)
  ∧ for_each ((theme_name, theme_color) :: rest) theme_iteration w
    = (Raise FileNotFoundError, w1).
Proof.
  intros Hprefix Hspawn.
  pose proof (convert_iconset_to_icns_no_tool iconset_path w1 Hspawn) as Hconvert.
  assert (Hiter : theme_iteration (theme_name, theme_color) w
                  = (Raise FileNotFoundError, w1)).
  { rewrite theme_iteration_unfold, (bind_run _ _ _ _ _ Hprefix).
    by apply bind_raise. }
  split; [exact Hconvert |]. split; [exact Hiter |].
  cbn [for_each]. by apply bind_raise.
Qed.

(** What an iteration does before it calls the tool, for a colour that
    parses. *)
Lemma theme_prefix_run (theme_name theme_color : string) (new : Z * Z * Z) (w : world) :
  hex_to_rgb theme_color = Ret new →
  icons_readable base_iconset (fs w) →
  ∃ w1 printed,
    theme_prefix theme_name theme_color w
    = (Ret (os_path.join output_dir ("icon-" +:+ theme_name +:+ ".iconset")), w1)
    ∧ stdout w1 = stdout w ++ ThemeHeader theme_name theme_color :: printed
    ∧ (∀ g, fs w1 !! os_path.join base_iconset g = fs w !! os_path.join base_iconset g).
Proof.
  intros Hnew Hread. unfold theme_prefix.
  rewrite (bind_run _ _ _ _ _ (print_run _ _)).
  rewrite (bind_run _ _ _ _ _ (print_run _ _)). cbn [fs stdout].
  set (wa := World (fs w) _).
  destruct (recolor_entries_run base_iconset
              (os_path.join output_dir ("icon-" +:+ theme_name +:+ ".iconset"))
              theme_color new ICON_SIZES Hnew theme_names_NoDup
              (themed_target_ne_base theme_name) wa Hread)
    as (w1 & Hrun & Hout & Hframe & _).
  exists w1. eexists. split; [| split].
  - unfold create_themed_iconset, makedirs. cbv zeta.
    rewrite (bind_run _ _ wa wa tt) by reflexivity.
    rewrite (bind_run _ _ _ _ _ Hrun). reflexivity.
  - rewrite Hout. subst wa. cbn [stdout fs]. rewrite <- !app_assoc. reflexivity.
  - intros g. rewrite Hframe; [done |]. intros e _ Heq. symmetry in Heq.
    by apply themed_target_ne_base in Heq.
Qed.

(** The loop over a list of themes whose colours parse, with a tool that
    starts and leaves the base icons alone. *)
Lemma themes_run (themes : list (string * string)) :
  (∀ args files, ∃ rc out err files',
     spawn args files = Exited rc out err files'
     ∧ ∀ g, files' !! os_path.join base_iconset g = files !! os_path.join base_iconset g) →
  (∀ t, t ∈ themes → ∃ new, hex_to_rgb t.2 = Ret new) →
  ∀ w, icons_readable base_iconset (fs w) →
    ∃ w' printed,
      for_each themes theme_iteration w = (Ret tt, w')
      ∧ stdout w' = stdout w ++ printed
      ∧ (∀ t, t ∈ themes → ThemeHeader t.1 t.2 ∈ printed)
      ∧ (∀ g, fs w' !! os_path.join base_iconset g = fs w !! os_path.join base_iconset g).
Proof.
  intros Htool. induction themes as [| [name color] rest IH]; intros Hcolors w Hread.
  - exists w, []. split; [reflexivity |]. split; [by rewrite app_nil_r |].
    split; [| done]. intros t Ht. by apply elem_of_nil in Ht.
  - destruct (Hcolors (name, color)) as [new Hnew]; [apply elem_of_cons; by left |].
    destruct (theme_prefix_run name color new w Hnew Hread)
      as (w1 & printed1 & Hprefix & Hout1 & Hbase1).
    set (iconset_path := os_path.join output_dir ("icon-" +:+ name +:+ ".iconset")) in *.
    destruct (Htool (iconutil_args iconset_path) (fs w1))
      as (rc & out & err & files' & Hspawn & Hspared).
    assert (Hconvert : ∃ r l, convert_iconset_to_icns iconset_path w1
                              = (Ret r, World files' (stdout w1 ++ [l]))).
    { destruct (Z.eq_dec rc 0) as [-> | Hrc].
      - eexists _, _. by eapply convert_iconset_to_icns_exit0.
      - eexists _, _. by eapply convert_iconset_to_icns_failure. }
    destruct Hconvert as (r & l & Hconvert).
    set (w2 := World files' (stdout w1 ++ [l])) in *.
    assert (Hiter : theme_iteration (name, color) w = (Ret tt, w2)).
    { rewrite theme_iteration_unfold, (bind_run _ _ _ _ _ Hprefix).
      rewrite (bind_run _ _ _ _ _ Hconvert). reflexivity. }
    assert (Hbase2 : ∀ g, fs w2 !! os_path.join base_iconset g
                          = fs w !! os_path.join base_iconset g).
    { intros g. subst w2. cbn [fs]. by rewrite Hspared, Hbase1. }
    assert (Hcolors' : ∀ t, t ∈ rest → ∃ new', hex_to_rgb t.2 = Ret new').
    { intros t Ht. apply Hcolors. apply elem_of_cons. by right. }
    destruct (IH Hcolors' w2) as (w' & printed & Hrun & Hout & Hheaders & Hbase).
    { intros e He. rewrite Hbase2. by apply Hread. }
    exists w', (ThemeHeader name color :: printed1 ++ [l] ++ printed).
    split; [cbn [for_each]; by rewrite (bind_run _ _ _ _ _ Hiter) |].
    split; [| split].
    + rewrite Hout. subst w2. cbn [stdout]. rewrite Hout1.
      rewrite <- !app_assoc. reflexivity.
    + intros t Ht. apply elem_of_cons in Ht as [-> | Ht].
      * apply elem_of_cons. by left.
      * apply elem_of_cons. right. rewrite !elem_of_app. right. right.
        by apply Hheaders.
    + intros g. by rewrite Hbase, Hbase2.
Qed.

(** X10. The whole run of the theme recolorer, with a packaging tool
    that can be started and leaves the base icons alone, on a base
    iconset whose required icons are images or missing: [main] returns
    normally whatever the tool's exit statuses were; it announces each of
    the nine themes and ends with the five closing lines, which say that
    all themed icons were created; the base icons are as they were. *)
Theorem themed_main_completes (w : world) :
  (∀ args files, ∃ rc out err files',
     spawn args files = Exited rc out err files'
     ∧ ∀ g, files' !! os_path.join base_iconset g = files !! os_path.join base_iconset g) →
  icons_readable base_iconset (fs w) →
  ∃ w' printed,
    main w = (Ret tt, w')
    ∧ stdout w' = stdout w ++ printed ++ themes_done
    ∧ (∀ theme_name theme_color, (theme_name, theme_color) ∈ THEMES →
         ThemeHeader theme_name theme_color ∈ printed)
    ∧ (∀ g, fs w' !! os_path.join base_iconset g = fs w !! os_path.join base_iconset g).
Proof.
  intros Htool Hread. unfold main, makedirs.
  rewrite (bind_run _ _ w w tt) by reflexivity.
  do 4 rewrite (bind_run _ _ _ _ _ (print_run _ _)). cbn [fs stdout].
  set (wa := World (fs w) _).
  destruct (themes_run THEMES Htool) with (w := wa)
    as (w1 & printed & Hrun & Hout & Hheaders & Hbase).
  { intros [name color] Hin. destruct (THEMES_colors name color Hin)
      as (r & g & b & Hnew & _). by eexists. }
  { exact Hread. }
  rewrite (bind_run _ _ _ _ _ Hrun).
  do 4 rewrite (bind_run _ _ _ _ _ (print_run _ _)). rewrite print_run.
  cbn [fs stdout].
  eexists _, ([Text (str.repeat "=" 60); Text "ArborChat Themed Icon Generator";
               Text (str.repeat "=" 60); Text ""] ++ printed).
  split; [reflexivity |]. cbn [fs stdout].
  split; [| split].
  - rewrite Hout. subst wa. cbn [stdout]. unfold themes_done.
    rewrite <- !app_assoc. reflexivity.
  - intros name color Hin. rewrite elem_of_app. right.
    by apply (Hheaders (name, color)).
  - exact Hbase.
Qed.

End theme_runs.

(** The three properties at sample platforms. *)
Lemma convert_iconset_to_icns_success_witness :
  generate_themed_icons.convert_iconset_to_icns
    (H := {| spawn := fun _ files => Exited 0 "" "" files |})
    (os_path.join generate_themed_icons.output_dir "icon-abyssal.iconset") empty_world
  = (Ret (Some (os_path.join generate_themed_icons.output_dir "icon-abyssal.icns")),
     World ∅ [CreatedIcns "icon-abyssal.icns"]).
Proof.
  destruct (@convert_iconset_to_icns_success
              {| spawn := fun _ files => Exited 0 "" "" files |}
              (os_path.join generate_themed_icons.output_dir "icon-abyssal.iconset")
              empty_world "" "" ∅) as [Hrun _]; [reflexivity |].
  exact Hrun.
Defined.

Lemma missing_tool_aborts_themes_witness :
  ∃ w1, for_each [("midnight", "#5865f2"); ("ember", "#ff6b35")]
          (generate_themed_icons.theme_iteration
             (H := {| spawn := fun _ _ => NoSuchProgram |})) empty_world
        = (Raise FileNotFoundError, w1).
Proof.
  destruct sample_theme_prefix as [w1 Hprefix].
  exists w1.
  destruct (@missing_tool_aborts_themes {| spawn := fun _ _ => NoSuchProgram |}
              "midnight" "#5865f2" [("ember", "#ff6b35")] empty_world w1 _ Hprefix)
    as (_ & _ & Hloop); [reflexivity |].
  exact Hloop.
Defined.

Lemma themed_main_completes_witness :
  ∃ w' printed,
    generate_themed_icons.main (H := sample_platform) empty_world = (Ret tt, w')
    ∧ stdout w' = printed ++ themes_done.
Proof.
  destruct (@themed_main_completes sample_platform empty_world)
    as (w' & printed & Hrun & Hout & _).
  - intros args files. by exists 1, "", "iconutil: failed", files.
  - intros e _. left. apply lookup_empty.
  - exists w'. eexists. split; [exact Hrun |]. exact Hout.
Defined.


(** ** The iconset completer: other sources, a second run, and [main] *)

Section completer_more.
Context `{Imaging}.
Import prepare_and_generate_icons.

(** X11. A file that exists but cannot be decoded is not skipped: when
    the first required file that exists, in scan order, is not an image,
    [prepare_iconset] raises the decoder's exception instead of trying
    the next file or returning [False]; it has then printed its banner
    and written nothing. *)
Theorem prepare_iconset_unreadable_source (pre post : list (string * Z))
    (f : string) (n : Z) (c : file) (w : world) :
  scan_order = pre ++ (f, n) :: post →
  (∀ e, e ∈ pre → fs w !! icon_path e.1 = None) →
  fs w !! icon_path f = Some c → (∀ img, c ≠ PNG img) →
  prepare_iconset w
  = (Raise UnidentifiedImageError, World (fs w) (stdout w ++ prepare_banner)).
Proof.
  intros Hsplit Hpre Hf Hc. unfold prepare_iconset. fold scan_order. rewrite Hsplit.
  unfold bind at 1 2 3 4, print at 1 2 3. cbn [fs stdout].
  rewrite find_source_skip by done.
  rewrite (find_source_undecodable f n post c) by done.
  unfold prepare_banner. rewrite <- !app_assoc. reflexivity.
Qed.

(** X12. The source may have any width and height. Every required file
    comes out square, in its entry's size; the upscaling warnings are
    decided by the width of the source alone, one for each entry larger
    than it; files outside the ten required paths are left as they
    were. *)
Theorem prepare_iconset_any_source (pre post : list (string * Z))
    (f : string) (n : Z) (img : image) (w : world) :
  scan_order = pre ++ (f, n) :: post →
  (∀ e, e ∈ pre → fs w !! icon_path e.1 = None) →
  fs w !! icon_path f = Some (PNG img) →
  ∃ w' printed,
    prepare_iconset w = (Ret true, w')
    ∧ stdout w' = stdout w ++ printed
    ∧ (∀ g m, (g, m) ∈ REQUIRED_SIZES →
         ∃ out, fs w' !! icon_path g = Some (PNG out) ∧ size out = (m, m))
    ∧ (∀ m source_size, WarnUpscaling m source_size ∈ printed
         ↔ source_size = Z.of_N (width img) ∧ Z.of_N (width img) < m
           ∧ ∃ g, (g, m) ∈ REQUIRED_SIZES)
    ∧ (∀ path, (∀ g m, (g, m) ∈ REQUIRED_SIZES → path ≠ icon_path g) →
         fs w' !! path = fs w !! path).
Proof.
  intros Hsplit Hpre Hf.
  eexists _, _. split; [by eapply prepare_iconset_found |]. cbn [fs stdout].
  split; [reflexivity |]. split; [| split].
  - intros g m Hin. exists (resized_to img m m). split.
    + apply generated_files_lookup; [apply required_names_NoDup | done].
    + apply required_sizes_range in Hin. apply size_resized_to; lia.
  - intros m source_size.
    rewrite elem_of_app, elem_of_app, elem_of_generated_lines_warning. split.
    + intros [Hb | [Hb | Hw]]; [exfalso | exfalso | done].
      * unfold prepare_banner in Hb. rewrite !elem_of_cons, elem_of_nil in Hb.
        repeat (destruct Hb as [Hb | Hb]; [discriminate |]). done.
      * rewrite !elem_of_cons, elem_of_nil in Hb.
        repeat (destruct Hb as [Hb | Hb]; [discriminate |]). done.
    + intros Hw. right. by right.
  - intros path Hpath. apply generated_files_other.
    intros [g m] Hin Heq. by apply (Hpath g m Hin).
Qed.

(** X13. Running the completer a second time. After a successful run
    all ten files exist, so the second run takes the largest one,
    [icon_512x512@2x.png], as its source, whatever the first source was:
    every file is then a resampling of the 1024-pixel file the first run
    wrote, and no upscaling warning is printed. *)
Theorem prepare_iconset_second_run (pre post : list (string * Z))
    (f : string) (n : Z) (img : image) (w : world) :
  scan_order = pre ++ (f, n) :: post →
  (∀ e, e ∈ pre → fs w !! icon_path e.1 = None) →
  fs w !! icon_path f = Some (PNG img) →
  ∃ w1 w2 printed,
    prepare_iconset w = (Ret true, w1)
    ∧ prepare_iconset w1 = (Ret true, w2)
    ∧ stdout w2 = stdout w1 ++ printed
    ∧ UsingSource "icon_512x512@2x.png" 1024 ∈ printed
    ∧ filter (fun l => is_warning l = true) printed = []
    ∧ (∀ g m, (g, m) ∈ REQUIRED_SIZES →
         fs w2 !! icon_path g
         = Some (PNG (resized_to (resized_to img 1024 1024) m m))).
Proof.
  intros Hsplit Hpre Hf.
  eexists _, _, _. split; [by eapply prepare_iconset_found |].
  set (w1 := World (generated_files img REQUIRED_SIZES (fs w)) _).
  assert (Hbig : fs w1 !! icon_path "icon_512x512@2x.png"
                 = Some (PNG (resized_to img 1024 1024))).
  { subst w1. cbn [fs]. apply generated_files_lookup; [apply required_names_NoDup |].
    unfold REQUIRED_SIZES. rewrite !elem_of_cons. tauto. }
  assert (Hwidth : Z.of_N (width (resized_to img 1024 1024)) = 1024).
  { pose proof (size_resized_to img 1024 1024 ltac:(lia) ltac:(lia)) as Hsz.
    unfold size in Hsz. by injection Hsz. }
  pose proof (prepare_iconset_found [] (List.tl scan_order) "icon_512x512@2x.png" 1024
                (resized_to img 1024 1024) w1) as Hrun2.
  rewrite Hwidth in Hrun2.
  split; [apply Hrun2; [by rewrite scan_order_eq | | exact Hbig] |].
  { intros e He. by apply elem_of_nil in He. }
  cbn [fs stdout]. split; [reflexivity |]. split; [| split].
  - rewrite !elem_of_app. right. left. apply elem_of_cons. by left.
  - reflexivity.
  - intros g m Hin. apply generated_files_lookup; [apply required_names_NoDup | done].
Qed.

End completer_more.

Section completer_main.
Context `{Imaging} `{Platform}.
Import prepare_and_generate_icons prepare_and_generate_icons_main.

(** X14. With no required file at all, [main] prints the completer's
    error and its own failure line and returns; it starts no process and
    changes no file, on any platform. *)
Theorem completer_main_without_source (w : world) :
  (∀ e, e ∈ REQUIRED_SIZES → fs w !! icon_path e.1 = None) →
  main w
  = (Ret tt,
     World (fs w)
           (stdout w ++ prepare_banner
              ++ [ErrorNoSource;
                  Text (String newline "❌ Failed to prepare iconset")])).
Proof.
  intros Hnone. unfold main.
  rewrite (bind_run _ _ _ _ _ (prepare_iconset_missing w Hnone)).
  rewrite print_run. cbn [fs stdout]. f_equal. f_equal.
  rewrite <- !app_assoc. reflexivity.
Qed.

(** X15. With a source, [main] launches [python3 generate_themed_icons.py]
    once the iconset is complete, on the files the completer left. It
    ignores the child's exit status: whatever it is, [main] prints the
    child's output, then its error output if there is any, and returns.
    If [python3] cannot be started, [FileNotFoundError] escapes, with the
    completed iconset in place. *)
Theorem completer_main_runs_generator (pre post : list (string * Z))
    (f : string) (n : Z) (img : image) (w : world) :
  scan_order = pre ++ (f, n) :: post →
  (∀ e, e ∈ pre → fs w !! icon_path e.1 = None) →
  fs w !! icon_path f = Some (PNG img) →
  let files1 := generated_files img REQUIRED_SIZES (fs w) in
  ∃ printed,
    (∀ rc out err files',
       spawn ["python3"; "generate_themed_icons.py"] files1 = Exited rc out err files' →
       main w
       = (Ret tt,
          World files'
            (stdout w ++ printed ++ [Text out]
               ++ match err with
                  | EmptyString => []
                  | _ => [Text ("STDERR: " +:+ err)]
                  end)))
    ∧ (spawn ["python3"; "generate_themed_icons.py"] files1 = NoSuchProgram →
       main w = (Raise FileNotFoundError, World files1 (stdout w ++ printed))).
Proof.
  intros Hsplit Hpre Hf files1.
  pose proof (prepare_iconset_found pre post f n img w Hsplit Hpre Hf) as Hprep.
  fold files1 in Hprep.
  eexists (prepare_banner
             ++ [UsingSource f (Z.of_N (width img)); Text "Generating icons:"]
             ++ generated_lines (Z.of_N (width img)) REQUIRED_SIZES
             ++ [Text (String newline "✅ Iconset prepared successfully!");
                 Text (String newline "Now running themed icon generator...")]).
  split.
  - intros rc out err files' Hspawn. unfold main.
    rewrite (bind_run _ _ _ _ _ Hprep).
    do 2 rewrite (bind_run _ _ _ _ _ (print_run _ _)). cbn [fs stdout].
    unfold chdir. rewrite (bind_run _ _ _ _ tt) by reflexivity.
    match goal with |- bind _ _ ?w0 = _ => set (wa := w0) end.
    assert (Hsub : subprocess_run ["python3"; "generate_themed_icons.py"] false wa
                   = (Ret (Completed rc out err), World files' (stdout wa))).
    { unfold subprocess_run. subst wa. cbn [fs]. by rewrite Hspawn. }
    rewrite (bind_run _ _ _ _ _ Hsub). cbn [cp_stdout cp_stderr].
    rewrite (bind_run _ _ _ _ _ (print_run _ _)). cbn [fs stdout].
    destruct err as [| a err'].
    + unfold ret. f_equal. f_equal. subst wa. cbn [stdout].
      rewrite <- !app_assoc. reflexivity.
    + rewrite print_run. cbn [fs stdout]. f_equal. f_equal. subst wa. cbn [stdout].
      rewrite <- !app_assoc. reflexivity.
  - intros Hspawn. unfold main.
    rewrite (bind_run _ _ _ _ _ Hprep).
    do 2 rewrite (bind_run _ _ _ _ _ (print_run _ _)). cbn [fs stdout].
    unfold chdir. rewrite (bind_run _ _ _ _ tt) by reflexivity.
    match goal with |- bind _ _ ?w0 = _ => set (wa := w0) end.
    assert (Hsub : subprocess_run ["python3"; "generate_themed_icons.py"] false wa
                   = (Raise FileNotFoundError, wa)).
    { unfold subprocess_run. subst wa. cbn [fs]. by rewrite Hspawn. }
    rewrite (bind_raise _ _ _ _ _ Hsub). subst wa. f_equal. f_equal.
    rewrite <- !app_assoc. reflexivity.
Qed.

End completer_main.

(** The completer's properties at sample inputs. *)
Lemma prepare_iconset_unreadable_source_witness :
  prepare_and_generate_icons.prepare_iconset (H := sample_imaging)
    (World {[ icon_path "icon_512x512@2x.png" := Data ]} [])
  = (Raise UnidentifiedImageError,
     World {[ icon_path "icon_512x512@2x.png" := Data ]} prepare_banner).
Proof.
  apply (@prepare_iconset_unreadable_source sample_imaging []
           (List.tl scan_order) "icon_512x512@2x.png" 1024 Data).
  - reflexivity.
  - intros e He. by apply elem_of_nil in He.
  - apply lookup_singleton_eq.
  - discriminate.
Defined.

Lemma prepare_iconset_any_source_witness :
  ∃ w' out,
    prepare_and_generate_icons.prepare_iconset (H := sample_imaging)
      (sample_world (icon_path "icon_512x512@2x.png") wide_image) = (Ret true, w')
    ∧ fs w' !! icon_path "icon_16x16.png" = Some (PNG out)
    ∧ size out = (16, 16).
Proof.
  destruct (@prepare_iconset_any_source sample_imaging []
              (List.tl scan_order) "icon_512x512@2x.png" 1024 wide_image
              (sample_world (icon_path "icon_512x512@2x.png") wide_image))
    as (w' & printed & Hrun & _ & Hfiles & _).
  - reflexivity.
  - intros e He. by apply elem_of_nil in He.
  - apply sample_world_lookup.
  - destruct (Hfiles "icon_16x16.png" 16) as (out & Hfile & Hsz).
    { unfold prepare_and_generate_icons.REQUIRED_SIZES. apply elem_of_cons. by left. }
    exists w', out. split; [exact Hrun | split; [exact Hfile | exact Hsz]].
Defined.

Lemma prepare_iconset_second_run_witness :
  ∃ w1 w2,
    prepare_and_generate_icons.prepare_iconset (H := sample_imaging)
      (sample_world (icon_path "icon_16x16.png") (white_square 16)) = (Ret true, w1)
    ∧ prepare_and_generate_icons.prepare_iconset (H := sample_imaging) w1
      = (Ret true, w2).
Proof.
  destruct (@prepare_iconset_second_run sample_imaging
              (removelast scan_order) [] "icon_16x16.png" 16 (white_square 16)
              (sample_world (icon_path "icon_16x16.png") (white_square 16)))
    as (w1 & w2 & printed & Hrun1 & Hrun2 & _).
  - reflexivity.
  - intros [g m] He. cbn [fst]. apply sample_world_lookup_ne.
    intros Heq. apply icon_path_inj in Heq. subst g.
    rewrite scan_order_eq in He. cbn [removelast] in He.
    rewrite !elem_of_cons, elem_of_nil in He.
    repeat (destruct He as [He | He]; [discriminate |]). done.
  - apply sample_world_lookup.
  - exists w1, w2. split; [exact Hrun1 | exact Hrun2].
Defined.

Lemma completer_main_without_source_witness :
  ∃ printed,
    prepare_and_generate_icons_main.main (H := sample_imaging) (H0 := sample_platform)
      empty_world = (Ret tt, World ∅ printed).
Proof.
  eexists.
  apply (@completer_main_without_source sample_imaging sample_platform empty_world).
  intros e _. apply lookup_empty.
Defined.

Lemma completer_main_runs_generator_witness :
  ∃ w', prepare_and_generate_icons_main.main (H := sample_imaging) (H0 := sample_platform)
          (sample_world (icon_path "icon_512x512@2x.png") (white_square 1024))
        = (Ret tt, w').
Proof.
  destruct (@completer_main_runs_generator sample_imaging sample_platform []
              (List.tl scan_order) "icon_512x512@2x.png" 1024 (white_square 1024)
              (sample_world (icon_path "icon_512x512@2x.png") (white_square 1024)))
    as (printed & Hexited & _).
  - reflexivity.
  - intros e He. by apply elem_of_nil in He.
  - apply sample_world_lookup.
  - eexists. apply (Hexited 1 "" "iconutil: failed"). reflexivity.
Defined.


(** ** The icon synthesizer: the iconset, the clean-up and a missing tool *)

Section synthesizer_more.
Context `{Imaging}.
Import generate_icon.

#[local] Opaque icon_image.

(** The loop that writes one drawing per entry, for entries with
    distinct names. *)
Lemma write_specs_files (iconset_dir : string) (specs : list (Z * string)) :
  NoDup (specs.*2) →
  Forall (fun spec => 16 <= spec.1 <= 1024) specs →
  ∀ w, ∃ w1,
    for_each specs (fun '(size_, filename) =>
      create_arbor_icon size_ (os_path.join iconset_dir filename) ;; ret tt) w
    = (Ret tt, w1)
    ∧ stdout w1
      = stdout w ++ map (fun spec => CreatedPath (os_path.join iconset_dir spec.2)) specs
    ∧ (∀ path, (∀ spec, spec ∈ specs → path ≠ os_path.join iconset_dir spec.2) →
         fs w1 !! path = fs w !! path)
    ∧ (∀ n f, (n, f) ∈ specs →
         ∃ im, icon_image n = Ret im ∧ size im = (n, n)
               ∧ fs w1 !! os_path.join iconset_dir f = Some (PNG im)).
Proof.
  induction specs as [| [n f] specs IH]; intros Hnd Hrange w.
  - exists w. split; [reflexivity |]. split; [by rewrite app_nil_r |].
    split; [done |]. intros n f Hin. by apply elem_of_nil in Hin.
  - cbn [fmap list_fmap snd] in Hnd. apply NoDup_cons in Hnd as [Hf Hnd].
    apply Forall_cons in Hrange as [Hn Hrange]. cbn [fst] in Hn.
    destruct (create_arbor_icon_run n (os_path.join iconset_dir f) w Hn)
      as (final & Hfinal & Hsz & Hrun).
    set (wa := World (<[os_path.join iconset_dir f := PNG final]> (fs w))
                     (stdout w ++ [CreatedPath (os_path.join iconset_dir f)])) in *.
    destruct (IH Hnd Hrange wa) as (w1 & Hrest & Hout & Hframe & Hfiles).
    exists w1. split; [| split; [| split]].
    + cbn [for_each]. rewrite (bind_run _ _ w wa tt); [exact Hrest |].
      by rewrite (bind_run _ _ _ _ _ Hrun).
    + rewrite Hout. subst wa. cbn [stdout map snd]. by rewrite <- app_assoc.
    + intros path Hpath. rewrite Hframe.
      * subst wa. cbn [fs]. apply lookup_insert_ne. intros Heq.
        apply (Hpath (n, f)); [apply elem_of_cons; by left | done].
      * intros spec Hspec. apply Hpath. apply elem_of_cons. by right.
    + intros m g Hin. apply elem_of_cons in Hin as [[= -> ->] | Hin].
      * exists final. split; [done |]. split; [done |]. rewrite Hframe.
        -- subst wa. cbn [fs]. apply lookup_insert_eq.
        -- intros spec Hspec Heq. apply join_inj in Heq. apply Hf.
           rewrite Heq. apply list_elem_of_fmap. by exists spec.
      * by apply Hfiles.
Qed.

Lemma icon_specs_names_NoDup : NoDup (icon_specs.*2).
Proof. exact required_names_NoDup. Qed.

Lemma icon_specs_range : Forall (fun spec : Z * string => 16 <= spec.1 <= 1024) icon_specs.
Proof.
  unfold icon_specs. repeat (apply Forall_cons; split; [cbn; lia |]).
  by apply Forall_nil.
Qed.

(** X16. The first loop of [main] always completes: it writes the ten
    files of the iconset, each holding the drawing for the size its
    entry names and having exactly that size, so that the entries of one
    size hold one and the same image; it prints one line per file and
    touches no other file. *)
Theorem write_iconset_complete (iconset_dir : string) (w : world) :
  ∃ w1,
    write_iconset iconset_dir w = (Ret tt, w1)
    ∧ stdout w1
      = stdout w
        ++ map (fun spec => CreatedPath (os_path.join iconset_dir spec.2)) icon_specs
    ∧ (∀ path, (∀ n f, (n, f) ∈ icon_specs → path ≠ os_path.join iconset_dir f) →
         fs w1 !! path = fs w !! path)
    ∧ (∀ n f, (n, f) ∈ icon_specs →
         ∃ im, icon_image n = Ret im ∧ size im = (n, n)
               ∧ fs w1 !! os_path.join iconset_dir f = Some (PNG im))
    ∧ (∀ n f g, (n, f) ∈ icon_specs → (n, g) ∈ icon_specs →
         fs w1 !! os_path.join iconset_dir f = fs w1 !! os_path.join iconset_dir g).
Proof.
  destruct (write_specs_files iconset_dir icon_specs icon_specs_names_NoDup
              icon_specs_range w) as (w1 & Hrun & Hout & Hframe & Hfiles).
  exists w1. split; [exact Hrun |]. split; [exact Hout |]. split; [| split].
  - intros path Hpath. apply Hframe. intros [n f] Hin. by apply (Hpath n f).
  - exact Hfiles.
  - intros n f g Hf Hg.
    destruct (Hfiles n f Hf) as (im & Him & _ & ->).
    destruct (Hfiles n g Hg) as (im' & Him' & _ & ->).
    rewrite Him in Him'. by injection Him' as ->.
Qed.

(** The clean-up loop removes every temporary file. *)
Lemma unlink_all_gone (build_dir : string) (sizes : list Z) :
  ∀ w w1,
    for_each sizes (fun size_ => unlink (temp_path build_dir size_)) w = (Ret tt, w1) →
    ∀ n, n ∈ sizes → fs w1 !! temp_path build_dir n = None.
Proof.
  induction sizes as [| m sizes IH]; intros w w1 Hrun n Hn.
  - by apply elem_of_nil in Hn.
  - cbn [for_each] in Hrun. unfold bind at 1, unlink at 1 in Hrun.
    set (wd := World (delete (temp_path build_dir m) (fs w)) (stdout w)) in *.
    destruct (decide (temp_path build_dir n ∈ map (temp_path build_dir) sizes))
      as [Hin | Hout].
    + apply list_elem_of_In, in_map_iff in Hin as (k & Hk & Hin).
      rewrite <- Hk. apply (IH wd w1 Hrun). by apply list_elem_of_In.
    + destruct (unlink_all_run build_dir sizes wd) as (w1' & Hrun' & _ & Hframe).
      rewrite Hrun in Hrun'. injection Hrun' as <-.
      rewrite Hframe.
      * apply elem_of_cons in Hn as [-> | Hn].
        -- subst wd. cbn [fs]. apply lookup_delete_eq.
        -- exfalso. apply Hout. apply list_elem_of_In, in_map. by apply list_elem_of_In.
      * intros k Hk Heq. apply Hout. rewrite Heq.
        apply list_elem_of_In, in_map. by apply list_elem_of_In.
Qed.

Lemma assemble_ico_cleanup (build_dir : string) (w w1 : world) :
  assemble_ico build_dir w = (Ret tt, w1) →
  ∀ n, n ∈ ico_sizes → fs w1 !! temp_path build_dir n = None.
Proof.
  intros Hrun.
  destruct (ico_frames_run build_dir ico_sizes) with (w := w)
    as (frames & wa & printed & Hframes & Hall & _).
  { unfold ico_sizes. repeat (apply Forall_cons; split; [lia |]). by apply Forall_nil. }
  unfold ico_sizes in Hall at 1.
  destruct frames as [| first frames];
    [exfalso; exact (Forall2_cons_nil_inv _ _ _ Hall) |].
  unfold assemble_ico in Hrun. rewrite (bind_run _ _ _ _ _ Hframes) in Hrun.
  unfold bind at 1 2, Image_save_ico at 1, print at 1 in Hrun.
  exact (unlink_all_gone build_dir ico_sizes _ w1 Hrun).
Qed.

End synthesizer_more.

Lemma string_append_assoc (a b c : string) : (a +:+ b) +:+ c = a +:+ (b +:+ c).
Proof.
  induction a as [| x a IH]; [reflexivity |].
  change (String x ((a +:+ b) +:+ c) = String x (a +:+ (b +:+ c))). by rewrite IH.
Qed.

Section synthesizer_main_more.
Context `{Imaging} `{Platform}.
Import generate_icon.

#[local] Opaque icon_image.

(** What [main] does once the iconset is written and the packaging tool
    has run, whatever its exit status. *)
Lemma main_after_exit (project_root : string) (w w1 : world)
    (rc : Z) (out err : string) (files' : gmap string file) :
  let build_dir := os_path.join project_root "build" in
  let iconset_dir := os_path.join build_dir "icon.iconset" in
  let icns_path := os_path.join build_dir "icon.icns" in
  write_iconset iconset_dir w = (Ret tt, w1) →
  spawn ["iconutil"; "-c"; "icns"; iconset_dir; "-o"; icns_path] (fs w1)
  = Exited rc out err files' →
  ∃ (w' : world) (printed : list line),
    main project_root w = (Ret tt, w')
    ∧ stdout w'
      = stdout w1
        ++ [if rc =? 0 then IcnsSuccess icns_path else IconutilError err]
        ++ [CreatedPath (os_path.join build_dir "icon.png")]
        ++ printed ++ [Complete]
    ∧ (∀ n, n ∈ ico_sizes → fs w' !! temp_path build_dir n = None)
    ∧ (∀ name, (∀ rest, name ≠ String "t" rest) → name ≠ "icon.ico" →
         name ≠ "icon.png" →
         fs w' !! os_path.join build_dir name = files' !! os_path.join build_dir name).
Proof.
  intros build_dir iconset_dir icns_path Hwrite Hspawn.
  rewrite main_unfold. fold build_dir. fold iconset_dir. fold icns_path.
  rewrite (bind_run _ _ _ _ _ Hwrite).
  assert (Hsub : subprocess_run
                   ["iconutil"; "-c"; "icns"; iconset_dir; "-o"; icns_path] false w1
                 = (Ret (Completed rc out err), World files' (stdout w1))).
  { unfold subprocess_run. rewrite Hspawn. reflexivity. }
  rewrite (bind_run _ _ _ _ _ Hsub). cbn [returncode cp_stderr].
  set (reported := if rc =? 0 then IcnsSuccess icns_path else IconutilError err).
  set (wa := World files' (stdout w1 ++ [reported])).
  assert (Hreport : (if rc =? 0 then print (IcnsSuccess icns_path)
                     else print (IconutilError err)) (World files' (stdout w1))
                    = (Ret tt, wa)).
  { subst wa reported. by destruct (rc =? 0). }
  rewrite (bind_run _ _ _ _ _ Hreport).
  destruct (create_arbor_icon_run 512 (os_path.join build_dir "icon.png") wa)
    as (icon512 & _ & _ & Hpng); [lia |].
  rewrite (bind_run _ _ _ _ _ Hpng). clear Hpng.
  set (wb := World (<[os_path.join build_dir "icon.png" := PNG icon512]> (fs wa))
                   (stdout wa ++ [CreatedPath (os_path.join build_dir "icon.png")])).
  destruct (assemble_ico_run build_dir wb)
    as (icon16 & wc & printed & Hasm & _ & _ & Hout & _ & _ & Hkeep).
  pose proof (assemble_ico_cleanup build_dir wb wc Hasm) as Hclean.
  rewrite (bind_run _ _ _ _ _ (try_except_run _ _ _ _ _ _ Hasm)). clear Hasm.
  exists (World (fs wc) (stdout wc ++ [Complete])), printed.
  split; [reflexivity |]. cbn [fs stdout]. split; [| split].
  - rewrite Hout. subst wb wa. cbn [stdout]. rewrite <- !app_assoc. reflexivity.
  - exact Hclean.
  - intros name Ht Hico Hpng. rewrite Hkeep by done. subst wb wa. cbn [fs].
    apply lookup_insert_ne. intros Heq. apply join_inj in Heq. congruence.
Qed.

(** X17. Once the iconset is written and the packaging tool has exited,
    with any status, [main] runs to its end: it reports success for
    status 0 and the tool's error output otherwise; when it returns, not
    one of the six temporary [temp_ico_<size>.png] files exists, also
    those that were there before the run; what else the tool left in the
    build directory, [icon.png] and [icon.ico] apart, is still there. *)
Theorem synthesizer_main_cleans_up (project_root : string) (w w1 : world)
    (rc : Z) (out err : string) (files' : gmap string file) :
  let build_dir := os_path.join project_root "build" in
  let iconset_dir := os_path.join build_dir "icon.iconset" in
  let icns_path := os_path.join build_dir "icon.icns" in
  write_iconset iconset_dir w = (Ret tt, w1) →
  spawn ["iconutil"; "-c"; "icns"; iconset_dir; "-o"; icns_path] (fs w1)
  = Exited rc out err files' →
  ∃ w',
    main project_root w = (Ret tt, w')
    ∧ (rc = 0 → IcnsSuccess icns_path ∈ stdout w')
    ∧ (rc ≠ 0 → IconutilError err ∈ stdout w')
    ∧ last (stdout w') = Some Complete
    ∧ (∀ n, n ∈ ico_sizes → fs w' !! temp_path build_dir n = None)
    ∧ fs w' !! icns_path = files' !! icns_path.
Proof.
  intros build_dir iconset_dir icns_path Hwrite Hspawn.
  destruct (main_after_exit project_root w w1 rc out err files' Hwrite Hspawn)
    as (w' & printed & Hrun & Hout & Hclean & Hkeep).
  fold build_dir in Hout, Hclean, Hkeep. fold icns_path in Hout.
  exists w'. split; [exact Hrun |]. rewrite Hout.
  split; [| split; [| split; [| split]]].
  - intros ->. rewrite elem_of_app. right. apply elem_of_cons. left. reflexivity.
  - intros Hrc. rewrite elem_of_app. right. apply elem_of_cons. left.
    destruct (Z.eqb_spec rc 0) as [Hz | _]; [exfalso; exact (Hrc Hz) | reflexivity].
  - rewrite !app_assoc. apply last_snoc.
  - exact Hclean.
  - apply Hkeep; [intros rest Heq | intros Heq | intros Heq]; discriminate Heq.
Qed.

(** X18. Without a packaging tool that can be started, [main] stops
    right after the iconset: [FileNotFoundError] escapes from the call,
    so neither [icon.png] nor [icon.ico] is written and nothing more is
    printed. *)
Theorem synthesizer_main_without_tool (project_root : string) (w w1 : world) :
  let build_dir := os_path.join project_root "build" in
  let iconset_dir := os_path.join build_dir "icon.iconset" in
  write_iconset iconset_dir w = (Ret tt, w1) →
  spawn ["iconutil"; "-c"; "icns"; iconset_dir; "-o";
         os_path.join build_dir "icon.icns"] (fs w1) = NoSuchProgram →
  main project_root w = (Raise FileNotFoundError, w1)
  ∧ fs w1 !! os_path.join build_dir "icon.png" = fs w !! os_path.join build_dir "icon.png"
  ∧ fs w1 !! os_path.join build_dir "icon.ico" = fs w !! os_path.join build_dir "icon.ico".
Proof.
  intros build_dir iconset_dir Hwrite Hspawn. split.
  - rewrite main_unfold. fold build_dir. fold iconset_dir.
    rewrite (bind_run _ _ _ _ _ Hwrite). apply bind_raise.
    unfold subprocess_run. by rewrite Hspawn.
  - destruct (write_specs_files iconset_dir icon_specs icon_specs_names_NoDup
                icon_specs_range w) as (w1' & Hrun & _ & Hframe & _).
    unfold write_iconset in Hwrite. rewrite Hwrite in Hrun. injection Hrun as <-.
    assert (Hother : ∀ name, (∀ rest, name ≠ "icon.iconset/" +:+ rest) →
              fs w1 !! os_path.join build_dir name = fs w !! os_path.join build_dir name).
    { intros name Hname. apply Hframe. intros [n f] _ Heq. cbn [snd] in Heq.
      unfold iconset_dir, os_path.join in Heq. rewrite string_append_assoc in Heq.
      apply append_inj_r in Heq. injection Heq as Heq. exact (Hname f Heq). }
    split; apply Hother; intros rest Heq; vm_compute in Heq; discriminate Heq.
Qed.

End synthesizer_main_more.

(** The synthesizer's properties at sample inputs. *)
Lemma write_iconset_complete_witness :
  ∃ w1 im,
    generate_icon.write_iconset (H := sample_imaging) "/project/build/icon.iconset"
      empty_world = (Ret tt, w1)
    ∧ fs w1 !! "/project/build/icon.iconset/icon_32x32.png" = Some (PNG im)
    ∧ size im = (32, 32).
Proof.
  destruct (@write_iconset_complete sample_imaging "/project/build/icon.iconset"
              empty_world) as (w1 & Hrun & _ & _ & Hfiles & _).
  destruct (Hfiles 32 "icon_32x32.png") as (im & _ & Hsz & Hfile).
  { unfold generate_icon.icon_specs. rewrite !elem_of_cons. tauto. }
  exists w1, im. split; [exact Hrun | split; [exact Hfile | exact Hsz]].
Defined.

Lemma synthesizer_main_cleans_up_witness :
  ∃ w', generate_icon.main (H := sample_imaging)
          (H0 := {| spawn := fun _ files => Exited 0 "" "" files |}) "/project"
          (sample_world "/project/build/temp_ico_48.png" (white_square 48))
        = (Ret tt, w')
        ∧ fs w' !! "/project/build/temp_ico_48.png" = None.
Proof.
  destruct (@synthesizer_main_cleans_up sample_imaging
              {| spawn := fun _ files => Exited 0 "" "" files |} "/project"
              (sample_world "/project/build/temp_ico_48.png" (white_square 48))
              _ 0 "" "" _
              (write_iconset_run (H := sample_imaging) "/project/build/icon.iconset"
                 (sample_world "/project/build/temp_ico_48.png" (white_square 48)))
              eq_refl)
    as (w' & Hrun & _ & _ & _ & Hclean & _).
  exists w'. split; [exact Hrun |]. apply (Hclean 48).
  unfold generate_icon.ico_sizes. rewrite !elem_of_cons. tauto.
Defined.

Lemma synthesizer_main_without_tool_witness :
  ∃ w1, generate_icon.main (H := sample_imaging)
          (H0 := {| spawn := fun _ _ => NoSuchProgram |}) "/project" empty_world
        = (Raise FileNotFoundError, w1)
        ∧ fs w1 !! os_path.join (os_path.join "/project" "build") "icon.png" = None.
Proof.
  destruct (@synthesizer_main_without_tool sample_imaging
              {| spawn := fun _ _ => NoSuchProgram |} "/project" empty_world _
              (write_iconset_run (H := sample_imaging) "/project/build/icon.iconset"
                 empty_world)
              eq_refl)
    as (Hrun & Hpng & _).
  eexists. split; [exact Hrun |]. rewrite Hpng. apply lookup_empty.
Defined.


(** ** Products that are exact *)

Section exact_products.

(** A shift record with both sticky bits clear whose mantissa is a
    non-negative multiple of [2 ^ k]. *)
Lemma shr_1_clear (r : shr_record) (k : Z) :
  shr_r r = false → shr_s r = false → 0 <= shr_m r →
  1 <= k → (2 ^ k | shr_m r) →
  shr_r (shr_1 r) = false ∧ shr_s (shr_1 r) = false ∧ 0 <= shr_m (shr_1 r)
  ∧ (2 ^ (k - 1) | shr_m (shr_1 r)).
Proof.
  destruct r as [m r s]. cbn [shr_r shr_s shr_m]. intros -> -> Hm Hk [c Hc].
  assert (E : 2 ^ k = 2 * 2 ^ (k - 1)).
  { rewrite <- Z.pow_succ_r by lia. f_equal. lia. }
  assert (Hhalf : m = 2 * (c * 2 ^ (k - 1))) by lia.
  destruct m as [| [p | p |] |]; cbn [shr_1 orb shr_r shr_s shr_m]; try lia.
  - repeat split; try lia. by exists 0.
  - repeat split; try lia. exists c. lia.
Qed.

Lemma iter_shr_1_clear (p : positive) :
  ∀ (r : shr_record) (k : Z),
    shr_r r = false → shr_s r = false → 0 <= shr_m r →
    Z.pos p <= k → (2 ^ k | shr_m r) →
    let r' := SpecFloat.iter_pos shr_1 p r in
    shr_r r' = false ∧ shr_s r' = false ∧ 0 <= shr_m r'
    ∧ (2 ^ (k - Z.pos p) | shr_m r').
Proof.
  induction p as [p IH | p IH |]; intros r k Hr Hs Hm Hk Hdiv; cbn zeta; simpl.
  - destruct (shr_1_clear r k Hr Hs Hm ltac:(lia) Hdiv) as (R1 & S1 & M1 & D1).
    destruct (IH _ (k - 1) R1 S1 M1 ltac:(lia) D1) as (R2 & S2 & M2 & D2).
    destruct (IH _ (k - 1 - Z.pos p) R2 S2 M2 ltac:(lia) D2) as (R3 & S3 & M3 & D3).
    repeat split; try done.
    replace (k - Z.pos p~1) with (k - 1 - Z.pos p - Z.pos p) by lia. done.
  - destruct (IH r k Hr Hs Hm ltac:(lia) Hdiv) as (R1 & S1 & M1 & D1).
    destruct (IH _ (k - Z.pos p) R1 S1 M1 ltac:(lia) D1) as (R2 & S2 & M2 & D2).
    repeat split; try done.
    replace (k - Z.pos p~0) with (k - Z.pos p - Z.pos p) by lia. done.
  - by apply shr_1_clear.
Qed.

(** Rounding a mantissa whose [n] surplus bits are all zero drops them
    and changes nothing else. *)
Lemma binary_round_aux_drops_zeros (s : bool) (m e n : Z) :
  0 < m → Zdigits2 m = Py.prec + n → 0 <= n → (2 ^ n | m) →
  -1074 <= e + n → e + n <= Py.emax - Py.prec →
  binary_round_aux Py.prec Py.emax s m e loc_Exact
  = S754_finite s (Z.to_pos (m / 2 ^ n)) (e + n).
Proof.
  intros Hm Hd Hn Hdiv Helo Hehi.
  pose proof (Zdigits2_bounds m Hm) as Hb. rewrite Hd in Hb.
  assert (Hpn : 0 < 2 ^ n) by (apply Z.pow_pos_nonneg; lia).
  set (q := m / 2 ^ n).
  assert (Hq : 2 ^ 52 <= q < 2 ^ 53).
  { subst q. replace (Py.prec + n - 1) with (52 + n) in Hb by (unfold Py.prec; lia).
    replace (Py.prec + n) with (53 + n) in Hb by (unfold Py.prec; lia).
    rewrite !Z.pow_add_r in Hb by lia. split.
    - apply Z.div_le_lower_bound; lia.
    - apply Z.div_lt_upper_bound; lia. }
  assert (Hshift : ∃ r1, shr (shr_record_of_loc m loc_Exact) e n = (r1, e + n)
                         ∧ shr_m r1 = q ∧ loc_of_shr_record r1 = loc_Exact).
  { destruct n as [| p | p]; [| | lia].
    - exists (shr_record_of_loc m loc_Exact). cbn [shr]. split; [f_equal; lia |].
      split; [| reflexivity]. subst q. cbn [shr_record_of_loc shr_m].
      by rewrite Z.div_1_r.
    - exists (SpecFloat.iter_pos shr_1 p (shr_record_of_loc m loc_Exact)).
      split; [reflexivity |].
      destruct (iter_shr_1_m p (shr_record_of_loc m loc_Exact)) as [Em _];
        [cbn; lia |].
      destruct (iter_shr_1_clear p (shr_record_of_loc m loc_Exact) (Z.pos p))
        as (R & S & _); [done | done | cbn; lia | lia | exact Hdiv |].
      split; [exact Em |].
      destruct (SpecFloat.iter_pos shr_1 p _) as [m1 r1 s1]. cbn in R, S.
      by subst r1 s1. }
  destruct Hshift as (r1 & Hshr & Hm1 & Hloc).
  unfold binary_round_aux.
  rewrite (shr_fexp_spec m e loc_Exact n) by done. rewrite Hshr, Hloc, Hm1.
  cbn [round_nearest_even].
  rewrite (shr_fexp_spec q (e + n) loc_Exact 0); try lia.
  2:{ apply Zdigits2_unique; [lia |]. unfold Py.prec. simpl. lia. }
  cbn [shr]. destruct q as [| q | q]; try lia.
  cbn [shr_record_of_loc shr_m Z.to_pos].
  destruct (Z.leb_spec (e + n) (Py.emax - Py.prec)); [reflexivity | lia].
Qed.

(** The product of two doubles is exact when the product of the
    mantissas ends in at least 53 zero bits. *)
Lemma fmul_exact (sx : bool) (mx : positive) (ex : Z) (sy : bool) (my : positive)
    (ey : Z) :
  Zdigits2 (Z.pos mx) = Py.prec → Zdigits2 (Z.pos my) = Py.prec →
  (2 ^ 53 | Z.pos mx * Z.pos my) →
  -1074 <= ex + ey + 52 → ex + ey + 53 <= Py.emax - Py.prec →
  ∃ n, 52 <= n <= 53
    ∧ Py.fmul (S754_finite sx mx ex) (S754_finite sy my ey)
      = S754_finite (xorb sx sy) (Z.to_pos ((Z.pos mx * Z.pos my) / 2 ^ n))
                    (ex + ey + n)
    ∧ 0 < (Z.pos mx * Z.pos my) / 2 ^ n
    ∧ (2 ^ n | Z.pos mx * Z.pos my).
Proof.
  intros Hdx Hdy Hdiv Hlo Hhi. set (P := Z.pos mx * Z.pos my) in *.
  pose proof (Zdigits2_bounds (Z.pos mx) eq_refl) as Hbx. rewrite Hdx in Hbx.
  pose proof (Zdigits2_bounds (Z.pos my) eq_refl) as Hby. rewrite Hdy in Hby.
  change (Py.prec - 1) with 52 in *. change Py.prec with 53 in *.
  assert (HP : 2 ^ 104 <= P < 2 ^ 106).
  { change (2 ^ 104) with (2 ^ 52 * 2 ^ 52). change (2 ^ 106) with (2 ^ 53 * 2 ^ 53).
    subst P. nia. }
  assert (Hn : 52 <= Zdigits2 P - 53 <= 53).
  { pose proof (Zdigits2_bounds P ltac:(lia)) as Hb.
    destruct (Z.le_gt_cases (Zdigits2 P) 104).
    { assert (2 ^ Zdigits2 P <= 2 ^ 104) by (apply Z.pow_le_mono_r; lia). lia. }
    destruct (Z.le_gt_cases 107 (Zdigits2 P)).
    { assert (2 ^ 106 <= 2 ^ (Zdigits2 P - 1)) by (apply Z.pow_le_mono_r; lia). lia. }
    lia. }
  set (n := Zdigits2 P - 53) in *.
  assert (Hdivn : (2 ^ n | P)).
  { destruct Hdiv as [c Hc]. exists (c * 2 ^ (53 - n)).
    rewrite <- Z.mul_assoc, <- Z.pow_add_r by lia.
    replace (53 - n + n) with 53 by lia. exact Hc. }
  exists n. split; [done |]. split; [| split; [| done]].
  - unfold Py.fmul, SFmul. rewrite Pos2Z.inj_mul. fold P.
    apply binary_round_aux_drops_zeros; unfold Py.prec, Py.emax in *; try lia.
    done.
  - apply Z.div_str_pos. split; [apply Z.pow_pos_nonneg; lia |].
    assert (2 ^ n <= 2 ^ 53) by (apply Z.pow_le_mono_r; lia).
    assert (2 ^ 53 <= 2 ^ 104) by (apply Z.pow_le_mono_r; lia). lia.
Qed.

End exact_products.

(** ** The icon synthesizer: coordinates in closed form *)

Section closed_forms.
Import generate_icon.

Lemma holds_exactly_spec (x : Py.float) (num shift : Z) :
  holds_exactly x num shift = true →
  ∃ m e, x = S754_finite false m e ∧ Zdigits2 (Z.pos m) = Py.prec
         ∧ -80 <= e <= - shift ∧ Z.pos m = num * 2 ^ (- e - shift).
Proof.
  destruct x as [| | | [] m e]; try discriminate. unfold holds_exactly.
  rewrite !andb_true_iff, !Z.eqb_eq, !Z.leb_le. intros [[[Hd Hlo] Hhi] Hm].
  exists m, e. unfold Py.prec. auto.
Qed.

(** Truncating the product of two doubles that hold [a / 2 ^ sa] and
    [b / 2 ^ sb], for small [a] and [b]: the product is exact, so the
    result is the integer quotient. *)
Lemma int_of_fmul_exact (x y : Py.float) (a sa b sb : Z) :
  holds_exactly x a sa = true → holds_exactly y b sb = true →
  0 < a < 2 ^ 26 → 0 < b < 2 ^ 26 → 0 <= sa → 0 <= sb →
  Py.int_of_float (Py.fmul x y) = Ret ((a * b) `div` 2 ^ (sa + sb)).
Proof.
  intros Hx Hy Ha Hb Hsa Hsb.
  apply holds_exactly_spec in Hx as (mx & ex & -> & Hdx & Hex & Hmx).
  apply holds_exactly_spec in Hy as (my & ey & -> & Hdy & Hey & Hmy).
  pose proof (Zdigits2_bounds (Z.pos mx) eq_refl) as Hbx. rewrite Hdx in Hbx.
  pose proof (Zdigits2_bounds (Z.pos my) eq_refl) as Hby. rewrite Hdy in Hby.
  change (Py.prec - 1) with 52 in *. change (2 ^ Py.prec) with (2 ^ 53) in *.
  set (kx := - ex - sa) in *. set (ky := - ey - sb) in *.
  assert (Hkx : 27 <= kx).
  { destruct (Z.le_gt_cases 27 kx); [done |]. exfalso.
    assert (2 ^ kx <= 2 ^ 26) by (apply Z.pow_le_mono_r; lia).
    assert (0 < 2 ^ kx) by (apply Z.pow_pos_nonneg; lia).
    change (2 ^ 52) with (2 ^ 26 * 2 ^ 26) in Hbx. nia. }
  assert (Hky : 27 <= ky).
  { destruct (Z.le_gt_cases 27 ky); [done |]. exfalso.
    assert (2 ^ ky <= 2 ^ 26) by (apply Z.pow_le_mono_r; lia).
    assert (0 < 2 ^ ky) by (apply Z.pow_pos_nonneg; lia).
    change (2 ^ 52) with (2 ^ 26 * 2 ^ 26) in Hby. nia. }
  assert (HP : Z.pos mx * Z.pos my = a * b * 2 ^ (kx + ky)).
  { rewrite Hmx, Hmy, Z.pow_add_r by lia. ring. }
  destruct (fmul_exact false mx ex false my ey Hdx Hdy)
    as (n & Hn & Hmul & Hpos & Hdivn).
  { rewrite HP. exists (a * b * 2 ^ (kx + ky - 53)).
    assert (E53 : 2 ^ (kx + ky) = 2 ^ (kx + ky - 53) * 2 ^ 53)
      by (rewrite <- Z.pow_add_r by lia; f_equal; lia).
    rewrite E53. ring. }
  { lia. }
  { unfold Py.emax, Py.prec. lia. }
  rewrite Hmul. cbn [xorb]. unfold Py.int_of_float.
  destruct (Z.leb_spec 0 (ex + ey + n)); [lia |].
  f_equal. rewrite Z2Pos.id by done.
  rewrite Z.div_div by (try apply Z.pow_pos_nonneg; lia).
  rewrite <- Z.pow_add_r by lia.
  replace (n + - (ex + ey + n)) with (sa + sb + (kx + ky)) by lia.
  rewrite HP, (Z.pow_add_r 2 (sa + sb) (kx + ky)) by lia.
  apply Z.div_mul_cancel_r; apply Z.pow_nonzero; lia.
Qed.

Lemma centered_exact_all (val : Z) : 0 <= val <= 512 → centered_exact val = true.
Proof.
  intros Hval.
  assert (Hall : forallb centered_exact (seqZ 0 513) = true) by (vm_compute; reflexivity).
  rewrite forallb_forall in Hall. apply Hall.
  apply list_elem_of_In, elem_of_seqZ. lia.
Qed.

Lemma width_exact_all (val : Z) : 1 <= val <= 512 → width_exact val = true.
Proof.
  intros Hval.
  assert (Hall : forallb width_exact (seqZ 1 512) = true) by (vm_compute; reflexivity).
  rewrite forallb_forall in Hall. apply Hall.
  apply list_elem_of_In, elem_of_seqZ. lia.
Qed.

Lemma scale_exact_all (size_ : Z) : 16 <= size_ <= 1024 → scale_exact size_ = true.
Proof.
  intros Hsize.
  assert (Hall : forallb scale_exact (seqZ 16 1009) = true) by (vm_compute; reflexivity).
  rewrite forallb_forall in Hall. apply Hall.
  apply list_elem_of_In, elem_of_seqZ. lia.
Qed.

Lemma radius_floor_all (size_ : Z) : 16 <= size_ <= 1024 → radius_floor size_ = true.
Proof.
  intros Hsize.
  assert (Hall : forallb radius_floor (seqZ 16 1009) = true) by (vm_compute; reflexivity).
  rewrite forallb_forall in Hall. apply Hall.
  apply list_elem_of_In, elem_of_seqZ. lia.
Qed.

(** X19. The coordinate scaling [s] in integers. For every supported
    size and every design coordinate from 0 to 512 the two float
    products of [s] are exact, so [s(val)] is the integer quotient
    [(3 val + 256) size // 2048]; it lies between one eighth and seven
    eighths of the size, so every design coordinate lands strictly
    inside the canvas; the quotient is monotone in the coordinate; and
    the design centre 256 goes to [size // 2]. *)
Theorem s_closed_form (size_ : Z) :
  16 <= size_ <= 1024 →
  ∃ scale,
    Py.int_truediv size_ 512 = Ret scale
    ∧ (∀ val, 0 <= val <= 512 →
         s scale val = Ret (((3 * val + 256) * size_) `div` 2048)
         ∧ size_ `div` 8 <= ((3 * val + 256) * size_) `div` 2048 <= (7 * size_) `div` 8
         ∧ 0 < ((3 * val + 256) * size_) `div` 2048 < size_ - 1)
    ∧ (∀ val val', val <= val' →
         ((3 * val + 256) * size_) `div` 2048 <= ((3 * val' + 256) * size_) `div` 2048)
    ∧ s scale 256 = Ret (size_ `div` 2).
Proof.
  intros Hsize. pose proof (scale_exact_all size_ Hsize) as Hscale.
  unfold scale_exact in Hscale.
  destruct (Py.int_truediv size_ 512) as [scale |]; [| discriminate].
  exists scale. split; [reflexivity |].
  assert (Hs : ∀ val, 0 <= val <= 512 →
            s scale val = Ret (((3 * val + 256) * size_) `div` 2048)).
  { intros val Hval. pose proof (centered_exact_all val Hval) as Hc.
    unfold centered_exact in Hc. destruct (centered val) as [c |] eqn:Ec; [| discriminate].
    rewrite (s_unfold scale val c Ec).
    rewrite (int_of_fmul_exact c scale (3 * val + 256) 2 size_ 9) by (try done; lia).
    reflexivity. }
  split; [| split].
  - intros val Hval. split; [by apply Hs |].
    assert (Hlo : size_ `div` 8 <= ((3 * val + 256) * size_) `div` 2048).
    { replace (size_ `div` 8) with ((256 * size_) `div` 2048).
      - apply Z.div_le_mono; nia.
      - replace (256 * size_) with (size_ * 256) by lia.
        change 2048 with (8 * 256). apply Z.div_mul_cancel_r; lia. }
    assert (Hhi : ((3 * val + 256) * size_) `div` 2048 <= (7 * size_) `div` 8).
    { replace ((7 * size_) `div` 8) with ((1792 * size_) `div` 2048).
      - apply Z.div_le_mono; nia.
      - replace (1792 * size_) with (7 * size_ * 256) by lia.
        change 2048 with (8 * 256). apply Z.div_mul_cancel_r; lia. }
    split; [done |].
    assert (2 <= size_ `div` 8) by (apply Z.div_le_lower_bound; lia).
    assert ((7 * size_) `div` 8 < size_ - 1) by (apply Z.div_lt_upper_bound; lia).
    lia.
  - intros val val' Hle. apply Z.div_le_mono; nia.
  - rewrite Hs by lia. f_equal.
    replace ((3 * 256 + 256) * size_) with (size_ * 1024) by lia.
    change 2048 with (2 * 1024). apply Z.div_mul_cancel_r; lia.
Qed.

(** X20. The width scaling [sw] in integers: for every supported size
    and every design width from 1 to 512, [sw(val)] is
    [max(1, 3 val size // 2048)], so it is never below one pixel, and at
    the design size 512 it is three quarters of the width, rounded
    down. *)
Theorem sw_closed_form (size_ : Z) :
  16 <= size_ <= 1024 →
  ∃ scale,
    Py.int_truediv size_ 512 = Ret scale
    ∧ (∀ val, 1 <= val <= 512 →
         sw scale val = Ret (Z.max 1 ((3 * val * size_) `div` 2048))
         ∧ 1 <= Z.max 1 ((3 * val * size_) `div` 2048))
    ∧ (size_ = 512 → ∀ val, 2 <= val <= 512 →
         sw scale val = Ret ((3 * val) `div` 4)).
Proof.
  intros Hsize. pose proof (scale_exact_all size_ Hsize) as Hscale.
  unfold scale_exact in Hscale.
  destruct (Py.int_truediv size_ 512) as [scale |]; [| discriminate].
  exists scale. split; [reflexivity |].
  assert (Hsw : ∀ val, 1 <= val <= 512 →
            sw scale val = Ret (Z.max 1 ((3 * val * size_) `div` 2048))).
  { intros val Hval. pose proof (width_exact_all val Hval) as Hw.
    unfold width_exact in Hw. unfold sw.
    destruct (Py.int_mul_float val f0_75) as [a |]; [| discriminate].
    cbn [res_bind].
    rewrite (int_of_fmul_exact a scale (3 * val) 2 size_ 9) by (try done; lia).
    reflexivity. }
  split.
  - intros val Hval. split; [by apply Hsw | lia].
  - intros -> val Hval. rewrite Hsw by lia. f_equal.
    replace (3 * val * 512) with (3 * val * 512) by lia.
    change 2048 with (4 * 512). rewrite Z.div_mul_cancel_r by lia.
    assert (1 <= (3 * val) `div` 4) by (apply Z.div_le_lower_bound; lia). lia.
Qed.

(** X21. The corner radius. For every supported size
    [int(size * 0.22)] is the floor of [22 size / 100], although 0.22 is
    not a double; the radius is positive and at most a quarter of the
    size, and the box [(0, 0), (size - 1, size - 1)] is one that
    [rounded_rectangle] accepts, so the mask is always drawn. *)
Theorem corner_radius_closed_form `{Imaging} (size_ : Z) (mask : raster Z) :
  16 <= size_ <= 1024 →
  corner_radius size_ = Ret ((22 * size_) `div` 100)
  ∧ 3 <= (22 * size_) `div` 100 ∧ 4 * ((22 * size_) `div` 100) <= size_
  ∧ ImageDraw.rounded_rectangle mask ((0, 0), (size_ - 1, size_ - 1))
      ((22 * size_) `div` 100) 255
    = Ret (Raster (width mask) (height mask)
             (draw_rounded_rectangle mask ((0, 0), (size_ - 1, size_ - 1))
                ((22 * size_) `div` 100) 255)).
Proof.
  intros Hsize. pose proof (radius_floor_all size_ Hsize) as Hr.
  unfold radius_floor in Hr.
  destruct (corner_radius size_) as [r |]; [| discriminate].
  apply Z.eqb_eq in Hr. subst r. split; [reflexivity |].
  split; [apply Z.div_le_lower_bound; lia |].
  split.
  - pose proof (Z.mul_div_le (22 * size_) 100 ltac:(lia)). lia.
  - unfold ImageDraw.rounded_rectangle, ImageDraw.ordered_box.
    destruct (Z.leb_spec 0 (size_ - 1)); [reflexivity | lia].
Qed.

End closed_forms.

(** The closed forms at sample sizes. *)
Lemma s_closed_form_witness :
  ∃ scale, Py.int_truediv 128 512 = Ret scale ∧ generate_icon.s scale 480 = Ret 106.
Proof.
  destruct (s_closed_form 128) as (scale & Hscale & Hs & _); [lia |].
  exists scale. split; [exact Hscale |].
  destruct (Hs 480) as [Hval _]; [lia |]. exact Hval.
Defined.

Lemma sw_closed_form_witness :
  ∃ scale, Py.int_truediv 16 512 = Ret scale ∧ generate_icon.sw scale 8 = Ret 1.
Proof.
  destruct (sw_closed_form 16) as (scale & Hscale & Hsw & _); [lia |].
  exists scale. split; [exact Hscale |].
  destruct (Hsw 8) as [Hval _]; [lia |]. exact Hval.
Defined.

Lemma corner_radius_closed_form_witness : corner_radius 512 = Ret 112.
Proof.
  destruct (@corner_radius_closed_form sample_imaging 512 (Raster 512 512 (fun _ _ => 0)))
    as (Hr & _); [lia |].
  exact Hr.
Defined.


(** ** The icon synthesizer: rotated ellipses *)

Section rotated_ellipses.
Context `{Imaging}.
Import generate_icon.

Lemma map_res_length {A B} (f : A → res B) (xs : list A) (ys : list B) :
  map_res f xs = Ret ys → length ys = length xs.
Proof.
  revert ys. induction xs as [| x xs IH]; intros ys; cbn [map_res].
  - by intros [= <-].
  - destruct (f x) as [y |]; [| discriminate]. cbn [res_bind].
    destruct (map_res f xs) as [ys' |]; [| discriminate]. cbn [res_bind].
    intros [= <-]. cbn [length]. by rewrite (IH ys').
Qed.

Lemma map_res_Forall {A B} (f : A → res B) (P : B → Prop) (xs : list A) (ys : list B) :
  (∀ x y, x ∈ xs → f x = Ret y → P y) → map_res f xs = Ret ys → Forall P ys.
Proof.
  revert ys. induction xs as [| x xs IH]; intros ys HP; cbn [map_res].
  - intros [= <-]. by apply Forall_nil.
  - destruct (f x) as [y |] eqn:Ey; [| discriminate]. cbn [res_bind].
    destruct (map_res f xs) as [ys' |]; [| discriminate]. cbn [res_bind].
    intros [= <-]. apply Forall_cons. split.
    + apply (HP x y); [apply elem_of_cons; by left | done].
    + apply IH; [| done]. intros x' y' Hx'. apply HP. apply elem_of_cons. by right.
Qed.

Lemma ellipse_point_floats (cx cy rx ry angle i : Z) (p : coord * coord) :
  ellipse_point cx cy rx ry angle i = Ret p → ∃ x y, p = (CFloat x, CFloat y).
Proof.
  unfold ellipse_point.
  repeat (match goal with
          | |- res_bind ?m _ = _ → _ => destruct m; [cbn [res_bind] | discriminate]
          end; cbv zeta).
  intros [= <-]. by eexists _, _.
Qed.

Lemma float_of_int_overflow : Py.float_of_int (2 ^ 1024) = Raise OverflowError.
Proof. vm_compute. reflexivity. Qed.

(** X22. [draw_ellipse_rotated] with int arguments of magnitude below
    2^53 always returns: it draws one polygon of exactly 36 vertices,
    all with float coordinates, and leaves the size of the image as it
    is. An int too large for a double is not caught: a radius of 2^1024
    raises [OverflowError] at the first vertex. *)
Theorem draw_ellipse_rotated_polygon (draw : image) (cx cy rx ry angle : Z)
    (fill : pixel) :
  (- 2 ^ 53 < cx < 2 ^ 53 → - 2 ^ 53 < cy < 2 ^ 53 →
   - 2 ^ 53 < rx < 2 ^ 53 → - 2 ^ 53 < ry < 2 ^ 53 →
   - 2 ^ 53 < angle < 2 ^ 53 →
   ∃ pts,
     draw_ellipse_rotated draw (cx, cy) rx ry angle fill
     = Ret (ImageDraw.polygon draw pts fill)
     ∧ length pts = 36%nat
     ∧ Forall (fun p => ∃ x y, p = (CFloat x, CFloat y)) pts
     ∧ size (ImageDraw.polygon draw pts fill) = size draw)
  ∧ draw_ellipse_rotated draw (cx, cy) (2 ^ 1024) ry angle fill = Raise OverflowError.
Proof.
  split.
  - intros Hcx Hcy Hrx Hry Hangle. unfold draw_ellipse_rotated.
    assert (Hret : returns (map_res (ellipse_point cx cy rx ry angle) (seqZ 0 36))
                           (fun _ => True)).
    { apply returns_map_res. apply Forall_forall. intros i Hi.
      apply elem_of_seqZ in Hi. apply ellipse_point_returns; lia. }
    destruct Hret as (pts & Hpts & _).
    exists pts. rewrite Hpts. cbn [res_bind]. split; [reflexivity |].
    split; [| split; [| reflexivity]].
    + by rewrite (map_res_length _ _ _ Hpts).
    + apply (map_res_Forall _ _ _ _ (fun i p _ => ellipse_point_floats _ _ _ _ _ i p) Hpts).
  - unfold draw_ellipse_rotated.
    assert (Hfirst : ellipse_point cx cy (2 ^ 1024) ry angle 0 = Raise OverflowError).
    { unfold ellipse_point.
      assert (H2pi : ∃ two_pi, Py.int_mul_float 2 math_pi = Ret two_pi)
        by (eexists; vm_compute; reflexivity).
      destruct H2pi as [two_pi ->].
      assert (H0 : ∃ f0, Py.float_of_int 0 = Ret f0) by (eexists; vm_compute; reflexivity).
      destruct H0 as [f0 ->].
      assert (H36 : ∃ f36, Py.float_of_int 36 = Ret f36)
        by (eexists; vm_compute; reflexivity).
      destruct H36 as [f36 ->].
      cbn [res_bind]. cbv zeta. unfold Py.int_mul_float at 1.
      rewrite float_of_int_overflow. reflexivity. }
    change (seqZ 0 36) with (0 :: seqZ 1 35). cbn [map_res]. rewrite Hfirst. reflexivity.
Qed.

End rotated_ellipses.

Lemma draw_ellipse_rotated_polygon_witness :
  ∃ pts, generate_icon.draw_ellipse_rotated (H := sample_imaging) (white_square 64)
           (20, 44) 3 2 (-30) generate_icon.white
         = Ret (ImageDraw.polygon (H := sample_imaging) (white_square 64) pts
                  generate_icon.white)
         ∧ length pts = 36%nat.
Proof.
  destruct (@draw_ellipse_rotated_polygon sample_imaging (white_square 64)
              20 44 3 2 (-30) generate_icon.white) as [Hdraw _].
  destruct Hdraw as (pts & Hrun & Hlen & _); try lia.
  exists pts. split; [exact Hrun | exact Hlen].
Defined.


(** ** The theme recolorer: recolouring again *)

Section recolor_again.
Import generate_themed_icons.

Lemma is_white_rgb (r g b a a' : Z) : is_white (RGBA r g b a) = is_white (RGBA r g b a').
Proof. reflexivity. Qed.

Lemma recolor_pixel_twice (first second : Z * Z * Z) (p : pixel) :
  is_white (RGBA first.1.1 first.1.2 first.2 255) = false →
  recolor_pixel second (recolor_pixel first p) = recolor_pixel second p.
Proof.
  destruct first as [[r g] b]. cbn [fst snd]. intros Hfirst.
  destruct (is_background p) eqn:Hb.
  - rewrite (recolor_pixel_background r g b p Hb).
    destruct second as [[r2 g2] b2].
    apply is_background_spec in Hb as [Hw Ht].
    rewrite (recolor_pixel_background r2 g2 b2 (RGBA r g b (alpha p))).
    + cbn [alpha]. symmetry. apply recolor_pixel_background.
      apply is_background_spec. by split.
    + apply is_background_spec. split; [| exact Ht].
      by rewrite (is_white_rgb r g b (alpha p) 255).
  - by rewrite (recolor_pixel_kept (r, g, b) p Hb).
Qed.

Lemma recolor_pixel_idempotent (new : Z * Z * Z) (p : pixel) :
  recolor_pixel new (recolor_pixel new p) = recolor_pixel new p.
Proof.
  destruct (is_white (RGBA new.1.1 new.1.2 new.2 255)) eqn:Hnew.
  - destruct new as [[r g] b]. cbn [fst snd] in Hnew.
    destruct (is_background p) eqn:Hb.
    + rewrite (recolor_pixel_background r g b p Hb).
      apply recolor_pixel_kept. unfold is_background.
      by rewrite (is_white_rgb r g b (alpha p) 255), Hnew.
    + by rewrite !(recolor_pixel_kept (r, g, b) p Hb).
  - by apply recolor_pixel_twice.
Qed.

(** X23. Recolouring what was recoloured. Recolouring with one colour
    twice is the same as once. When the first colour is not near-white
    (not all three channels above 200), recolouring the result with a
    second colour gives, pixel for pixel, what recolouring the original
    with the second colour gives: a themed icon can be re-themed without
    going back to the base icon. No colour of the theme table is
    near-white. *)
Theorem recolor_twice (img : image) (first second : Z * Z * Z) :
  (∀ x y, getpixel (recolored (recolored img first) first) x y
          = getpixel (recolored img first) x y)
  ∧ (is_white (RGBA first.1.1 first.1.2 first.2 255) = false →
     ∀ x y, getpixel (recolored (recolored img first) second) x y
            = getpixel (recolored img second) x y)
  ∧ size (recolored (recolored img first) second) = size img
  ∧ (∀ theme_name theme_color, (theme_name, theme_color) ∈ THEMES →
       ∃ rgb, hex_to_rgb theme_color = Ret rgb
              ∧ is_white (RGBA rgb.1.1 rgb.1.2 rgb.2 255) = false).
Proof.
  split; [| split; [| split]].
  - intros x y. cbn [recolored getpixel]. apply recolor_pixel_idempotent.
  - intros Hfirst x y. cbn [recolored getpixel]. by apply recolor_pixel_twice.
  - reflexivity.
  - intros theme_name theme_color Hin.
    unfold THEMES in Hin. rewrite !elem_of_cons, elem_of_nil in Hin.
    repeat (destruct Hin as [[= -> ->] | Hin];
            [eexists; split; vm_compute; reflexivity |]).
    done.
Qed.

End recolor_again.

Lemma recolor_twice_witness :
  getpixel (generate_themed_icons.recolored
              (generate_themed_icons.recolored (Raster 4 4 (fun _ _ => RGBA 9 9 9 255))
                 (88, 101, 242)) (255, 107, 53)) 1 2
  = RGBA 255 107 53 255.
Proof.
  destruct (recolor_twice (Raster 4 4 (fun _ _ => RGBA 9 9 9 255))
              (88, 101, 242) (255, 107, 53)) as (_ & Hagain & _).
  rewrite Hagain; reflexivity.
Defined.


(** ** The padding normalizer: the content size in integers, and a file
    that cannot be read *)

Section padding_numbers.
Context `{Imaging}.
Import add_icon_padding add_icon_padding_main.

Lemma content_floor_all (S : Z) : 0 <= S <= 2048 → content_floor S = true.
Proof.
  intros HS.
  assert (Hall : forallb content_floor (seqZ 0 2049) = true) by (vm_compute; reflexivity).
  rewrite forallb_forall in Hall. apply Hall.
  apply list_elem_of_In, elem_of_seqZ. lia.
Qed.

(** X24. The content size in integers. For every canvas size up to 2048
    [int(canvas_size * 0.84)] is the floor of [84 canvas_size / 100],
    although 0.84 is not a double. So for a canvas of at least two pixels
    there is always some padding; the left and top margin is
    [(S - c) // 2], at least the floor of 8 percent of the canvas; the
    right and bottom margin is the same or one pixel more. *)
Theorem content_size_closed_form (S : Z) :
  0 <= S <= 2048 →
  let c := (84 * S) `div` 100 in
  let margin := (S - c) `div` 2 in
  content_size S = Ret c
  ∧ (2 <= S → 1 <= c < S)
  ∧ (8 * S) `div` 100 <= margin
  ∧ margin <= S - c - margin <= margin + 1
  ∧ (∀ img, 2 <= S →
       padded img S = Ret (padded_image img S c)
       ∧ ∀ x y, ¬ (margin <= x < S - (S - c - margin) ∧ margin <= y < S - (S - c - margin)) →
                getpixel (padded_image img S c) x y = transparent).
Proof.
  intros HS c margin. pose proof (content_floor_all S HS) as Hfloor.
  unfold content_floor in Hfloor.
  destruct (content_size S) as [c' |] eqn:Hc; [| discriminate].
  apply Z.eqb_eq in Hfloor. fold c in Hfloor. subst c'.
  assert (Hcq : 100 * c <= 84 * S < 100 * c + 100).
  { subst c. pose proof (Z.div_mod (84 * S) 100 ltac:(lia)).
    pose proof (Z.mod_pos_bound (84 * S) 100 ltac:(lia)). lia. }
  assert (Hmq : 2 * margin <= S - c < 2 * margin + 2).
  { subst margin. pose proof (Z.div_mod (S - c) 2 ltac:(lia)).
    pose proof (Z.mod_pos_bound (S - c) 2 ltac:(lia)). lia. }
  assert (Hq : 100 * ((8 * S) `div` 100) <= 8 * S).
  { apply Z.mul_div_le. lia. }
  assert (Hmeq : (S - c) `div` 2 = margin) by reflexivity.
  clearbody margin. clearbody c.
  split; [reflexivity |]. split; [lia |]. split; [lia |]. split; [lia |].
  intros img HS2.
  destruct (padded_returns img S) as (c' & Hc' & _ & Hpad); [rewrite INT_MAX_eq; lia |].
  rewrite Hc in Hc'. injection Hc' as <-. split; [exact Hpad |].
  intros x y Hout. apply padded_image_outside; [lia |].
  rewrite Hmeq. intros [Hx Hy]. apply Hout. lia.
Qed.

(** X25. An icon file that exists but cannot be decoded stops the loop
    of [main]: the decoder's exception escapes at that entry; the icons
    before it in the table are already padded in place, the file itself
    and the icons after it are as they were. *)
Theorem pad_icons_stops_at_unreadable (pre post : list (string * Z))
    (f : string) (n : Z) (c : file) (w : world) :
  ICON_SIZES = pre ++ (f, n) :: post →
  (∀ e, e ∈ pre →
     fs w !! os_path.join ICONSET_DIR e.1 = None
     ∨ ∃ img, fs w !! os_path.join ICONSET_DIR e.1 = Some (PNG img)) →
  fs w !! os_path.join ICONSET_DIR f = Some c → (∀ img, c ≠ PNG img) →
  ∃ w1,
    pad_icons w = (Raise UnidentifiedImageError, w1)
    ∧ length (stdout w1) = (length (stdout w) + length pre)%nat
    ∧ (∀ e, e ∈ (f, n) :: post →
         fs w1 !! os_path.join ICONSET_DIR e.1 = fs w !! os_path.join ICONSET_DIR e.1)
    ∧ (∀ g m img, (g, m) ∈ pre →
         fs w !! os_path.join ICONSET_DIR g = Some (PNG img) →
         ∃ c', content_size m = Ret c'
           ∧ fs w1 !! os_path.join ICONSET_DIR g = Some (PNG (padded_image img m c'))).
Proof.
  intros Hsplit Hpre Hf Hc.
  pose proof required_names_NoDup as Hnd.
  change (NoDup (ICON_SIZES.*1)) in Hnd. rewrite Hsplit in Hnd.
  rewrite fmap_app in Hnd. apply NoDup_app in Hnd as (Hnd_pre & Hdisj & _).
  assert (Hrange : Forall (fun e : string * Z => 2 <= e.2 <= PIL.INT_MAX) pre).
  { assert (Hall : Forall (fun e : string * Z => 2 <= e.2 <= PIL.INT_MAX) ICON_SIZES).
    { unfold ICON_SIZES. rewrite INT_MAX_eq.
      repeat (apply Forall_cons; split; [cbn; lia |]). by apply Forall_nil. }
    rewrite Hsplit in Hall. by apply Forall_app in Hall as [Hall _]. }
  destruct (pad_entries_run pre Hnd_pre Hrange w Hpre)
    as (w1 & Hrun & Hlen & Hframe & Hout).
  assert (Hkept : ∀ e, e ∈ (f, n) :: post →
            fs w1 !! os_path.join ICONSET_DIR e.1 = fs w !! os_path.join ICONSET_DIR e.1).
  { intros e He. apply Hframe. intros e' He' Heq. apply join_inj in Heq.
    apply (Hdisj e'.1).
    - apply list_elem_of_fmap. by exists e'.
    - rewrite <- Heq. apply list_elem_of_fmap. by exists e. }
  exists w1. split; [| split; [exact Hlen | split; [exact Hkept |]]].
  - unfold pad_icons. rewrite Hsplit, for_each_app.
    rewrite (bind_run _ _ _ _ _ Hrun). cbn [for_each]. apply bind_raise.
    unfold pad_entry. rewrite (bind_run _ _ _ _ _ (exists_run _ w1)).
    assert (Hf1 : fs w1 !! os_path.join ICONSET_DIR f = Some c).
    { rewrite <- Hf. apply (Hkept (f, n)). apply elem_of_cons. by left. }
    rewrite Hf1. rewrite bool_decide_true by (by eexists).
    apply bind_raise. unfold add_padding_to_icon. apply bind_raise.
    unfold Image_open. rewrite Hf1.
    destruct c as [img | im sizes |]; [by destruct (Hc img) | reflexivity | reflexivity].
  - intros g m img Hin Hg. specialize (Hout g m Hin). rewrite Hg in Hout. exact Hout.
Qed.

End padding_numbers.

Lemma content_size_closed_form_witness :
  add_icon_padding.content_size 1024 = Ret 860.
Proof.
  destruct (@content_size_closed_form sample_imaging 1024) as (Hc & _); [lia |].
  exact Hc.
Defined.

Lemma pad_icons_stops_at_unreadable_witness :
  ∃ w1, add_icon_padding_main.pad_icons (H := sample_imaging)
          (World {[ os_path.join add_icon_padding.ICONSET_DIR "icon_16x16.png" := Data ]} [])
        = (Raise UnidentifiedImageError, w1).
Proof.
  destruct (@pad_icons_stops_at_unreadable sample_imaging []
              (List.tl add_icon_padding.ICON_SIZES) "icon_16x16.png" 16 Data
              (World {[ os_path.join add_icon_padding.ICONSET_DIR "icon_16x16.png"
                        := Data ]} []))
    as (w1 & Hrun & _).
  - reflexivity.
  - intros e He. by apply elem_of_nil in He.
  - apply lookup_singleton_eq.
  - discriminate.
  - exists w1. exact Hrun.
Defined.


(** ** A packaging tool that cannot be started *)

(** C6, counterexample. A tool that cannot be started is a failing
    invocation too, and neither script contains it. On the platform
    without the tool, starting from no files:

    the theme recolorer's [main] raises [FileNotFoundError]; the only
    theme it has announced is the first one, so the sibling iterations
    did not run;

    the icon synthesizer's [main] raises [FileNotFoundError]; neither
    [icon.png] nor [icon.ico] exists afterwards and the closing line is
    not printed. *)
Lemma iconutil_absence_is_not_contained :
  (∃ w1, generate_themed_icons.main (H := absent_platform) empty_world
         = (Raise FileNotFoundError, w1)
         ∧ (∀ theme_name theme_color,
              ThemeHeader theme_name theme_color ∈ stdout w1 → theme_name = "midnight"))
  ∧ (∃ w1, generate_icon.main (H := sample_imaging) (H0 := absent_platform) "/project"
             empty_world
           = (Raise FileNotFoundError, w1)
           ∧ fs w1 !! os_path.join (os_path.join "/project" "build") "icon.png" = None
           ∧ fs w1 !! os_path.join (os_path.join "/project" "build") "icon.ico" = None
           ∧ Complete ∉ stdout w1).
Proof.
  split.
  - exists (generate_themed_icons.main (H := absent_platform) empty_world).2.
    split; [vm_compute; reflexivity |].
    intros theme_name theme_color Hin. vm_compute in Hin.
    repeat (apply elem_of_cons in Hin as [Heq | Hin];
            [first [discriminate Heq | by injection Heq as -> _] |]).
    by apply elem_of_nil in Hin.
  - set (build_dir := os_path.join "/project" "build").
    set (iconset_dir := os_path.join build_dir "icon.iconset").
    destruct (write_specs_files (H := sample_imaging) iconset_dir generate_icon.icon_specs
                icon_specs_names_NoDup icon_specs_range empty_world)
      as (w1 & Hrun & Hout & Hframe & _).
    exists w1. split; [| split; [| split]].
    + rewrite main_unfold. fold build_dir. fold iconset_dir.
      unfold generate_icon.write_iconset.
      rewrite (bind_run _ _ _ _ _ Hrun). apply bind_raise. reflexivity.
    + rewrite Hframe; [apply lookup_empty |].
      intros [n f] Hspec Heq. unfold generate_icon.icon_specs in Hspec.
      rewrite !elem_of_cons, elem_of_nil in Hspec.
      repeat (destruct Hspec as [[= -> ->] | Hspec]; [vm_compute in Heq; discriminate Heq |]).
      exact Hspec.
    + rewrite Hframe; [apply lookup_empty |].
      intros [n f] Hspec Heq. unfold generate_icon.icon_specs in Hspec.
      rewrite !elem_of_cons, elem_of_nil in Hspec.
      repeat (destruct Hspec as [[= -> ->] | Hspec]; [vm_compute in Heq; discriminate Heq |]).
      exact Hspec.
    + rewrite Hout. intros Hin. vm_compute in Hin.
      repeat (apply elem_of_cons in Hin as [Heq | Hin]; [discriminate Heq |]).
      by apply elem_of_nil in Hin.
Qed.
